(** * CompositeDataReader: the minibatch prefetch orchestrator

    A shallow embedding of [CompositeDataReader<ElemType>] (the reader that
    wires bundler, randomizer and packer together and keeps one prefetch task
    ahead of the training loop), with the properties of its epoch life cycle.

    The member functions are written in a small state monad over the
    reader's members.  A computation returns normally, throws a C++
    exception ([RuntimeError]), dies on a failed [assert], or runs into
    undefined behaviour; next to the new state it yields the list of the
    externally visible actions it performed, in program order. *)

From stdpp Require Import base option list strings gmap.
From Stdlib Require Import ZArith.

Local Open Scope Z_scope.

(** ** Data model *)

(** [std::launch]: the policy handed to [std::async]. *)
Inductive launch := async | deferred.

#[global] Instance launch_eq_dec : EqDecision launch.
Proof. solve_decision. Defined.

Inductive StorageType := dense | sparse_csc.

#[global] Instance StorageType_eq_dec : EqDecision StorageType.
Proof. solve_decision. Defined.

(** The tensor shape of one sample.  Its header is not among the sources; the
    reader only ever asks a shape for its number of elements. *)
Record TensorShape := { GetNumElements : Z }.

(** The minibatch layout.  Its header is not among the sources; the reader
    reads its column count and its number of parallel sequences, and copies
    layouts by value ([CopyFrom]). *)
Record MBLayout := {
  GetNumParallelSequences_ : Z;
  GetNumCols : Z
}.

Record StreamDescription := {
  m_name : string;
  m_id : nat;
  m_storageType : StorageType;
  m_sampleLayout : TensorShape
}.

(** [stream->m_storageType = StorageType::dense] on a fresh copy. *)
Definition set_m_storageType (t : StorageType) (s : StreamDescription)
  : StreamDescription :=
  {| m_name := m_name s; m_id := m_id s;
     m_storageType := t; m_sampleLayout := m_sampleLayout s |}.

(** One stream of a minibatch: the packed buffer and its layout. *)
Record StreamMinibatch := {
  sm_data : list Z;
  sm_layout : MBLayout
}.

Record Minibatch := {
  mb_endOfEpoch : bool;
  mb_data : list StreamMinibatch
}.

Record EpochConfiguration := {
  m_numberOfWorkers : Z;
  m_workerRank : Z;
  m_minibatchSizeInSamples : Z;
  m_totalEpochSizeInSamples : Z;
  m_epochIndex : Z
}.

(** A caller-owned matrix, as far as the reader is concerned: the device it
    lives on and what the last [SetValue] put into it. *)
Record Matrix := {
  GetDeviceId : Z;
  mx_numRows : Z;
  mx_numCols : Z;
  mx_values : list Z
}.

(** [SetValue(numRows, numCols, deviceId, data, matrixFlagNormal)]. *)
Definition SetValue (numRows numCols deviceId : Z) (data : list Z) : Matrix :=
  {| GetDeviceId := deviceId; mx_numRows := numRows;
     mx_numCols := numCols; mx_values := data |}.

(** [StreamMinibatchInputs]: an ordered map from stream name to matrix,
    iterated in key order. *)
Definition StreamMinibatchInputs := list (string * Matrix).

(** The configuration keys that [Init] consumes; [None] is an absent key. *)
Record ConfigParameters := {
  cfg_nbruttsineachrecurrentiter : option (list Z);
  cfg_prefetch : option bool;
  cfg_frameMode : option bool;
  cfg_truncated : option bool;
  cfg_checkData : option bool;
  cfg_verbosity : option Z;
  cfg_randomize : option bool;
  cfg_randomizationWindow : option Z
}.

(** The configuration with the [prefetch] key set. *)
Definition with_prefetch (b : bool) (cfg : ConfigParameters)
  : ConfigParameters :=
  {| cfg_nbruttsineachrecurrentiter := cfg_nbruttsineachrecurrentiter cfg;
     cfg_prefetch := Some b;
     cfg_frameMode := cfg_frameMode cfg; cfg_truncated := cfg_truncated cfg;
     cfg_checkData := cfg_checkData cfg; cfg_verbosity := cfg_verbosity cfg;
     cfg_randomize := cfg_randomize cfg;
     cfg_randomizationWindow := cfg_randomizationWindow cfg |}.

(** [config(L"key", dflt)]. *)
Definition config {A} (key : option A) (dflt : A) : A := default dflt key.

Inductive DecimationMode := chunk | sequence.

Inductive MemoryProvider := HeapMemoryProvider.

(** ** The collaborators

    Deserializers, bundler, randomizers, packers and the layout's [Init] are
    classes of their own, none of them among the sources.  The reader talks
    to them through the operations below only, so the development is
    parametric in them: their state is abstract, constructors and methods
    are functions on it.  The packer holds the randomizer it was created
    with, which is the one of the reader; [ReadMinibatch] therefore acts on
    both. *)
Class Collaborators := {
  Deserializer : Type;
  Bundler : Type;
  Randomizer : Type;
  Packer : Type;
  (** [(size_t)-1]-like sentinel: the whole data set. *)
  requestDataSize : Z;
  (** [make_shared<MBLayout>()] and [MBLayout::Init]. *)
  MBLayout_new : MBLayout;
  MBLayout_Init : Z -> Z -> MBLayout -> MBLayout;
  Bundler_new :
    ConfigParameters -> Deserializer -> list Deserializer -> bool -> Bundler;
  GetStreamDescriptions : Bundler -> list StreamDescription;
  BlockRandomizer_new :
    Z -> Z -> Bundler -> DecimationMode -> bool -> Randomizer;
  NoRandomizer_new : Bundler -> Randomizer;
  Randomizer_StartEpoch : EpochConfiguration -> Randomizer -> Randomizer;
  SampleModePacker_new :
    option MemoryProvider -> Z -> list StreamDescription -> Packer;
  SequencePacker_new :
    option MemoryProvider -> Z -> list StreamDescription -> Packer;
  (** [m_packer->ReadMinibatch()]: the packer pulls from the randomizer it
      shares with the reader. *)
  ReadMinibatch : Packer -> Randomizer -> Minibatch * Packer * Randomizer
}.

(** ** Futures *)

(** The shared state behind [std::future<Minibatch>]: which task it belongs
    to, the policy it was launched with, and the result once the task's body
    has run. *)
Record Future := {
  fut_task : nat;
  fut_policy : launch;
  fut_result : option Minibatch
}.

(** ** Observable actions

    What a member function does to the world around the reader: it launches
    a prefetch task ([std::async]), the body of a task runs, a task is
    awaited ([wait] or [get] returns), a future is let go of (overwritten by
    an assignment); the randomizer is started on an epoch, a packer is
    created; a layout is copied into the reader's, a caller's matrix is
    set. *)

Inductive event :=
| EvLaunch (task : nat) (policy : launch)
| EvRun (task : nat)
| EvJoin (task : nat)
| EvRelease (task : nat)
| EvRandomizerStartEpoch (cfg : EpochConfiguration)
| EvNewPacker (frameMode : bool) (minibatchSize : Z)
| EvCopyLayout (layout : MBLayout)
| EvSetValue (name : string) (numRows numCols deviceId : Z) (data : list Z).

Inductive exn :=
| RuntimeError (format : string) (arg : Z).

Inductive outcome (A : Type) :=
| Returned (a : A)
| Thrown (e : exn)
| Aborted
| Undefined.

Arguments Returned {A} a.
Arguments Thrown {A} e.
Arguments Aborted {A}.
Arguments Undefined {A}.

(** [(int) x] for a 64-bit [x]. *)
Definition to_int (x : Z) : Z := (x + 2 ^ 31) mod 2 ^ 32 - 2 ^ 31.

Section Reader.

Context `{Collaborators}.

(** [NDEBUG]: whether the translation unit is built with assertions
    compiled out. *)
Variable NDEBUG : bool.

(** The members of [CompositeDataReader], and the number of prefetch tasks
    launched so far (which names the next task). *)
Record Reader := {
  m_layout : MBLayout;
  m_provider : option MemoryProvider;
  m_launchType : launch;
  m_frameMode : bool;
  m_truncated : bool;
  m_deserializers : list Deserializer;
  m_randomizer : option Randomizer;
  m_packer : option Packer;
  m_streams : list StreamDescription;
  m_nameToStreamId : gmap string nat;
  m_endOfEpoch : bool;
  m_prefetchTask : option Future;
  launched : nat
}.

Definition set_m_layout (x : MBLayout) (r : Reader) : Reader :=
  {| m_layout := x; m_provider := m_provider r;
     m_launchType := m_launchType r; m_frameMode := m_frameMode r;
     m_truncated := m_truncated r; m_deserializers := m_deserializers r;
     m_randomizer := m_randomizer r; m_packer := m_packer r;
     m_streams := m_streams r; m_nameToStreamId := m_nameToStreamId r;
     m_endOfEpoch := m_endOfEpoch r; m_prefetchTask := m_prefetchTask r;
     launched := launched r |}.

Definition set_m_provider (x : option MemoryProvider) (r : Reader) : Reader :=
  {| m_layout := m_layout r; m_provider := x;
     m_launchType := m_launchType r; m_frameMode := m_frameMode r;
     m_truncated := m_truncated r; m_deserializers := m_deserializers r;
     m_randomizer := m_randomizer r; m_packer := m_packer r;
     m_streams := m_streams r; m_nameToStreamId := m_nameToStreamId r;
     m_endOfEpoch := m_endOfEpoch r; m_prefetchTask := m_prefetchTask r;
     launched := launched r |}.

Definition set_m_launchType (x : launch) (r : Reader) : Reader :=
  {| m_layout := m_layout r; m_provider := m_provider r;
     m_launchType := x; m_frameMode := m_frameMode r;
     m_truncated := m_truncated r; m_deserializers := m_deserializers r;
     m_randomizer := m_randomizer r; m_packer := m_packer r;
     m_streams := m_streams r; m_nameToStreamId := m_nameToStreamId r;
     m_endOfEpoch := m_endOfEpoch r; m_prefetchTask := m_prefetchTask r;
     launched := launched r |}.

Definition set_m_frameMode (x : bool) (r : Reader) : Reader :=
  {| m_layout := m_layout r; m_provider := m_provider r;
     m_launchType := m_launchType r; m_frameMode := x;
     m_truncated := m_truncated r; m_deserializers := m_deserializers r;
     m_randomizer := m_randomizer r; m_packer := m_packer r;
     m_streams := m_streams r; m_nameToStreamId := m_nameToStreamId r;
     m_endOfEpoch := m_endOfEpoch r; m_prefetchTask := m_prefetchTask r;
     launched := launched r |}.

Definition set_m_truncated (x : bool) (r : Reader) : Reader :=
  {| m_layout := m_layout r; m_provider := m_provider r;
     m_launchType := m_launchType r; m_frameMode := m_frameMode r;
     m_truncated := x; m_deserializers := m_deserializers r;
     m_randomizer := m_randomizer r; m_packer := m_packer r;
     m_streams := m_streams r; m_nameToStreamId := m_nameToStreamId r;
     m_endOfEpoch := m_endOfEpoch r; m_prefetchTask := m_prefetchTask r;
     launched := launched r |}.

Definition set_m_deserializers (x : list Deserializer) (r : Reader) : Reader :=
  {| m_layout := m_layout r; m_provider := m_provider r;
     m_launchType := m_launchType r; m_frameMode := m_frameMode r;
     m_truncated := m_truncated r; m_deserializers := x;
     m_randomizer := m_randomizer r; m_packer := m_packer r;
     m_streams := m_streams r; m_nameToStreamId := m_nameToStreamId r;
     m_endOfEpoch := m_endOfEpoch r; m_prefetchTask := m_prefetchTask r;
     launched := launched r |}.

Definition set_m_randomizer (x : option Randomizer) (r : Reader) : Reader :=
  {| m_layout := m_layout r; m_provider := m_provider r;
     m_launchType := m_launchType r; m_frameMode := m_frameMode r;
     m_truncated := m_truncated r; m_deserializers := m_deserializers r;
     m_randomizer := x; m_packer := m_packer r;
     m_streams := m_streams r; m_nameToStreamId := m_nameToStreamId r;
     m_endOfEpoch := m_endOfEpoch r; m_prefetchTask := m_prefetchTask r;
     launched := launched r |}.

Definition set_m_packer (x : option Packer) (r : Reader) : Reader :=
  {| m_layout := m_layout r; m_provider := m_provider r;
     m_launchType := m_launchType r; m_frameMode := m_frameMode r;
     m_truncated := m_truncated r; m_deserializers := m_deserializers r;
     m_randomizer := m_randomizer r; m_packer := x;
     m_streams := m_streams r; m_nameToStreamId := m_nameToStreamId r;
     m_endOfEpoch := m_endOfEpoch r; m_prefetchTask := m_prefetchTask r;
     launched := launched r |}.

Definition set_m_streams (x : list StreamDescription) (r : Reader) : Reader :=
  {| m_layout := m_layout r; m_provider := m_provider r;
     m_launchType := m_launchType r; m_frameMode := m_frameMode r;
     m_truncated := m_truncated r; m_deserializers := m_deserializers r;
     m_randomizer := m_randomizer r; m_packer := m_packer r;
     m_streams := x; m_nameToStreamId := m_nameToStreamId r;
     m_endOfEpoch := m_endOfEpoch r; m_prefetchTask := m_prefetchTask r;
     launched := launched r |}.

Definition set_m_nameToStreamId (x : gmap string nat) (r : Reader) : Reader :=
  {| m_layout := m_layout r; m_provider := m_provider r;
     m_launchType := m_launchType r; m_frameMode := m_frameMode r;
     m_truncated := m_truncated r; m_deserializers := m_deserializers r;
     m_randomizer := m_randomizer r; m_packer := m_packer r;
     m_streams := m_streams r; m_nameToStreamId := x;
     m_endOfEpoch := m_endOfEpoch r; m_prefetchTask := m_prefetchTask r;
     launched := launched r |}.

Definition set_m_endOfEpoch (x : bool) (r : Reader) : Reader :=
  {| m_layout := m_layout r; m_provider := m_provider r;
     m_launchType := m_launchType r; m_frameMode := m_frameMode r;
     m_truncated := m_truncated r; m_deserializers := m_deserializers r;
     m_randomizer := m_randomizer r; m_packer := m_packer r;
     m_streams := m_streams r; m_nameToStreamId := m_nameToStreamId r;
     m_endOfEpoch := x; m_prefetchTask := m_prefetchTask r;
     launched := launched r |}.

Definition set_m_prefetchTask (x : option Future) (r : Reader) : Reader :=
  {| m_layout := m_layout r; m_provider := m_provider r;
     m_launchType := m_launchType r; m_frameMode := m_frameMode r;
     m_truncated := m_truncated r; m_deserializers := m_deserializers r;
     m_randomizer := m_randomizer r; m_packer := m_packer r;
     m_streams := m_streams r; m_nameToStreamId := m_nameToStreamId r;
     m_endOfEpoch := m_endOfEpoch r; m_prefetchTask := x;
     launched := launched r |}.

Definition set_launched (x : nat) (r : Reader) : Reader :=
  {| m_layout := m_layout r; m_provider := m_provider r;
     m_launchType := m_launchType r; m_frameMode := m_frameMode r;
     m_truncated := m_truncated r; m_deserializers := m_deserializers r;
     m_randomizer := m_randomizer r; m_packer := m_packer r;
     m_streams := m_streams r; m_nameToStreamId := m_nameToStreamId r;
     m_endOfEpoch := m_endOfEpoch r; m_prefetchTask := m_prefetchTask r;
     launched := x |}.

(** ** The monad of member functions *)

Definition M (A : Type) : Type := Reader -> outcome A * Reader * list event.

Definition ret {A} (a : A) : M A := fun r => (Returned a, r, []).

Definition bind {A B} (c : M A) (k : A -> M B) : M B :=
  fun r =>
    match c r with
    | (Returned a, r1, ev1) =>
        match k a r1 with
        | (o, r2, ev2) => (o, r2, ev1 ++ ev2)
        end
    | (Thrown e, r1, ev1) => (Thrown e, r1, ev1)
    | (Aborted, r1, ev1) => (Aborted, r1, ev1)
    | (Undefined, r1, ev1) => (Undefined, r1, ev1)
    end.

#[global] Instance M_ret : MRet M := @ret.
#[global] Instance M_bind : MBind M := fun A B k c => bind c k.

Definition gets {A} (f : Reader -> A) : M A := fun r => (Returned (f r), r, []).
Definition modify (f : Reader -> Reader) : M unit :=
  fun r => (Returned tt, f r, []).
Definition emit (e : event) : M unit := fun r => (Returned tt, r, [e]).
Definition throw {A} (e : exn) : M A := fun r => (Thrown e, r, []).
Definition abort {A} : M A := fun r => (Aborted, r, []).
Definition undefined {A} : M A := fun r => (Undefined, r, []).

(** [assert(c)]: nothing when [NDEBUG] is defined, otherwise the process is
    aborted when [c] is false. *)
Definition assert (c : bool) : M unit :=
  if NDEBUG then ret tt else if c then ret tt else abort.

(** A range-for loop whose body yields the updated element. *)
Fixpoint for_each {A B} (f : A -> M B) (l : list A) : M (list B) :=
  match l with
  | [] => ret []
  | a :: l' => b ← f a; bs ← for_each f l'; ret (b :: bs)
  end.

(** [v[i]] on a [std::vector]: no bounds check. *)
Definition at_index {A} (v : list A) (i : nat) : M A :=
  match v !! i with
  | Some a => ret a
  | None => undefined
  end.

(** ** The prefetch task *)

(** The body of the task, [m_packer->ReadMinibatch()].  The lambda captures
    [this], so the packer is the one installed when the body runs. *)
Definition prefetch_body : M Minibatch :=
  fun r =>
    match m_packer r, m_randomizer r with
    | Some p, Some z =>
        match ReadMinibatch p z with
        | (mb, p', z') =>
            (Returned mb,
             set_m_randomizer (Some z') (set_m_packer (Some p') r), [])
        end
    | _, _ => (Undefined, r, [])
    end.

(** Completes the task behind [f] if it has not run yet: a deferred task runs
    in the caller, an asynchronous one is waited for. *)
Definition complete (f : Future) : M Minibatch :=
  match fut_result f with
  | Some mb => ret mb
  | None => mb ← prefetch_body; emit (EvRun (fut_task f));; ret mb
  end.

(** [m_prefetchTask.wait()]: the future stays valid and becomes ready. *)
Definition future_wait : M unit :=
  t ← gets m_prefetchTask;
  match t with
  | None => undefined
  | Some f =>
      mb ← complete f;
      modify (set_m_prefetchTask
                (Some {| fut_task := fut_task f; fut_policy := fut_policy f;
                         fut_result := Some mb |}));;
      emit (EvJoin (fut_task f))
  end.

(** [m_prefetchTask.get()]: the result is moved out and the future becomes
    invalid. *)
Definition future_get : M Minibatch :=
  t ← gets m_prefetchTask;
  match t with
  | None => undefined
  | Some f =>
      mb ← complete f;
      modify (set_m_prefetchTask None);;
      emit (EvJoin (fut_task f));;
      ret mb
  end.

(** What move-assignment does to the future it overwrites: the last
    reference to the state of an asynchronous task that has not finished
    blocks until it has; any other state is simply dropped. *)
Definition future_release (old : Future) : M unit :=
  match fut_result old, fut_policy old with
  | None, async =>
      _ ← prefetch_body; emit (EvRun (fut_task old));;
      emit (EvRelease (fut_task old))
  | _, _ => emit (EvRelease (fut_task old))
  end.

(** [m_prefetchTask = std::async(m_launchType, [this]() { return
    m_packer->ReadMinibatch(); })]. *)
Definition launch_prefetch : M unit :=
  id ← gets launched;
  policy ← gets m_launchType;
  modify (set_launched (S id));;
  emit (EvLaunch id policy);;
  old ← gets m_prefetchTask;
  match old with
  | Some f => future_release f
  | None => ret tt
  end;;
  modify (set_m_prefetchTask
            (Some {| fut_task := id; fut_policy := policy;
                     fut_result := None |})).

(** [m_prefetchTask.valid()]. *)
Definition valid (r : Reader) : bool :=
  match m_prefetchTask r with
  | Some _ => true
  | None => false
  end.

(** One turn of the prefetch thread: an asynchronous task that has not run
    yet runs its body. *)
Definition prefetch_thread : M unit :=
  t ← gets m_prefetchTask;
  match t with
  | Some f =>
      match fut_result f, fut_policy f with
      | None, async =>
          mb ← prefetch_body;
          modify (set_m_prefetchTask
                    (Some {| fut_task := fut_task f;
                             fut_policy := fut_policy f;
                             fut_result := Some mb |}));;
          emit (EvRun (fut_task f))
      | _, _ => ret tt
      end
  | None => ret tt
  end.

(** ** Member functions *)

(** The constructor initialises [m_layout] only; the scalar members it
    leaves alone are arguments here. *)
Definition CompositeDataReader_new
    (deserializers : list Deserializer)
    (launchType : launch) (frameMode truncated endOfEpoch : bool) : Reader :=
  {| m_layout := MBLayout_new; m_provider := None;
     m_launchType := launchType; m_frameMode := frameMode;
     m_truncated := truncated; m_deserializers := deserializers;
     m_randomizer := None; m_packer := None;
     m_streams := []; m_nameToStreamId := ∅;
     m_endOfEpoch := endOfEpoch; m_prefetchTask := None;
     launched := 0 |}.

(** [std::map::insert]: an existing key keeps its value. *)
Definition map_insert (k : string) (v : nat) (m : gmap string nat)
  : gmap string nat :=
  match m !! k with
  | Some _ => m
  | None => <[k:=v]> m
  end.

(** The loop at the end of [Init]: publish a dense copy of every stream of
    the bundler. *)
Definition publish_stream (streamDescription : StreamDescription) : M unit :=
  let stream := set_m_storageType dense streamDescription in
  modify (fun r => set_m_streams (m_streams r ++ [stream]) r);;
  modify (fun r =>
            set_m_nameToStreamId
              (map_insert (m_name streamDescription) (m_id streamDescription)
                          (m_nameToStreamId r)) r).

Definition Init (cfg : ConfigParameters) : M unit :=
  let numberOfuttsPerMinibatchForAllEpochs :=
    config (cfg_nbruttsineachrecurrentiter cfg) [1] in
  let prefetch := config (cfg_prefetch cfg) true in
  modify (set_m_provider (Some HeapMemoryProvider));;
  modify (set_m_launchType (if prefetch then async else deferred));;
  let numSeqsPerMBForAllEpochs := numberOfuttsPerMinibatchForAllEpochs in
  n0 ← at_index numSeqsPerMBForAllEpochs 0%nat;
  modify (fun r => set_m_layout (MBLayout_Init n0 0 (m_layout r)) r);;
  modify (set_m_frameMode (config (cfg_frameMode cfg) true));;
  modify (set_m_truncated (config (cfg_truncated cfg) false));;
  let cleanse := config (cfg_checkData cfg) false in
  deserializers ← gets m_deserializers;
  d0 ← at_index deserializers 0%nat;
  let bundler := Bundler_new cfg d0 deserializers cleanse in
  let verbosity := config (cfg_verbosity cfg) 2 in
  let randomize := config (cfg_randomize cfg) false in
  (if randomize then
     let randomizationWindow :=
       config (cfg_randomizationWindow cfg) requestDataSize in
     modify (set_m_randomizer
               (Some (BlockRandomizer_new verbosity randomizationWindow
                                          bundler chunk true)))
   else
     modify (set_m_randomizer (Some (NoRandomizer_new bundler))));;
  _ ← for_each publish_stream (GetStreamDescriptions bundler);
  ret tt.

Definition StartEpoch (cfg : EpochConfiguration) : M unit :=
  (if bool_decide (m_totalEpochSizeInSamples cfg <= 0) then
     throw (RuntimeError "Unsupported minibatch size '%d'."
                         (to_int (m_totalEpochSizeInSamples cfg)))
   else ret tt);;
  z ← gets m_randomizer;
  match z with
  | None => undefined
  | Some z =>
      modify (set_m_randomizer (Some (Randomizer_StartEpoch cfg z)));;
      emit (EvRandomizerStartEpoch cfg)
  end;;
  frameMode ← gets m_frameMode;
  (if frameMode then
     modify (fun r =>
               set_m_packer
                 (Some (SampleModePacker_new
                          (m_provider r) (m_minibatchSizeInSamples cfg)
                          (m_streams r))) r)
   else
     modify (fun r =>
               set_m_packer
                 (Some (SequencePacker_new
                          (m_provider r) (m_minibatchSizeInSamples cfg)
                          (m_streams r))) r));;
  emit (EvNewPacker frameMode (m_minibatchSizeInSamples cfg)).

Definition StartDistributedMinibatchLoop
    (requestedMBSize epoch subsetNum numSubsets requestedEpochSamples : Z)
  : M unit :=
  let cfg :=
    {| m_workerRank := subsetNum;
       m_numberOfWorkers := numSubsets;
       m_minibatchSizeInSamples := requestedMBSize;
       m_totalEpochSizeInSamples := requestedEpochSamples;
       m_epochIndex := epoch |} in
  modify (set_m_endOfEpoch false);;
  isValid ← gets valid;
  (if isValid : bool then future_wait else ret tt);;
  StartEpoch cfg;;
  launch_prefetch.

Definition StartMinibatchLoop (mbSize epoch requestedEpochSamples : Z)
  : M unit :=
  StartDistributedMinibatchLoop mbSize epoch 0 1 requestedEpochSamples.

(** The body of the device loop: [if (mx.second->GetDeviceId() != deviceId)
    assert(false);]. *)
Definition device_probe (deviceId : Z) (mx : string * Matrix) : M unit :=
  if bool_decide (GetDeviceId mx.2 ≠ deviceId) then assert false else ret tt.

(** The device check at the head of [GetMinibatch].  The reference id comes
    from [matrices.begin()], which must not be dereferenced when the
    collection is empty. *)
Definition check_devices (matrices : StreamMinibatchInputs) : M unit :=
  first ← match matrices with
          | [] => undefined
          | mx :: _ => ret mx
          end;
  let deviceId := GetDeviceId first.2 in
  _ ← for_each (device_probe deviceId) matrices;
  ret tt.

(** [m_nameToStreamId[name]]: a missing key is inserted with value 0. *)
Definition nameToStreamId_at (name : string) : M nat :=
  m ← gets m_nameToStreamId;
  match m !! name with
  | Some id => ret id
  | None =>
      modify (set_m_nameToStreamId (<[name:=0%nat]> m));;
      ret 0%nat
  end.

(** The body of the copy loop for one requested stream. *)
Definition copy_stream (minibatch : Minibatch) (mx : string * Matrix)
  : M (string * Matrix) :=
  m ← gets m_nameToStreamId;
  assert (bool_decide (is_Some (m !! mx.1)));;
  streamId ← nameToStreamId_at mx.1;
  stream ← at_index (mb_data minibatch) streamId;
  modify (set_m_layout (sm_layout stream));;
  emit (EvCopyLayout (sm_layout stream));;
  columnNumber ← gets (fun r => GetNumCols (m_layout r));
  streams ← gets m_streams;
  description ← at_index streams streamId;
  let rowNumber := GetNumElements (m_sampleLayout description) in
  let data := sm_data stream in
  emit (EvSetValue mx.1 rowNumber columnNumber (GetDeviceId mx.2) data);;
  ret (mx.1, SetValue rowNumber columnNumber (GetDeviceId mx.2) data).

Definition is_empty {A} (l : list A) : bool :=
  match l with [] => true | _ => false end.

Definition GetMinibatch (matrices : StreamMinibatchInputs)
  : M (bool * StreamMinibatchInputs) :=
  endOfEpoch ← gets m_endOfEpoch;
  if endOfEpoch : bool then ret (false, matrices)
  else
    check_devices matrices;;
    isValid ← gets valid;
    assert isValid;;
    minibatch ← future_get;
    (if mb_endOfEpoch minibatch then modify (set_m_endOfEpoch true)
     else ret tt);;
    if mb_endOfEpoch minibatch && is_empty (mb_data minibatch)
    then ret (false, matrices)
    else
      matrices' ← (if negb (is_empty (mb_data minibatch))
                   then for_each (copy_stream minibatch) matrices
                   else ret matrices);
      launch_prefetch;;
      ret (negb (is_empty (mb_data minibatch)), matrices').

Definition DataEnd : M bool := ret false.

Definition CopyMBLayoutTo : M MBLayout := gets m_layout.

Definition GetNumParallelSequences : M Z :=
  gets (fun r => GetNumParallelSequences_ (m_layout r)).

(** ** Deserializers

    [m_deserializers] holds [IDataDeserializerPtr]s; [nullptr] is the null
    one.  [ConfigValue] is the type of the elements of the [deserializers]
    array of the reader's configuration, the only key that
    [CreateDeserializers] reads; [None] is an absent key. *)
Section Deserializers.

Context {ConfigValue : Type}.
Variable nullptr : Deserializer.

Definition CreateDeserializer (deserializerConfig : ConfigValue)
  : M Deserializer :=
  ret nullptr.

(** The body of the loop of [CreateDeserializers]. *)
Definition push_deserializer (deserializerConfig : ConfigValue) : M unit :=
  d ← CreateDeserializer deserializerConfig;
  modify (fun r => set_m_deserializers (m_deserializers r ++ [d]) r).

Definition CreateDeserializers (cfg_deserializers : option (list ConfigValue))
  : M unit :=
  let deserializerConfigs := config cfg_deserializers [] in
  ds ← gets m_deserializers;
  assert (is_empty ds);;
  _ ← for_each push_deserializer deserializerConfigs;
  ret tt.

End Deserializers.

(** ** Sessions

    The training loop calls the reader from one thread; an asynchronous
    prefetch task runs on a thread of its own.  A schedule lists the calls
    of the training loop and, between them, the turns of the prefetch
    thread.  A turn of the thread during a call is a turn just before or
    just after it: up to its [wait] or [get] a call reads and writes only
    [m_endOfEpoch] and the caller's buffers, after the launch that ends it
    it touches no member, and the task's body touches the packer and the
    randomizer only. *)

Inductive call :=
| CallStartDistributedMinibatchLoop
    (requestedMBSize epoch subsetNum numSubsets requestedEpochSamples : Z)
| CallGetMinibatch (matrices : StreamMinibatchInputs)
| CallCopyMBLayoutTo
| PrefetchThread.

Inductive answer :=
| AnsStart (o : outcome unit)
| AnsGetMinibatch (o : outcome (bool * StreamMinibatchInputs))
| AnsLayout (o : outcome MBLayout)
| AnsThread (o : outcome unit).

Definition step (c : call) (r : Reader) : answer * Reader * list event :=
  match c with
  | CallStartDistributedMinibatchLoop mb ep rank workers total =>
      match StartDistributedMinibatchLoop mb ep rank workers total r with
      | (o, r', ev) => (AnsStart o, r', ev)
      end
  | CallGetMinibatch matrices =>
      match GetMinibatch matrices r with
      | (o, r', ev) => (AnsGetMinibatch o, r', ev)
      end
  | CallCopyMBLayoutTo =>
      match CopyMBLayoutTo r with
      | (o, r', ev) => (AnsLayout o, r', ev)
      end
  | PrefetchThread =>
      match prefetch_thread r with
      | (o, r', ev) => (AnsThread o, r', ev)
      end
  end.

(** A failed assertion or undefined behaviour ends the process; a thrown
    exception goes to the caller, who may carry on. *)
Definition fatal_outcome {A} (o : outcome A) : bool :=
  match o with
  | Aborted | Undefined => true
  | _ => false
  end.

Definition fatal (a : answer) : bool :=
  match a with
  | AnsStart o => fatal_outcome o
  | AnsGetMinibatch o => fatal_outcome o
  | AnsLayout o => fatal_outcome o
  | AnsThread o => fatal_outcome o
  end.

Fixpoint run (cs : list call) (r : Reader)
  : list answer * Reader * list event :=
  match cs with
  | [] => ([], r, [])
  | c :: cs' =>
      match step c r with
      | (a, r1, ev1) =>
          if fatal a then ([a], r1, ev1)
          else
            match run cs' r1 with
            | (answers, r2, ev2) => (a :: answers, r2, ev1 ++ ev2)
            end
      end
  end.

(** A session: construct, [Init], then the schedule. *)
Definition session (r0 : Reader) (cfg : ConfigParameters) (cs : list call)
  : list answer * Reader * list event :=
  match Init cfg r0 with
  | (Returned _, r, ev) =>
      match run cs r with
      | (answers, r', ev') => (answers, r', ev ++ ev')
      end
  | (_, r, ev) => ([], r, ev)
  end.

(** What the training loop sees of a session. *)
Definition is_thread (a : answer) : bool :=
  match a with AnsThread _ => true | _ => false end.

Definition loop_view (answers : list answer) : list answer :=
  filter (fun a => is_thread a = false) answers.

Definition is_thread_call (c : call) : bool :=
  match c with PrefetchThread => true | _ => false end.

Definition loop_calls (cs : list call) : list call :=
  filter (fun c => is_thread_call c = false) cs.

End Reader.

(** ** Vocabulary of the properties *)

(** All the caller's buffers live on one device. *)
Definition same_device (matrices : StreamMinibatchInputs) : Prop :=
  forall a b, a ∈ matrices -> b ∈ matrices ->
    GetDeviceId a.2 = GetDeviceId b.2.

(** The ghost value of properties that need none. *)
Definition silent : unit -> event -> unit := fun g _ => g.
Definition always : unit -> Prop := fun _ => True.

(** The ghost value that records what has been done. *)
Definition record : list event -> event -> list event :=
  fun g e => g ++ [e].
Definition whatever : list event -> Prop := fun _ => True.

Definition is_dense (s : StreamDescription) : Prop := m_storageType s = dense.


(** ** A program logic for member functions

    Assertions speak about the reader and about a ghost value that is
    advanced by every action the computation performs; [safe] must hold of
    the ghost value after each single action.  [wp c Q E] holds of a state
    from which [c] acts safely and ends in [Q] when it returns and in [E]
    when it throws, aborts or is undefined. *)
Section Logic.

Context `{Collaborators} {G : Type}.
Variable advance : G -> event -> G.
Variable safe : G -> Prop.

Fixpoint safely (g : G) (ev : list event) : Prop :=
  match ev with
  | [] => True
  | e :: ev' => safe (advance g e) /\ safely (advance g e) ev'
  end.

Definition wp {A} (c : M A)
    (Q : A -> G -> Reader -> Prop) (E : G -> Reader -> Prop)
  : G -> Reader -> Prop :=
  fun g r =>
    match c r with
    | (o, r', ev) =>
        safely g ev /\
        match o with
        | Returned a => Q a (foldl advance g ev) r'
        | _ => E (foldl advance g ev) r'
        end
    end.

End Logic.

Section Vocabulary.

Context `{Collaborators}.

(** [c] keeps the property [P] of the reader, however it ends. *)
Definition keeps {A} (c : M A) (P : Reader -> Prop) : Prop :=
  forall r, P r ->
    wp silent always c (fun _ _ r' => P r') (fun _ r' => P r') tt r.

(** The minibatch that awaiting the prefetch task hands over. *)
Definition pending_minibatch (r : Reader) : option Minibatch :=
  match m_prefetchTask r with
  | None => None
  | Some f =>
      match fut_result f with
      | Some mb => Some mb
      | None =>
          match m_packer r, m_randomizer r with
          | Some p, Some z => Some (ReadMinibatch p z).1.1
          | _, _ => None
          end
      end
  end.

(** The reader has a packer and a randomizer. *)
Definition equipped (r : Reader) : Prop :=
  is_Some (m_packer r) /\ is_Some (m_randomizer r).

(** The stream id that the copy loop uses for a name: the registered one,
    else the 0 that [operator[]] inserts. *)
Definition streamId_of (r : Reader) (name : string) : nat :=
  default 0%nat (m_nameToStreamId r !! name).

(** [mx'] is the buffer [mx] after the stream it names has been copied into
    it: as many rows as the stream's sample layout has elements, as many
    columns as the layout packed with the stream has, on the device the
    buffer was on. *)
Definition copied (r : Reader) (mb : Minibatch) (mx mx' : string * Matrix)
  : Prop :=
  exists stream description,
    mb_data mb !! streamId_of r mx.1 = Some stream /\
    m_streams r !! streamId_of r mx.1 = Some description /\
    mx' = (mx.1,
           SetValue (GetNumElements (m_sampleLayout description))
                    (GetNumCols (sm_layout stream))
                    (GetDeviceId mx.2) (sm_data stream)).

(** The buffers ask for streams that were published and that the minibatch
    carries. *)
Definition requested_ok (r : Reader) (mb : Minibatch)
    (matrices : StreamMinibatchInputs) : Prop :=
  forall mx, mx ∈ matrices ->
    is_Some (m_nameToStreamId r !! mx.1) /\
    is_Some (mb_data mb !! streamId_of r mx.1) /\
    is_Some (m_streams r !! streamId_of r mx.1).

(** [r'] differs from [r] at most in the layout and in names that the copy
    loop registered under id 0. *)
Definition only_copied (r r' : Reader) : Prop :=
  m_provider r' = m_provider r /\
  m_launchType r' = m_launchType r /\
  m_frameMode r' = m_frameMode r /\
  m_truncated r' = m_truncated r /\
  m_deserializers r' = m_deserializers r /\
  m_randomizer r' = m_randomizer r /\
  m_packer r' = m_packer r /\
  m_streams r' = m_streams r /\
  m_endOfEpoch r' = m_endOfEpoch r /\
  m_prefetchTask r' = m_prefetchTask r /\
  launched r' = launched r /\
  forall name,
    streamId_of r' name = streamId_of r name /\
    (is_Some (m_nameToStreamId r !! name) ->
     is_Some (m_nameToStreamId r' !! name)).

(** The actions of awaiting a task, and those of the copy loop. *)
Definition is_await_event (e : event) : Prop :=
  match e with
  | EvRun _ | EvJoin _ => True
  | _ => False
  end.

Definition is_copy_event (e : event) : Prop :=
  match e with
  | EvCopyLayout _ | EvSetValue _ _ _ _ _ => True
  | _ => False
  end.

Definition is_launch_event (e : event) : Prop :=
  match e with
  | EvLaunch _ _ => True
  | _ => False
  end.

Definition is_release_event (e : event) : Prop :=
  match e with
  | EvRelease _ => True
  | _ => False
  end.

(** What awaiting the task of the future does: the task runs if it has not
    yet, and is joined. *)
Definition await_events (r : Reader) : list event :=
  match m_prefetchTask r with
  | None => []
  | Some f =>
      match fut_result f with
      | Some _ => [EvJoin (fut_task f)]
      | None => [EvRun (fut_task f); EvJoin (fut_task f)]
      end
  end.


(** The name table after the streams [l] have been registered in this
    order on top of [m]. *)
Definition published_names (l : list StreamDescription)
    (m : gmap string nat) : gmap string nat :=
  foldl (fun m s => map_insert (m_name s) (m_id s) m) m l.

(** The first stream called [name]. *)
Definition first_named (name : string) (l : list StreamDescription)
  : option StreamDescription :=
  List.find (fun s => bool_decide (m_name s = name)) l.

(** The streams that the buffers name are carried by the minibatch and
    were published, whether the names are registered or not. *)
Definition in_range (r : Reader) (mb : Minibatch)
    (matrices : StreamMinibatchInputs) : Prop :=
  forall mx, mx ∈ matrices ->
    is_Some (mb_data mb !! streamId_of r mx.1) /\
    is_Some (m_streams r !! streamId_of r mx.1).

(** Every buffer names a registered stream. *)
Definition registered (r : Reader) (matrices : StreamMinibatchInputs)
  : Prop :=
  forall mx, mx ∈ matrices -> is_Some (m_nameToStreamId r !! mx.1).

(** What the copy loop leaves of the tables: the published streams and
    the prefetch task stay, every name leads to the stream id it led to,
    and in a build with assertions the name table stays. *)
Definition same_tables (ndebug : bool) (r r' : Reader) : Prop :=
  m_streams r' = m_streams r /\
  m_prefetchTask r' = m_prefetchTask r /\
  launched r' = launched r /\
  m_launchType r' = m_launchType r /\
  m_endOfEpoch r' = m_endOfEpoch r /\
  (forall name, streamId_of r' name = streamId_of r name) /\
  (ndebug = false -> m_nameToStreamId r' = m_nameToStreamId r).

(** A buffer names a registered stream that the minibatch does not carry
    or that was not published. *)
Definition registered_out_of_range (r : Reader) (mb : Minibatch)
    (matrices : StreamMinibatchInputs) : Prop :=
  exists mx id,
    mx ∈ matrices /\ m_nameToStreamId r !! mx.1 = Some id /\
    ¬ (is_Some (mb_data mb !! id) /\ is_Some (m_streams r !! id)).

(** What the way the copy loop over [matrices] ended says about the
    buffers: it returns for buffers whose streams are there and, with
    assertions, registered, leaving every name it met registered; it fails
    an assertion on an unregistered name; it is undefined on a stream id
    out of range; it never throws. *)
Definition copy_loop_spec (ndebug : bool) (mb : Minibatch)
    (matrices : StreamMinibatchInputs) (r : Reader)
    {A} (o : outcome A) (r' : Reader) : Prop :=
  same_tables ndebug r r' /\
  match o with
  | Returned _ =>
      in_range r mb matrices /\
      (ndebug = false -> registered r matrices) /\
      forall name,
        m_nameToStreamId r' !! name =
        match m_nameToStreamId r !! name with
        | Some id => Some id
        | None =>
            if ndebug && bool_decide (name ∈ matrices.*1)
            then Some 0%nat else None
        end
  | Aborted => ndebug = false /\ ¬ registered r matrices
  | Undefined =>
      ¬ in_range r mb matrices /\
      (ndebug = false -> registered_out_of_range r mb matrices)
  | Thrown _ => False
  end.

(** [c] does the same whatever [m_truncated] holds, and leaves it
    alone. *)
Definition ignores_truncated {A} (c : M A) : Prop :=
  forall b r,
    c (set_m_truncated b r) =
    match c r with
    | (o, r', ev) => (o, set_m_truncated b r', ev)
    end.

(** The launch policy is the deferred one, and so is that of the task of
    the future, if any. *)
Definition all_deferred (r : Reader) : Prop :=
  m_launchType r = deferred /\
  forall f, m_prefetchTask r = Some f -> fut_policy f = deferred.

(** The state in which [get] leaves the reader: the task's body has run if
    it had not, and the future is invalid. *)
Definition after_get (r : Reader) : Reader :=
  match m_prefetchTask r with
  | None => r
  | Some f =>
      match fut_result f with
      | Some _ => set_m_prefetchTask None r
      | None =>
          match m_packer r, m_randomizer r with
          | Some p, Some z =>
              set_m_prefetchTask None
                (set_m_randomizer (Some (ReadMinibatch p z).2)
                   (set_m_packer (Some (ReadMinibatch p z).1.2) r))
          | _, _ => r
          end
      end
  end.

(** The layout that the copy loop leaves in the reader after the buffers
    [seen]: the one packed with the stream of the last of them. *)
Definition layout_after (r0 : Reader) (mb : Minibatch)
    (seen : StreamMinibatchInputs) (r' : Reader) : Prop :=
  match last seen with
  | None => m_layout r' = m_layout r0
  | Some mx =>
      exists stream,
        mb_data mb !! streamId_of r0 mx.1 = Some stream /\
        m_layout r' = sm_layout stream
  end.

(** What a call of [GetMinibatch] that received [mb] from the prefetch task
    leaves behind: the answer [b], the buffers [ms'], the actions [ev] and
    the reader [r']. *)
Definition handed_over (r : Reader) (mb : Minibatch)
    (matrices : StreamMinibatchInputs)
    (b : bool) (ms' : StreamMinibatchInputs) (ev : list event) (r' : Reader)
  : Prop :=
  let r1 := if mb_endOfEpoch mb then set_m_endOfEpoch true (after_get r)
            else after_get r in
  b = negb (is_empty (mb_data mb)) /\
  if mb_endOfEpoch mb && is_empty (mb_data mb)
  then ms' = matrices /\ ev = await_events r /\ r' = r1
  else
    exists r2 ev_copy,
      only_copied r1 r2 /\
      Forall is_copy_event ev_copy /\
      (if is_empty (mb_data mb)
       then ms' = matrices /\ r2 = r1 /\ ev_copy = []
       else Forall2 (copied r mb) matrices ms' /\
            layout_after r mb matrices r2) /\
      ev = await_events r ++ ev_copy
           ++ [EvLaunch (launched r) (m_launchType r)] /\
      r' = set_m_prefetchTask
             (Some {| fut_task := launched r; fut_policy := m_launchType r;
                      fut_result := None |})
             (set_launched (S (launched r)) r2).

(** The state in which [wait] leaves the reader: as after [get], but with
    the future still valid and ready. *)
Definition after_wait (r : Reader) : Reader :=
  match m_prefetchTask r with
  | None => r
  | Some f =>
      set_m_prefetchTask
        (Some {| fut_task := fut_task f; fut_policy := fut_policy f;
                 fut_result := pending_minibatch r |})
        (after_get r)
  end.

(** *** Two readers side by side *)

(** [rwp c1 c2 Q E] holds of two readers from which [c1] and [c2] end the
    same way: both return, with the same value and in readers related by
    [Q]; both throw, the same exception and in readers related by [E];
    both abort; or both are undefined. *)
Definition rwp {A} (c1 c2 : M A)
    (Q : A -> Reader -> Reader -> Prop) (E : Reader -> Reader -> Prop)
  : Reader -> Reader -> Prop :=
  fun r1 r2 =>
    match c1 r1, c2 r2 with
    | (Returned a1, r1', _), (Returned a2, r2', _) => a1 = a2 /\ Q a1 r1' r2'
    | (Thrown e1, r1', _), (Thrown e2, r2', _) => e1 = e2 /\ E r1' r2'
    | (Aborted, _, _), (Aborted, _, _) => True
    | (Undefined, _, _), (Undefined, _, _) => True
    | _, _ => False
    end.

(** The members that do not depend on when the prefetch task runs. *)
Definition members (r : Reader) :=
  (m_layout r, m_provider r, m_frameMode r, m_truncated r,
   m_deserializers r, m_streams r, m_nameToStreamId r, m_endOfEpoch r,
   launched r).

(** What the future, the packer and the randomizer will be once the task of
    the future has run. *)
Definition outlook (r : Reader)
  : option (nat * option Minibatch) * option Packer * option Randomizer :=
  match m_prefetchTask r with
  | None => (None, m_packer r, m_randomizer r)
  | Some f =>
      match fut_result f with
      | Some mb => (Some (fut_task f, Some mb), m_packer r, m_randomizer r)
      | None =>
          match m_packer r, m_randomizer r with
          | Some p, Some z =>
              (Some (fut_task f, Some (ReadMinibatch p z).1.1),
               Some (ReadMinibatch p z).1.2, Some (ReadMinibatch p z).2)
          | _, _ => (Some (fut_task f, None), m_packer r, m_randomizer r)
          end
      end
  end.

(** A reader with a task has a packer and a randomizer for it. *)
Definition wf (r : Reader) : Prop :=
  is_Some (m_prefetchTask r) -> equipped r.

(** The task of the future, if any, has run. *)
Definition settled (r : Reader) : Prop :=
  forall f, m_prefetchTask r = Some f -> is_Some (fut_result f).

(** Two readers that differ in the launch policy and in whether the
    prefetch task has run yet, and in nothing else. *)
Definition sim (r1 r2 : Reader) : Prop :=
  members r1 = members r2 /\ outlook r1 = outlook r2 /\ wf r1 /\ wf r2.

(** The name and the result of the task of the future. *)
Definition task_key (r : Reader) : option (nat * option Minibatch) :=
  match m_prefetchTask r with
  | Some f => Some (fut_task f, fut_result f)
  | None => None
  end.

(** Two readers whose tasks, if any, have run, and that differ in the
    launch policy only. *)
Definition agree (r1 r2 : Reader) : Prop :=
  members r1 = members r2 /\
  m_packer r1 = m_packer r2 /\ m_randomizer r1 = m_randomizer r2 /\
  task_key r1 = task_key r2 /\
  settled r1 /\ wf r1 /\ wf r2.

(** The prefetch tasks outstanding are the one in the future, if any, and
    task names below [launched] are taken. *)
Definition slot_holds (out : list nat) (r : Reader) : Prop :=
  (out = [] \/ exists f, m_prefetchTask r = Some f /\ out = [fut_task f]) /\
  forall f, m_prefetchTask r = Some f -> (fut_task f < launched r)%nat.

(** No prefetch task is outstanding, and the future is invalid or ready. *)
Definition all_joined (out : list nat) (r : Reader) : Prop :=
  out = [] /\
  forall f, m_prefetchTask r = Some f ->
    (fut_task f < launched r)%nat /\ is_Some (fut_result f).

End Vocabulary.

(** ** Outstanding prefetch tasks *)

(** A task is outstanding from its launch until the reader has awaited it
    ([wait] or [get] returned) or let go of it. *)
Definition track (out : list nat) (e : event) : list nat :=
  match e with
  | EvLaunch i _ => out ++ [i]
  | EvJoin i | EvRelease i => filter (fun j => j ≠ i) out
  | _ => out
  end.

Definition outstanding (trace : list event) : list nat :=
  foldl track [] trace.

Definition at_most_one (out : list nat) : Prop := (length out <= 1)%nat.

(** ** A small reader to run *)

Module Fixture.

(** Modelled from the spec: bundler, randomizer and packer are not among the
    sources.  The randomizer is the passthrough one and counts the samples
    of the epoch it has handed out; the packer is the sample-mode one and
    cuts minibatches of the requested size; a last minibatch that cannot be
    filled carries the end-of-epoch flag, and so does the empty minibatch
    read once the epoch is exhausted. *)
Record Counter := { epochSize : Z; handedOut : Z }.

Definition features : StreamDescription :=
  {| m_name := "features"; m_id := 0; m_storageType := sparse_csc;
     m_sampleLayout := {| GetNumElements := 3 |} |}.

Definition labels : StreamDescription :=
  {| m_name := "labels"; m_id := 1; m_storageType := dense;
     m_sampleLayout := {| GetNumElements := 1 |} |}.

(** Modelled from the spec: [ReadMinibatch] of the sample-mode packer over
    the passthrough randomizer, with two streams, [features] of three
    elements a sample and [labels] of one. *)
Definition pack (size : Z) (z : Counter) : Minibatch * Z * Counter :=
  let left := epochSize z - handedOut z in
  let n := Z.max 0 (Z.min size left) in
  let layout := {| GetNumParallelSequences_ := n; GetNumCols := n |} in
  let column := seqZ (handedOut z) n in
  ({| mb_endOfEpoch := bool_decide (n < size) || bool_decide (left <= 0);
      mb_data :=
        if bool_decide (0 < n) then
          [ {| sm_data := column ++ column ++ column; sm_layout := layout |};
            {| sm_data := column; sm_layout := layout |} ]
        else [] |},
   size,
   {| epochSize := epochSize z; handedOut := handedOut z + n |}).

(** Modelled from the spec: the collaborators of a reader over the two
    streams, without randomization. *)
#[global] Instance collaborators : Collaborators := {|
  Deserializer := unit;
  Bundler := list StreamDescription;
  Randomizer := Counter;
  Packer := Z;
  requestDataSize := 2 ^ 64 - 1;
  MBLayout_new := {| GetNumParallelSequences_ := 0; GetNumCols := 0 |};
  MBLayout_Init := fun n t _ =>
    {| GetNumParallelSequences_ := n; GetNumCols := n * t |};
  Bundler_new := fun _ _ _ _ => [features; labels];
  GetStreamDescriptions := fun b => b;
  BlockRandomizer_new := fun _ _ _ _ _ => {| epochSize := 0; handedOut := 0 |};
  NoRandomizer_new := fun _ => {| epochSize := 0; handedOut := 0 |};
  Randomizer_StartEpoch := fun cfg _ =>
    {| epochSize := m_totalEpochSizeInSamples cfg; handedOut := 0 |};
  SampleModePacker_new := fun _ size _ => size;
  SequencePacker_new := fun _ size _ => size;
  ReadMinibatch := pack
|}.

Definition fresh : Reader :=
  CompositeDataReader_new [tt] deferred false false false.

Definition no_config : ConfigParameters :=
  {| cfg_nbruttsineachrecurrentiter := None; cfg_prefetch := None;
     cfg_frameMode := None; cfg_truncated := None; cfg_checkData := None;
     cfg_verbosity := None; cfg_randomize := None;
     cfg_randomizationWindow := None |}.

Definition blank (device : Z) : Matrix :=
  {| GetDeviceId := device; mx_numRows := 0; mx_numCols := 0;
     mx_values := [] |}.

Definition buffers : StreamMinibatchInputs :=
  [("features", blank 0); ("labels", blank 0)].

(** Buffers on two devices. *)
Definition mixed : StreamMinibatchInputs :=
  [("features", blank 0); ("labels", blank 1)].

(** An epoch of 10 samples, and one of 8, in minibatches of 4. *)
Definition start10 : call := CallStartDistributedMinibatchLoop 4 0 0 1 10.
Definition start8 : call := CallStartDistributedMinibatchLoop 4 1 0 1 8.
Definition get : call := CallGetMinibatch buffers.

(** The reader after [Init] with the default configuration and a schedule,
    built with assertions enabled. *)
Definition after (cs : list call) : Reader :=
  (session false fresh no_config cs).1.2.

(** Just started on the epoch of 10; with the partial last minibatch of it
    pending; at its end; and with the empty minibatch that follows a full
    last one pending. *)
Definition at_start : Reader := after [start10].
Definition at_last : Reader := after [start10; get; get].
Definition at_end : Reader := after [start10; get; get; get].
Definition at_boundary : Reader := after [start8; get; get].

Definition last_minibatch : Minibatch :=
  let layout := {| GetNumParallelSequences_ := 2; GetNumCols := 2 |} in
  {| mb_endOfEpoch := true;
     mb_data := [ {| sm_data := [8; 9; 8; 9; 8; 9]; sm_layout := layout |};
                  {| sm_data := [8; 9]; sm_layout := layout |} ] |}.

Definition empty_minibatch : Minibatch :=
  {| mb_endOfEpoch := true; mb_data := [] |}.

Definition epoch_of_zero : EpochConfiguration :=
  {| m_numberOfWorkers := 1; m_workerRank := 0;
     m_minibatchSizeInSamples := 4; m_totalEpochSizeInSamples := 0;
     m_epochIndex := 0 |}.

(** Buffers of which one asks for a stream that was never published. *)
Definition unlisted : StreamMinibatchInputs :=
  [("features", blank 0); ("weights", blank 0)].

(** The default configuration with prefetch switched off. *)
Definition no_prefetch : ConfigParameters := with_prefetch false no_config.

(** The reader at the start of the epoch of 10, had only the first stream
    been published. *)
Definition one_stream : Reader :=
  set_m_streams [set_m_storageType dense features] at_start.

(** The first minibatch of the epoch of 10. *)
Definition first_minibatch : Minibatch :=
  let layout := {| GetNumParallelSequences_ := 4; GetNumCols := 4 |} in
  {| mb_endOfEpoch := false;
     mb_data := [ {| sm_data := [0; 1; 2; 3; 0; 1; 2; 3; 0; 1; 2; 3];
                     sm_layout := layout |};
                  {| sm_data := [0; 1; 2; 3]; sm_layout := layout |} ] |}.

(** A reader as constructed, without deserializers. *)
Definition bare : Reader :=
  CompositeDataReader_new [] deferred false false false.



End Fixture.
(** * Properties *)

(** ** Rules of the program logic *)

Section LogicRules.

Context `{Collaborators} {G : Type}.
Variable advance : G -> event -> G.
Variable safe : G -> Prop.

#[local] Abbreviation wpG := (wp advance safe).
#[local] Abbreviation safelyG := (safely advance safe).

Lemma safely_app g ev1 ev2 :
  safelyG g (ev1 ++ ev2) <-> safelyG g ev1 /\ safelyG (foldl advance g ev1) ev2.
Proof.
  revert g. induction ev1 as [|e ev1 IH]; intros g; cbn.
  - tauto.
  - rewrite IH. tauto.
Qed.

Lemma wp_ret {A} (a : A) (Q : A -> G -> Reader -> Prop) E g r :
  Q a g r -> wpG (ret a) Q E g r.
Proof. intros HQ. split; [exact I|exact HQ]. Qed.

Lemma wp_bind {A B} (c : M A) (k : A -> M B) Q E g r :
  wpG c (fun a => wpG (k a) Q E) E g r -> wpG (c ≫= k) Q E g r.
Proof.
  unfold wp, mbind, M_bind, bind.
  destruct (c r) as [[[a| | |] r1] ev1]; try (intros [? ?]; split; assumption).
  intros [S1 W]. destruct (k a r1) as [[o r2] ev2].
  destruct W as [S2 W]. rewrite safely_app, foldl_app. auto.
Qed.

Lemma wp_mono {A} (c : M A) (Q Q' : A -> G -> Reader -> Prop) (E E' : G -> Reader -> Prop) g r :
  wpG c Q E g r ->
  (forall a g' r', Q a g' r' -> Q' a g' r') ->
  (forall g' r', E g' r' -> E' g' r') ->
  wpG c Q' E' g r.
Proof.
  unfold wp. destruct (c r) as [[[a| | |] r1] ev1];
    intros [S W] HQ HE; split; auto.
Qed.

Lemma wp_gets {A} (f : Reader -> A) (Q : A -> G -> Reader -> Prop) E g r :
  Q (f r) g r -> wpG (gets f) Q E g r.
Proof. intros HQ. split; [exact I|exact HQ]. Qed.

Lemma wp_modify (f : Reader -> Reader) (Q : unit -> G -> Reader -> Prop) E g r :
  Q tt g (f r) -> wpG (modify f) Q E g r.
Proof. intros HQ. split; [exact I|exact HQ]. Qed.

Lemma wp_emit e (Q : unit -> G -> Reader -> Prop) E g r :
  safe (advance g e) -> Q tt (advance g e) r -> wpG (emit e) Q E g r.
Proof. intros HS HQ. split; [split; [exact HS|exact I]|exact HQ]. Qed.

Lemma wp_throw {A} e (Q : A -> G -> Reader -> Prop) (E : G -> Reader -> Prop) g r :
  E g r -> wpG (throw e) Q E g r.
Proof. intros HE. split; [exact I|exact HE]. Qed.

Lemma wp_abort {A} (Q : A -> G -> Reader -> Prop) (E : G -> Reader -> Prop) g r :
  E g r -> wpG abort Q E g r.
Proof. intros HE. split; [exact I|exact HE]. Qed.

Lemma wp_undefined {A} (Q : A -> G -> Reader -> Prop) (E : G -> Reader -> Prop) g r :
  E g r -> wpG undefined Q E g r.
Proof. intros HE. split; [exact I|exact HE]. Qed.

Lemma wp_assert ndebug c (Q : unit -> G -> Reader -> Prop) (E : G -> Reader -> Prop) g r :
  (ndebug = true \/ c = true -> Q tt g r) ->
  (ndebug = false -> c = false -> E g r) ->
  wpG (assert ndebug c) Q E g r.
Proof.
  intros HQ HE. unfold assert. destruct ndebug; [apply wp_ret; auto|].
  destruct c; [apply wp_ret; auto|apply wp_abort; auto].
Qed.

Lemma wp_prefetch_body (Q : Minibatch -> G -> Reader -> Prop) (E : G -> Reader -> Prop) g r :
  (forall p z mb p' z',
     m_packer r = Some p -> m_randomizer r = Some z ->
     ReadMinibatch p z = (mb, p', z') ->
     Q mb g (set_m_randomizer (Some z') (set_m_packer (Some p') r))) ->
  (m_packer r = None \/ m_randomizer r = None -> E g r) ->
  wpG prefetch_body Q E g r.
Proof.
  intros HQ HE. unfold wp, prefetch_body.
  destruct (m_packer r) as [p|]; [|split; [exact I|auto]].
  destruct (m_randomizer r) as [z|]; [|split; [exact I|auto]].
  destruct (ReadMinibatch p z) as [[mb p'] z'] eqn:R.
  split; [exact I|]. eapply HQ; eauto.
Qed.

Lemma wp_at_index {A} (v : list A) i (Q : A -> G -> Reader -> Prop) (E : G -> Reader -> Prop) g r :
  (forall a, v !! i = Some a -> Q a g r) ->
  (v !! i = None -> E g r) ->
  wpG (at_index v i) Q E g r.
Proof.
  intros HQ HE. unfold at_index. destruct (v !! i) as [a|].
  - apply wp_ret, HQ. reflexivity.
  - apply wp_undefined, HE. reflexivity.
Qed.

(** A computation whose result is known. *)
Lemma wp_of_eq {A} (c : M A) (Q : A -> G -> Reader -> Prop) (E : G -> Reader -> Prop) g r a r' ev :
  c r = (Returned a, r', ev) -> safelyG g ev ->
  Q a (foldl advance g ev) r' -> wpG c Q E g r.
Proof. intros Hc S HQ. unfold wp. rewrite Hc. split; assumption. Qed.

(** A loop with an invariant that follows the elements already visited and
    a relation between each element and what the body makes of it. *)
Lemma wp_for_each_gen {A B} (f : A -> M B) (l seen : list A)
    (I : list A -> G -> Reader -> Prop) (R : A -> B -> Prop)
    (E : G -> Reader -> Prop) g r :
  (forall seen a g' r',
     a ∈ l -> I seen g' r' ->
     wpG (f a) (fun b g'' r'' => R a b /\ I (seen ++ [a]) g'' r'') E g' r') ->
  I seen g r ->
  wpG (for_each f l) (fun bs g' r' => Forall2 R l bs /\ I (seen ++ l) g' r')
      E g r.
Proof.
  revert seen g r.
  induction l as [|a l IH]; intros seen g r Hf HI; cbn [for_each].
  - apply wp_ret. rewrite app_nil_r. split; [constructor|exact HI].
  - apply wp_bind. eapply wp_mono; [apply Hf; [left|exact HI]| |auto].
    intros b g1 r1 [HR HI1]. cbn beta. apply wp_bind.
    eapply wp_mono; [apply (IH (seen ++ [a])); [|exact HI1]| |auto].
    + intros seen' a' g' r' Ha'. apply Hf. right. exact Ha'.
    + intros bs g2 r2 [HF HI2]. apply wp_ret.
      rewrite <- app_assoc in HI2. split; [constructor; assumption|exact HI2].
Qed.

(** A loop whose invariant follows the elements already visited. *)
Lemma wp_for_each_from {A B} (f : A -> M B) (l seen : list A)
    (I : list A -> G -> Reader -> Prop) (E : G -> Reader -> Prop) g r :
  (forall seen a g' r',
     I seen g' r' -> wpG (f a) (fun _ => I (seen ++ [a])) E g' r') ->
  I seen g r -> wpG (for_each f l) (fun _ => I (seen ++ l)) E g r.
Proof.
  intros Hf. revert seen g r.
  induction l as [|a l IH]; intros seen g r HI; cbn [for_each].
  - apply wp_ret. rewrite app_nil_r. exact HI.
  - apply wp_bind. eapply wp_mono; [apply Hf, HI| |auto].
    intros b g1 r1 HI1. cbn beta. apply wp_bind.
    eapply wp_mono; [apply IH, HI1| |auto].
    intros bs g2 r2 HI2. apply wp_ret.
    rewrite <- app_assoc in HI2. exact HI2.
Qed.

(** A loop keeps what every turn of its body keeps. *)
Lemma wp_for_each {A B} (f : A -> M B) (l : list A) (I : G -> Reader -> Prop) (E : G -> Reader -> Prop) g r :
  (forall a g' r', I g' r' -> wpG (f a) (fun _ => I) E g' r') ->
  I g r -> wpG (for_each f l) (fun _ => I) E g r.
Proof.
  intros Hf. revert g r. induction l as [|a l IH]; intros g r HI; cbn [for_each].
  - apply wp_ret, HI.
  - apply wp_bind. eapply wp_mono; [apply Hf, HI| |auto].
    intros b g1 r1 HI1. cbn beta. apply wp_bind.
    eapply wp_mono; [apply IH, HI1| |auto].
    intros bs g2 r2 HI2. apply wp_ret, HI2.
Qed.

End LogicRules.

(** Symbolic execution of a member function. *)
Ltac wp_step :=
  lazymatch goal with
  | |- wp _ _ (mbind _ _) _ _ _ _ => apply wp_bind
  | |- wp _ _ (ret _) _ _ _ _ => apply wp_ret
  | |- wp _ _ (gets _) _ _ _ _ => apply wp_gets
  | |- wp _ _ (modify _) _ _ _ _ => apply wp_modify
  | |- wp _ _ (emit _) _ _ _ _ => apply wp_emit
  | |- wp _ _ (throw _) _ _ _ _ => apply wp_throw
  | |- wp _ _ abort _ _ _ _ => apply wp_abort
  | |- wp _ _ undefined _ _ _ _ => apply wp_undefined
  | |- wp _ _ (assert _ _) _ _ _ _ => apply wp_assert; [intros ?|intros ? ?]
  | |- wp _ _ (at_index _ _) _ _ _ _ =>
      apply wp_at_index; [intros ? ?|intros ?]
  | |- wp _ _ prefetch_body _ _ _ _ =>
      apply wp_prefetch_body; [intros ? ? ? ? ? ? ? ?|intros ?]
  | |- wp _ _ (if ?b then _ else _) _ _ _ _ => destruct b eqn:?
  | |- wp _ _ (match ?x with _ => _ end) _ _ _ _ => destruct x eqn:?
  end.

Ltac wp_run := repeat (wp_step; cbn beta).

(** Proving that a member function leaves a member alone. *)
Ltac frame :=
  intros ? ?; wp_run; try exact I;
  repeat match goal with r : Reader |- _ => destruct r end; cbn in *; auto.


(** ** What the member functions leave alone *)

Section Frames.

Context `{Collaborators}.

Lemma keeps_state {A} (c : M A) (P : Reader -> Prop) r :
  keeps c P -> P r -> P (c r).1.2.
Proof.
  intros K HP. specialize (K r HP). unfold wp in K.
  destruct (c r) as [[[a| | |] r'] ev]; apply K.
Qed.

Lemma keeps_bind {A B} (c : M A) (k : A -> M B) P :
  keeps c P -> (forall a, keeps (k a) P) -> keeps (c ≫= k) P.
Proof.
  intros Kc Kk r HP. apply wp_bind.
  eapply wp_mono; [apply Kc, HP| |auto].
  intros a [] r' HP'. apply Kk, HP'.
Qed.

Lemma keeps_for_each {A B} (f : A -> M B) l P :
  (forall a, keeps (f a) P) -> keeps (for_each f l) P.
Proof.
  intros Kf r HP. apply (wp_for_each _ _ f l (fun _ => P)); [|exact HP].
  intros a [] r' HP'. apply Kf, HP'.
Qed.

Lemma future_wait_streams s : keeps future_wait (fun r => m_streams r = s).
Proof. unfold future_wait, complete. frame. Qed.

Lemma future_get_streams s : keeps future_get (fun r => m_streams r = s).
Proof. unfold future_get, complete. frame. Qed.

Lemma launch_prefetch_streams s :
  keeps launch_prefetch (fun r => m_streams r = s).
Proof. unfold launch_prefetch, future_release. frame. Qed.

Lemma prefetch_thread_streams s :
  keeps prefetch_thread (fun r => m_streams r = s).
Proof. unfold prefetch_thread. frame. Qed.

Lemma StartEpoch_streams cfg s :
  keeps (StartEpoch cfg) (fun r => m_streams r = s).
Proof. unfold StartEpoch. frame. Qed.

Lemma check_devices_keeps ndebug matrices P : keeps (check_devices ndebug matrices) P.
Proof.
  unfold check_devices. apply keeps_bind.
  - destruct matrices; frame.
  - intros first. apply keeps_bind; [|frame].
    apply keeps_for_each. intros mx. unfold device_probe. frame.
Qed.

Lemma copy_stream_streams ndebug mb mx s :
  keeps (copy_stream ndebug mb mx) (fun r => m_streams r = s).
Proof. unfold copy_stream, nameToStreamId_at. frame. Qed.

Lemma StartDistributedMinibatchLoop_streams mb ep rank workers total s :
  keeps (StartDistributedMinibatchLoop mb ep rank workers total)
        (fun r => m_streams r = s).
Proof.
  unfold StartDistributedMinibatchLoop.
  apply keeps_bind; [frame|intros _].
  apply keeps_bind; [frame|intros v].
  apply keeps_bind; [destruct v; [apply future_wait_streams|frame]|intros _].
  apply keeps_bind; [apply StartEpoch_streams|intros _].
  apply launch_prefetch_streams.
Qed.

Lemma GetMinibatch_streams ndebug matrices s :
  keeps (GetMinibatch ndebug matrices) (fun r => m_streams r = s).
Proof.
  unfold GetMinibatch.
  apply keeps_bind; [frame|intros eoe]. destruct eoe; [frame|].
  apply keeps_bind; [apply check_devices_keeps|intros _].
  apply keeps_bind; [frame|intros v].
  apply keeps_bind; [frame|intros _].
  apply keeps_bind; [apply future_get_streams|intros mb].
  apply keeps_bind; [destruct (mb_endOfEpoch mb); frame|intros _].
  destruct (_ && _); [frame|].
  apply keeps_bind.
  - destruct (negb _); [|frame].
    apply keeps_for_each. intros mx. apply copy_stream_streams.
  - intros ms. apply keeps_bind; [apply launch_prefetch_streams|frame].
Qed.

End Frames.

(** ** Evaluation *)

Section Evaluation.

Context `{Collaborators}.

Lemma run_bind {A B} (c : M A) (k : A -> M B) (r : Reader) :
  (c ≫= k) r =
  match c r with
  | (Returned a, r1, ev1) =>
      match k a r1 with
      | (o, r2, ev2) => (o, r2, ev1 ++ ev2)
      end
  | (Thrown e, r1, ev1) => (Thrown e, r1, ev1)
  | (Aborted, r1, ev1) => (Aborted, r1, ev1)
  | (Undefined, r1, ev1) => (Undefined, r1, ev1)
  end.
Proof. reflexivity. Qed.

(** A bind that returns: both halves returned. *)
Lemma bind_returned {A B} (c : M A) (k : A -> M B) r b r' ev :
  (c ≫= k) r = (Returned b, r', ev) ->
  exists a r1 ev1 ev2,
    c r = (Returned a, r1, ev1) /\ k a r1 = (Returned b, r', ev2) /\
    ev = ev1 ++ ev2.
Proof.
  rewrite run_bind. destruct (c r) as [[[a| | |] r1] ev1]; try discriminate.
  destruct (k a r1) as [[o r2] ev2] eqn:K. intros [= -> -> <-].
  eauto 8.
Qed.

(** *** The device check *)

Lemma device_loop_same ndebug d (l : StreamMinibatchInputs) r :
  Forall (fun mx => GetDeviceId mx.2 = d) l ->
  for_each (device_probe ndebug d) l r
  = (Returned (map (fun _ => tt) l), r, []).
Proof.
  induction 1 as [|mx l Hmx Hl IH]; [reflexivity|].
  cbn [for_each]. rewrite run_bind. unfold device_probe at 1.
  rewrite bool_decide_eq_false_2 by (intros ?; contradiction).
  cbn. rewrite run_bind, IH. reflexivity.
Qed.

Lemma device_loop_mismatch d (l : StreamMinibatchInputs) r :
  Exists (fun mx => GetDeviceId mx.2 ≠ d) l ->
  for_each (device_probe false d) l r = (Aborted, r, []).
Proof.
  induction l as [|mx l IH]; intros E; [inversion E|].
  cbn [for_each]. rewrite run_bind. unfold device_probe at 1.
  destruct (decide (GetDeviceId mx.2 = d)) as [Heq|Hne].
  - rewrite bool_decide_eq_false_2 by (intros ?; contradiction).
    cbn. rewrite run_bind, IH; [reflexivity|].
    inversion E; subst; [contradiction|assumption].
  - rewrite bool_decide_eq_true_2 by assumption. reflexivity.
Qed.

Lemma device_loop_release d (l : StreamMinibatchInputs) r :
  for_each (device_probe true d) l r
  = (Returned (map (fun _ => tt) l), r, []).
Proof.
  induction l as [|mx l IH]; [reflexivity|].
  cbn [for_each]. rewrite run_bind. unfold device_probe at 1.
  destruct (bool_decide _); cbn; rewrite run_bind, IH; reflexivity.
Qed.

Lemma check_devices_cons ndebug mx l r :
  check_devices ndebug (mx :: l) r =
  match for_each (device_probe ndebug (GetDeviceId mx.2)) (mx :: l) r with
  | (Returned _, r', ev) => (Returned tt, r', ev ++ [])
  | (Thrown e, r', ev) => (Thrown e, r', ev)
  | (Aborted, r', ev) => (Aborted, r', ev)
  | (Undefined, r', ev) => (Undefined, r', ev)
  end.
Proof.
  unfold check_devices. rewrite run_bind. cbn [ret]. rewrite run_bind.
  destruct (for_each _ _ _) as [[[]]]; reflexivity.
Qed.

Lemma same_device_head mx (l : StreamMinibatchInputs) :
  same_device (mx :: l) <->
  Forall (fun a => GetDeviceId a.2 = GetDeviceId mx.2) (mx :: l).
Proof.
  unfold same_device. rewrite Forall_forall. split.
  - intros S a Ha. apply S; [assumption|left].
  - intros F a b Ha Hb. rewrite (F a Ha), (F b Hb). reflexivity.
Qed.

Lemma check_devices_same ndebug matrices r :
  matrices ≠ [] -> same_device matrices ->
  check_devices ndebug matrices r = (Returned tt, r, []).
Proof.
  destruct matrices as [|mx l]; [congruence|]. intros _ S.
  rewrite check_devices_cons, device_loop_same; [reflexivity|].
  apply same_device_head, S.
Qed.

Lemma check_devices_release matrices r :
  matrices ≠ [] -> check_devices true matrices r = (Returned tt, r, []).
Proof.
  destruct matrices as [|mx l]; [congruence|]. intros _.
  rewrite check_devices_cons, device_loop_release. reflexivity.
Qed.

Lemma check_devices_mismatch matrices r :
  ¬ same_device matrices -> check_devices false matrices r = (Aborted, r, []).
Proof.
  destruct matrices as [|mx l]; intros N.
  - exfalso. apply N. intros a b Ha. inversion Ha.
  - rewrite check_devices_cons, device_loop_mismatch; [reflexivity|].
    apply not_Forall_Exists; [intros a; apply _|].
    intros F. apply N, same_device_head, F.
Qed.

Lemma same_device_dec (matrices : StreamMinibatchInputs) :
  same_device matrices \/ ¬ same_device matrices.
Proof.
  destruct matrices as [|mx l].
  - left. intros a b Ha. inversion Ha.
  - destruct (decide (Forall (fun a => GetDeviceId a.2 = GetDeviceId mx.2)
                             (mx :: l))) as [F|F].
    + left. apply same_device_head, F.
    + right. intros S. apply F, same_device_head, S.
Qed.

(** The device check changes nothing, does nothing observable and ends the
    same way whatever the reader. *)
Lemma check_devices_pure ndebug matrices :
  exists o, forall r : Reader, check_devices ndebug matrices r = (o, r, []).
Proof.
  destruct matrices as [|mx l]; [eexists; reflexivity|].
  destruct ndebug.
  - eexists. intros r. apply check_devices_release. discriminate.
  - destruct (same_device_dec (mx :: l)) as [S|S].
    + eexists. intros r. apply check_devices_same; [discriminate|exact S].
    + eexists. intros r. apply check_devices_mismatch, S.
Qed.

Lemma wp_check_devices {G} (advance : G -> event -> G) (safe : G -> Prop)
    ndebug matrices (Q : unit -> G -> Reader -> Prop) (E : G -> Reader -> Prop)
    g r :
  Q tt g r -> E g r ->
  wp advance safe (check_devices ndebug matrices) Q E g r.
Proof.
  intros HQ HE. unfold wp.
  destruct (check_devices_pure ndebug matrices) as (o & ->).
  split; [exact I|]. destruct o as [[]| | |]; assumption.
Qed.

Lemma GetMinibatch_at_end ndebug matrices r :
  m_endOfEpoch r = true ->
  GetMinibatch ndebug matrices r = (Returned (false, matrices), r, []).
Proof.
  intros E. unfold GetMinibatch. rewrite run_bind. cbn. rewrite E. reflexivity.
Qed.

(** Before the end of the epoch, [GetMinibatch] starts with the device
    check. *)
Lemma GetMinibatch_before_end ndebug matrices r :
  m_endOfEpoch r = false ->
  GetMinibatch ndebug matrices r =
  (check_devices ndebug matrices ≫= fun _ =>
   isValid ← gets valid;
   assert ndebug isValid;;
   minibatch ← future_get;
   (if mb_endOfEpoch minibatch then modify (set_m_endOfEpoch true)
    else ret tt);;
   if mb_endOfEpoch minibatch && is_empty (mb_data minibatch)
   then ret (false, matrices)
   else
     matrices' ← (if negb (is_empty (mb_data minibatch))
                  then for_each (copy_stream ndebug minibatch) matrices
                  else ret matrices);
     launch_prefetch;;
     ret (negb (is_empty (mb_data minibatch)), matrices')) r.
Proof.
  intros E. unfold GetMinibatch. rewrite run_bind. cbn [gets]. rewrite E.
  cbn iota.
  match goal with |- match ?x with _ => _ end = _ => destruct x as [[o r2] ev2] end.
  reflexivity.
Qed.

End Evaluation.

(** ** End of epoch, epoch size, device check *)

Section Epochs.

Context `{Collaborators}.

Lemma StartDistributedMinibatchLoop_clears mb ep rank workers total r :
  m_endOfEpoch (StartDistributedMinibatchLoop mb ep rank workers total r).1.2
  = false.
Proof.
  assert (W : wp silent always
                (StartDistributedMinibatchLoop mb ep rank workers total)
                (fun _ _ r' => m_endOfEpoch r' = false)
                (fun _ r' => m_endOfEpoch r' = false) tt r).
  { unfold StartDistributedMinibatchLoop. apply wp_bind, wp_modify.
    assert (K : keeps
      (isValid ← gets valid;
       (if isValid : bool then future_wait else ret tt);;
       StartEpoch
         {| m_numberOfWorkers := workers; m_workerRank := rank;
            m_minibatchSizeInSamples := mb;
            m_totalEpochSizeInSamples := total; m_epochIndex := ep |};;
       launch_prefetch)
      (fun r' => m_endOfEpoch r' = false)).
    { apply keeps_bind; [frame|intros v].
      apply keeps_bind.
      { destruct v; [unfold future_wait, complete|]; frame. }
      intros _. apply keeps_bind; [unfold StartEpoch; frame|intros _].
      unfold launch_prefetch, future_release. frame. }
    apply K. destruct r; reflexivity. }
  unfold wp in W.
  destruct (StartDistributedMinibatchLoop _ _ _ _ _ r) as [[[a| | |] r'] ev];
    apply W.
Qed.

Lemma run_at_end ndebug (calls : list StreamMinibatchInputs) r :
  m_endOfEpoch r = true ->
  run ndebug (map CallGetMinibatch calls) r
  = (map (fun m => AnsGetMinibatch (Returned (false, m))) calls, r, []).
Proof.
  intros E. induction calls as [|m calls IH]; [reflexivity|].
  cbn [map run step]. rewrite GetMinibatch_at_end by exact E.
  cbn [fatal fatal_outcome]. rewrite IH. reflexivity.
Qed.

(** C2: once the end-of-epoch flag is set, [GetMinibatch] returns false at
    once: the caller's buffers, the prefetch task and every other member
    stay as they were and nothing observable happens.  So does every
    further call, whatever buffers it is given.  A call of
    [StartDistributedMinibatchLoop] or [StartMinibatchLoop] clears the
    flag, however it ends. *)
Theorem GetMinibatch_after_end_of_epoch ndebug (r : Reader) :
  m_endOfEpoch r = true ->
  (forall matrices,
     GetMinibatch ndebug matrices r = (Returned (false, matrices), r, [])) /\
  (forall calls : list StreamMinibatchInputs,
     run ndebug (map CallGetMinibatch calls) r
     = (map (fun m => AnsGetMinibatch (Returned (false, m))) calls, r, [])) /\
  (forall mbSize epoch rank workers total,
     m_endOfEpoch
       (StartDistributedMinibatchLoop mbSize epoch rank workers total r).1.2
     = false) /\
  (forall mbSize epoch total,
     m_endOfEpoch (StartMinibatchLoop mbSize epoch total r).1.2 = false).
Proof.
  intros E. repeat split.
  - intros matrices. apply GetMinibatch_at_end, E.
  - intros calls. apply run_at_end, E.
  - intros. apply StartDistributedMinibatchLoop_clears.
  - intros. apply StartDistributedMinibatchLoop_clears.
Qed.

Lemma StartEpoch_positive cfg r z :
  0 < m_totalEpochSizeInSamples cfg -> m_randomizer r = Some z ->
  StartEpoch cfg r =
  (Returned tt,
   set_m_packer
     (Some ((if m_frameMode r then SampleModePacker_new
             else SequencePacker_new)
              (m_provider r) (m_minibatchSizeInSamples cfg) (m_streams r)))
     (set_m_randomizer (Some (Randomizer_StartEpoch cfg z)) r),
   [EvRandomizerStartEpoch cfg;
    EvNewPacker (m_frameMode r) (m_minibatchSizeInSamples cfg)]).
Proof.
  intros Hpos Hz. unfold StartEpoch. rewrite run_bind.
  rewrite bool_decide_eq_false_2 by lia. cbn [ret].
  rewrite run_bind. cbn [gets]. rewrite Hz. cbn.
  destruct r; cbn in *. destruct m_frameMode0; reflexivity.
Qed.

Lemma StartEpoch_nonpositive cfg r :
  m_totalEpochSizeInSamples cfg <= 0 ->
  StartEpoch cfg r =
  (Thrown (RuntimeError "Unsupported minibatch size '%d'."
                        (to_int (m_totalEpochSizeInSamples cfg))),
   r, []).
Proof.
  intros Hle. unfold StartEpoch. rewrite run_bind.
  rewrite bool_decide_eq_true_2 by exact Hle. reflexivity.
Qed.

(** C4: for every epoch configuration whose total epoch size is zero or
    less, [StartEpoch] throws the runtime error and has done nothing by
    then: the randomizer has not been started on the epoch, no packer has
    been created and no member has changed.  For a positive size it never
    throws, and with a randomizer in place it starts the randomizer on the
    epoch, creates the packer and returns. *)
Theorem StartEpoch_epoch_size (cfg : EpochConfiguration) (r : Reader) :
  (m_totalEpochSizeInSamples cfg <= 0 ->
   StartEpoch cfg r =
   (Thrown (RuntimeError "Unsupported minibatch size '%d'."
                         (to_int (m_totalEpochSizeInSamples cfg))),
    r, [])) /\
  (0 < m_totalEpochSizeInSamples cfg ->
   (forall e, (StartEpoch cfg r).1.1 ≠ Thrown e) /\
   (is_Some (m_randomizer r) ->
    exists r',
      StartEpoch cfg r =
      (Returned tt, r',
       [EvRandomizerStartEpoch cfg;
        EvNewPacker (m_frameMode r) (m_minibatchSizeInSamples cfg)]))).
Proof.
  split.
  - apply StartEpoch_nonpositive.
  - intros Hpos. split.
    + intros e. destruct (m_randomizer r) as [z|] eqn:Hz.
      * rewrite (StartEpoch_positive cfg r z Hpos Hz). discriminate.
      * unfold StartEpoch. rewrite run_bind.
        rewrite bool_decide_eq_false_2 by lia. cbn [ret].
        rewrite run_bind. cbn [gets]. rewrite Hz. discriminate.
    + intros [z Hz]. rewrite (StartEpoch_positive cfg r z Hpos Hz). eauto.
Qed.

(** C7 (as amended): in a build with assertions enabled, buffers that do
    not all report the same device never get a minibatch: before the end of
    the epoch [GetMinibatch] dies at the device check, with the prefetch
    task not awaited and no buffer written; at the end of the epoch it
    returns false as for any buffers. *)
Theorem GetMinibatch_device_mismatch (matrices : StreamMinibatchInputs)
    (r : Reader) :
  ¬ same_device matrices ->
  GetMinibatch false matrices r =
  if m_endOfEpoch r then (Returned (false, matrices), r, [])
  else (Aborted, r, []).
Proof.
  intros N. destruct (m_endOfEpoch r) eqn:E.
  - apply GetMinibatch_at_end, E.
  - rewrite GetMinibatch_before_end by exact E.
    rewrite run_bind, check_devices_mismatch by exact N. reflexivity.
Qed.

(** C9: the device check reads the reference device id from the first
    buffer without looking whether there is one.  On an empty collection of
    buffers it is undefined, and so is [GetMinibatch] whenever it gets as
    far as the check, that is before the end of the epoch; on a non-empty
    collection the check is never undefined. *)
Theorem GetMinibatch_no_buffers ndebug (r : Reader) :
  check_devices ndebug [] r = (Undefined, r, []) /\
  (m_endOfEpoch r = false -> GetMinibatch ndebug [] r = (Undefined, r, [])) /\
  (forall matrices,
     matrices ≠ [] -> (check_devices ndebug matrices r).1.1 ≠ Undefined).
Proof.
  split; [reflexivity|]. split.
  - intros E. rewrite GetMinibatch_before_end by exact E. reflexivity.
  - intros matrices Hne. destruct matrices as [|mx l]; [congruence|].
    destruct ndebug.
    + rewrite check_devices_release by discriminate. discriminate.
    + destruct (decide (Forall (fun a => GetDeviceId a.2 = GetDeviceId mx.2)
                               (mx :: l))) as [F|F].
      * rewrite check_devices_same; [discriminate|discriminate|].
        apply same_device_head, F.
      * rewrite check_devices_mismatch; [discriminate|].
        intros S. apply F, same_device_head, S.
Qed.

End Epochs.

(** ** Published streams *)

Section Streams.

Context `{Collaborators}.

Lemma publish_loop (l : list StreamDescription) r :
  wp silent always (for_each publish_stream l)
     (fun _ _ r' =>
        m_streams r' = m_streams r ++ map (set_m_storageType dense) l)
     (fun _ _ => False) tt r.
Proof.
  eapply wp_mono.
  - apply (wp_for_each_from silent always publish_stream l []
             (fun seen _ r' =>
                m_streams r' =
                m_streams r ++ map (set_m_storageType dense) seen)
             (fun _ _ => False)).
    + intros seen a [] r' HI. unfold publish_stream. wp_run.
      revert HI. destruct r'; cbn. intros ->.
      rewrite map_app, app_assoc. reflexivity.
    + cbn. rewrite app_nil_r. reflexivity.
  - intros bs g r' HI. exact HI.
  - auto.
Qed.

Lemma Init_streams cfg r :
  wp silent always (Init cfg)
     (fun _ _ r' =>
        exists d0, m_deserializers r !! 0%nat = Some d0 /\
          m_streams r' =
          m_streams r ++
          map (set_m_storageType dense)
              (GetStreamDescriptions
                 (Bundler_new cfg d0 (m_deserializers r)
                              (config (cfg_checkData cfg) false))))
     (fun _ r' => m_streams r' = m_streams r) tt r.
Proof.
  unfold Init. wp_run; try (destruct r; reflexivity).
  all: eapply wp_mono; [apply publish_loop| |intros ? ? []].
  all: intros bs g r' HI; cbn beta; apply wp_ret.
  all: exists a0; split; [destruct r; assumption|].
  all: rewrite HI; destruct r; reflexivity.
Qed.

Lemma step_streams ndebug c r : m_streams (step ndebug c r).1.2 = m_streams r.
Proof.
  destruct c as [mb ep rank workers total|matrices| |]; cbn [step].
  - pose proof (keeps_state _ _ r
      (StartDistributedMinibatchLoop_streams mb ep rank workers total _)
      eq_refl) as K.
    destruct (StartDistributedMinibatchLoop _ _ _ _ _ r) as [[o r'] ev].
    exact K.
  - pose proof (keeps_state _ _ r
      (GetMinibatch_streams ndebug matrices _) eq_refl) as K.
    destruct (GetMinibatch _ _ r) as [[o r'] ev]. exact K.
  - reflexivity.
  - pose proof (keeps_state _ _ r (prefetch_thread_streams _) eq_refl) as K.
    destruct (prefetch_thread r) as [[o r'] ev]. exact K.
Qed.

Lemma run_streams ndebug cs r : m_streams (run ndebug cs r).1.2 = m_streams r.
Proof.
  revert r. induction cs as [|c cs IH]; intros r; [reflexivity|].
  cbn [run]. pose proof (step_streams ndebug c r) as S.
  destruct (step ndebug c r) as [[a r1] ev1]. cbn in S.
  destruct (fatal a); [exact S|].
  specialize (IH r1). destruct (run ndebug cs r1) as [[answers r2] ev2].
  cbn in *. congruence.
Qed.

(** C8: [Init] on a freshly constructed reader publishes one stream
    description per stream of the bundler, each a copy with the storage
    type set to dense, whatever the bundler reported; and nothing that
    follows touches the published list: not [StartEpoch], not
    [StartDistributedMinibatchLoop], not [GetMinibatch], not a turn of the
    prefetch thread, hence no schedule of them. *)
Theorem published_streams_dense ndebug deserializers launchType
    frameMode truncated endOfEpoch (cfg : ConfigParameters) :
  let r0 := CompositeDataReader_new deserializers launchType
                                    frameMode truncated endOfEpoch in
  let r1 := (Init cfg r0).1.2 in
  Forall is_dense (m_streams r1) /\
  (forall u r ev, Init cfg r0 = (Returned u, r, ev) ->
     exists d0, deserializers !! 0%nat = Some d0 /\
       m_streams r =
       map (set_m_storageType dense)
           (GetStreamDescriptions
              (Bundler_new cfg d0 deserializers
                           (config (cfg_checkData cfg) false)))) /\
  (forall cs, m_streams (run ndebug cs r1).1.2 = m_streams r1) /\
  (forall r ecfg, m_streams (StartEpoch ecfg r).1.2 = m_streams r) /\
  (forall r matrices,
     m_streams (GetMinibatch ndebug matrices r).1.2 = m_streams r) /\
  (forall r mb ep rank workers total,
     m_streams (StartDistributedMinibatchLoop mb ep rank workers total r).1.2
     = m_streams r).
Proof.
  intros r0 r1. pose proof (Init_streams cfg r0) as W. unfold wp in W.
  subst r1. destruct (Init cfg r0) as [[o r] ev] eqn:EI. cbn [fst snd].
  destruct W as [_ W]. repeat split.
  - destruct o; try (rewrite W; constructor).
    destruct W as (d0 & _ & ->). cbn.
    apply Forall_forall. intros s [s' [-> _]]%list_elem_of_fmap. reflexivity.
  - intros u r' ev' [= -> <- <-]. destruct W as (d0 & Hd & W).
    exists d0. split; [exact Hd|]. rewrite W. reflexivity.
  - intros cs. apply run_streams.
  - intros r' ecfg. exact (keeps_state _ _ r' (StartEpoch_streams ecfg _) eq_refl).
  - intros r' matrices.
    exact (keeps_state _ _ r' (GetMinibatch_streams ndebug matrices _) eq_refl).
  - intros r' mb ep rank workers total.
    exact (keeps_state _ _ r'
             (StartDistributedMinibatchLoop_streams mb ep rank workers total _)
             eq_refl).
Qed.

End Streams.

(** ** Delivery *)

Section Delivery.

Context `{Collaborators}.

Lemma future_get_eq r :
  future_get r =
  match m_prefetchTask r with
  | None => (Undefined, r, [])
  | Some f =>
      match pending_minibatch r with
      | Some mb => (Returned mb, after_get r, await_events r)
      | None => (Undefined, r, [])
      end
  end.
Proof.
  unfold future_get, pending_minibatch, after_get, await_events.
  rewrite run_bind. cbn [gets].
  destruct (m_prefetchTask r) as [f|]; [|reflexivity].
  unfold complete. destruct (fut_result f) as [mb|]; [reflexivity|].
  rewrite !run_bind. unfold prefetch_body.
  destruct (m_packer r) as [p|]; [|reflexivity].
  destruct (m_randomizer r) as [z|]; [|reflexivity].
  destruct (ReadMinibatch p z) as [[mb p'] z']. reflexivity.
Qed.

Lemma launch_prefetch_eq r :
  m_prefetchTask r = None ->
  launch_prefetch r =
  (Returned tt,
   set_m_prefetchTask
     (Some {| fut_task := launched r; fut_policy := m_launchType r;
              fut_result := None |})
     (set_launched (S (launched r)) r),
   [EvLaunch (launched r) (m_launchType r)]).
Proof.
  intros N. unfold launch_prefetch. rewrite !run_bind. cbn.
  destruct r; cbn in *. rewrite N. reflexivity.
Qed.

Lemma future_wait_general r :
  future_wait r =
  match m_prefetchTask r with
  | None => (Undefined, r, [])
  | Some f =>
      match pending_minibatch r with
      | Some mb => (Returned tt, after_wait r, await_events r)
      | None => (Undefined, r, [])
      end
  end.
Proof.
  unfold future_wait, after_wait, after_get, pending_minibatch, await_events.
  rewrite run_bind. cbn [gets].
  destruct (m_prefetchTask r) as [f|] eqn:T; [|reflexivity].
  unfold complete. destruct (fut_result f) as [mb|] eqn:R.
  - destruct r, f; cbn in *; subst; reflexivity.
  - rewrite !run_bind. unfold prefetch_body.
    destruct (m_packer r) as [p|] eqn:P; [|reflexivity].
    destruct (m_randomizer r) as [z|] eqn:Z; [|reflexivity].
    destruct (ReadMinibatch p z) as [[mb p'] z'] eqn:RM.
    destruct r, f; cbn in *; subst; cbn; rewrite ?RM; reflexivity.
Qed.

Lemma launch_prefetch_settled r :
  settled r ->
  launch_prefetch r =
  (Returned tt,
   set_m_prefetchTask
     (Some {| fut_task := launched r; fut_policy := m_launchType r;
              fut_result := None |})
     (set_launched (S (launched r)) r),
   EvLaunch (launched r) (m_launchType r) ::
   match m_prefetchTask r with
   | Some f => [EvRelease (fut_task f)]
   | None => []
   end).
Proof.
  intros St. destruct (m_prefetchTask r) as [f|] eqn:T.
  - destruct (St f T) as [mb R]. destruct f as [id pol res].
    cbn in R. subst res.
    unfold launch_prefetch. rewrite !run_bind. cbn.
    destruct r; cbn in *. rewrite T. reflexivity.
  - rewrite launch_prefetch_eq by exact T. reflexivity.
Qed.

Lemma safely_whatever g ev : safely record whatever g ev.
Proof. revert g. induction ev; intros g; cbn; auto. split; [exact I|auto]. Qed.

Lemma foldl_record g ev : foldl record g ev = g ++ ev.
Proof.
  revert g. induction ev as [|e ev IH]; intros g; cbn.
  - rewrite app_nil_r. reflexivity.
  - rewrite IH. unfold record. rewrite <- app_assoc. reflexivity.
Qed.

(** What a computation returned satisfies the postcondition proved for
    it. *)
Lemma wp_returned {A} (c : M A) (Q : A -> list event -> Reader -> Prop) E r
    a r' ev :
  wp record whatever c Q E [] r -> c r = (Returned a, r', ev) -> Q a ev r'.
Proof.
  unfold wp. intros W Hc. rewrite Hc in W. destruct W as [_ W].
  rewrite foldl_record in W. exact W.
Qed.

(** A computation that cannot end exceptionally returns. *)
Lemma wp_returns {A} (c : M A) (Q : A -> list event -> Reader -> Prop) r :
  wp record whatever c Q (fun _ _ => False) [] r ->
  exists a r' ev, c r = (Returned a, r', ev) /\ Q a ev r'.
Proof.
  unfold wp. destruct (c r) as [[[a| | |] r'] ev]; intros [_ W];
    try contradiction.
  rewrite foldl_record in W. eauto.
Qed.

Lemma only_copied_refl r : only_copied r r.
Proof. unfold only_copied. repeat split; auto. Qed.

Lemma only_copied_names r r' name :
  only_copied r r' ->
  streamId_of r' name = streamId_of r name /\
  (is_Some (m_nameToStreamId r !! name) ->
   is_Some (m_nameToStreamId r' !! name)).
Proof. intros O. apply O. Qed.

Lemma only_copied_trans r1 r2 r3 :
  only_copied r1 r2 -> only_copied r2 r3 -> only_copied r1 r3.
Proof.
  intros H12 H23.
  pose proof (fun name => only_copied_names _ _ name H12) as N12.
  pose proof (fun name => only_copied_names _ _ name H23) as N23.
  unfold only_copied in *.
  destruct H12 as (?&?&?&?&?&?&?&?&?&?&?&_).
  destruct H23 as (?&?&?&?&?&?&?&?&?&?&?&_).
  repeat split; try congruence.
  - rewrite (proj1 (N23 name)), (proj1 (N12 name)). reflexivity.
  - intros S. apply N23, N12, S.
Qed.

Lemma copied_only_copied r r1 mb mx mx' :
  only_copied r r1 -> copied r1 mb mx mx' -> copied r mb mx mx'.
Proof.
  intros O (stream & description & H1 & H2 & ->).
  pose proof (proj1 (only_copied_names _ _ mx.1 O)) as N.
  destruct O as (?&?&?&?&?&?&?&?&?&?&?&_).
  exists stream, description. rewrite <- N.
  repeat split; congruence.
Qed.

Lemma default_insert_missing (m : gmap string nat) k name :
  m !! k = None ->
  default 0%nat (<[k:=0%nat]> m !! name) = default 0%nat (m !! name).
Proof.
  intros N. destruct (decide (k = name)) as [->|Hne].
  - rewrite lookup_insert_eq, N. reflexivity.
  - rewrite lookup_insert_ne by exact Hne. reflexivity.
Qed.

Lemma wp_copy_stream ndebug mb mx r g :
  wp record whatever (copy_stream ndebug mb mx)
     (fun mx' g' r' =>
        copied r mb mx mx' /\ only_copied r r' /\
        (exists stream,
           mb_data mb !! streamId_of r mx.1 = Some stream /\
           m_layout r' = sm_layout stream) /\
        mx_numCols mx'.2 = GetNumCols (m_layout r') /\
        (ndebug = false -> is_Some (m_nameToStreamId r !! mx.1)) /\
        g' = g ++ [EvCopyLayout (m_layout r');
                   EvSetValue mx.1 (mx_numRows mx'.2) (mx_numCols mx'.2)
                              (GetDeviceId mx.2) (mx_values mx'.2)])
     (fun _ _ =>
        ¬ (is_Some (m_nameToStreamId r !! mx.1) /\
           is_Some (mb_data mb !! streamId_of r mx.1) /\
           is_Some (m_streams r !! streamId_of r mx.1)))
     g r.
Proof.
  unfold copy_stream, nameToStreamId_at. wp_run; try exact I.
  all: destruct r; unfold copied, only_copied, record, streamId_of in *;
    cbn in *.
  all: repeat match goal with
         | H : ?m !! ?k = _ |- context [?m !! ?k] => rewrite H
         | H : _ \/ _ |- _ => destruct H; try discriminate
         end; cbn.
  all: try (intros (S1 & S2 & S3);
            repeat match goal with
              | H : is_Some None |- _ => destruct H; discriminate
              | H : ?x = None, S : is_Some ?x |- _ =>
                  rewrite H in S; destruct S; discriminate
              | H : bool_decide _ = false |- _ =>
                  apply bool_decide_eq_false in H; contradiction
              end; fail).
  all: try (rewrite <- app_assoc; cbn).
  all: repeat split; eauto; try congruence.
  all: try (unfold streamId_of; cbn; apply default_insert_missing;
            assumption).
  all: intros [x Hx]; destruct (decide (mx.1 = name)) as [<-|Hne];
    [congruence|rewrite lookup_insert_ne by exact Hne; eauto].
Qed.

Lemma last_snoc {A} (l : list A) a : last (l ++ [a]) = Some a.
Proof. induction l as [|b [|c l] IH]; cbn in *; auto. Qed.

Lemma wp_copy_loop ndebug mb matrices r g :
  wp record whatever (for_each (copy_stream ndebug mb) matrices)
     (fun ms' g' r' =>
        Forall2 (copied r mb) matrices ms' /\
        only_copied r r' /\ layout_after r mb matrices r' /\
        exists evs, g' = g ++ evs /\ Forall is_copy_event evs)
     (fun _ _ => ¬ requested_ok r mb matrices)
     g r.
Proof.
  eapply wp_mono.
  - apply (wp_for_each_gen record whatever (copy_stream ndebug mb) matrices []
             (fun seen g' r' =>
                only_copied r r' /\ layout_after r mb seen r' /\
                exists evs, g' = g ++ evs /\ Forall is_copy_event evs)
             (copied r mb)
             (fun _ _ => ¬ requested_ok r mb matrices)).
    + intros seen mx g1 r1 Hin (O1 & L1 & evs & -> & F1).
      eapply wp_mono; [apply wp_copy_stream| |].
      * intros mx' g2 r2 (C & O2 & (stream & Hs & Hl) & _ & _ & ->).
        pose proof (proj1 (only_copied_names _ _ mx.1 O1)) as Hid.
        split; [eapply copied_only_copied; eassumption|].
        split; [eapply only_copied_trans; eassumption|].
        split.
        -- unfold layout_after. rewrite last_snoc.
           exists stream. rewrite <- Hid. auto.
        -- eexists. split; [rewrite <- app_assoc; reflexivity|].
           apply Forall_app. split; [exact F1|].
           repeat constructor.
      * intros g2 r2 N R. apply N. destruct (R mx Hin) as (S1 & S2 & S3).
        destruct (only_copied_names _ _ mx.1 O1) as [Hid Hsome].
        destruct O1 as (?&?&?&?&?&?&?&Hstreams&?&?&?&_).
        rewrite Hid, Hstreams. auto.
    + split; [apply only_copied_refl|]. split; [reflexivity|].
      exists []. rewrite app_nil_r. split; [reflexivity|constructor].
  - intros ms' g' r' (F & O & L & E). cbn in L. auto.
  - auto.
Qed.


End Delivery.

(** ** What [GetMinibatch] hands over *)

Section HandOver.

Context `{Collaborators}.

Lemma check_devices_pass ndebug matrices r :
  matrices ≠ [] -> ndebug = true \/ same_device matrices ->
  check_devices ndebug matrices r = (Returned tt, r, []).
Proof.
  intros Hne [->|S].
  - apply check_devices_release, Hne.
  - apply check_devices_same; assumption.
Qed.

Lemma pending_valid r mb : pending_minibatch r = Some mb -> valid r = true.
Proof.
  unfold pending_minibatch, valid. destruct (m_prefetchTask r); [reflexivity|discriminate].
Qed.

Lemma future_get_pending r mb :
  pending_minibatch r = Some mb ->
  future_get r = (Returned mb, after_get r, await_events r).
Proof.
  intros P. rewrite future_get_eq, P.
  unfold pending_minibatch in P.
  destruct (m_prefetchTask r) as [f|]; [reflexivity|discriminate].
Qed.

Lemma await_events_await r : Forall is_await_event (await_events r).
Proof.
  unfold await_events. destruct (m_prefetchTask r) as [f|]; [|constructor].
  destruct (fut_result f); repeat constructor.
Qed.

(** [get] changes the task, the packer and the randomizer only. *)
Lemma after_get_fields r :
  m_layout (after_get r) = m_layout r /\
  m_provider (after_get r) = m_provider r /\
  m_launchType (after_get r) = m_launchType r /\
  m_frameMode (after_get r) = m_frameMode r /\
  m_streams (after_get r) = m_streams r /\
  m_nameToStreamId (after_get r) = m_nameToStreamId r /\
  m_endOfEpoch (after_get r) = m_endOfEpoch r /\
  launched (after_get r) = launched r.
Proof.
  unfold after_get. destruct (m_prefetchTask r) as [f|]; [|repeat split].
  destruct (fut_result f); [destruct r; repeat split|].
  destruct (m_packer r); [|repeat split].
  destruct (m_randomizer r); [|repeat split].
  destruct r; repeat split.
Qed.

Lemma after_get_task r mb :
  pending_minibatch r = Some mb -> m_prefetchTask (after_get r) = None.
Proof.
  unfold pending_minibatch, after_get.
  destruct (m_prefetchTask r) as [f|] eqn:T; [|discriminate].
  destruct (fut_result f); [destruct r; reflexivity|].
  destruct (m_packer r); [|discriminate].
  destruct (m_randomizer r); [|discriminate].
  destruct r; reflexivity.
Qed.

Lemma after_get_equipped r : equipped r -> equipped (after_get r).
Proof.
  unfold equipped, after_get. intros [[p Hp] [z Hz]].
  destruct (m_prefetchTask r) as [f|]; [|eauto].
  destruct (fut_result f); [destruct r; cbn in *; eauto|].
  rewrite Hp, Hz. destruct r; cbn; eauto.
Qed.

Lemma copied_same r1 r2 mb mx mx' :
  m_nameToStreamId r1 = m_nameToStreamId r2 -> m_streams r1 = m_streams r2 ->
  copied r1 mb mx mx' -> copied r2 mb mx mx'.
Proof.
  unfold copied, streamId_of. intros -> ->. auto.
Qed.

Lemma requested_ok_same r1 r2 mb matrices :
  m_nameToStreamId r1 = m_nameToStreamId r2 -> m_streams r1 = m_streams r2 ->
  requested_ok r1 mb matrices -> requested_ok r2 mb matrices.
Proof.
  unfold requested_ok, streamId_of. intros -> ->. auto.
Qed.

Lemma layout_after_same r1 r2 mb seen r' :
  m_nameToStreamId r1 = m_nameToStreamId r2 -> m_layout r1 = m_layout r2 ->
  layout_after r1 mb seen r' -> layout_after r2 mb seen r'.
Proof.
  unfold layout_after, streamId_of. intros -> ->. auto.
Qed.

(** The state in which the copy loop starts. *)
Lemma flagged_fields (b : bool) r :
  let r1 := if b then set_m_endOfEpoch true (after_get r) else after_get r in
  m_layout r1 = m_layout r /\
  m_streams r1 = m_streams r /\
  m_nameToStreamId r1 = m_nameToStreamId r /\
  m_launchType r1 = m_launchType r /\
  launched r1 = launched r /\
  m_prefetchTask r1 = m_prefetchTask (after_get r) /\
  m_endOfEpoch r1 = (b || m_endOfEpoch r).
Proof.
  destruct (after_get_fields r) as (?&?&?&?&?&?&?&?).
  destruct b; cbn; [destruct (after_get r); cbn in *|]; repeat split; auto.
Qed.

Lemma wp_GetMinibatch ndebug matrices r mb :
  m_endOfEpoch r = false -> pending_minibatch r = Some mb ->
  matrices ≠ [] -> ndebug = true \/ same_device matrices ->
  wp record whatever (GetMinibatch ndebug matrices)
     (fun res ev r' => handed_over r mb matrices res.1 res.2 ev r')
     (fun _ _ => is_empty (mb_data mb) = false /\
                 ¬ requested_ok r mb matrices)
     [] r.
Proof.
  intros E P Hne D.
  pose proof (future_get_pending r mb P) as Hget.
  set (ev_await := await_events r) in *.
  destruct (flagged_fields (mb_endOfEpoch mb) r)
    as (Fl & Fs & Fn & Flt & Fla & Ft & Fe).
  rewrite (after_get_task r mb P) in Ft.
  unfold GetMinibatch. apply wp_bind, wp_gets. rewrite E.
  apply wp_bind.
  eapply wp_of_eq; [apply check_devices_pass; assumption|exact I|]. cbn [foldl].
  apply wp_bind, wp_gets. rewrite (pending_valid r mb P).
  apply wp_bind, wp_assert; [intros _|discriminate].
  apply wp_bind.
  eapply wp_of_eq; [exact Hget|apply safely_whatever|].
  rewrite foldl_record. cbn [app].
  apply wp_bind.
  set (r1 := if mb_endOfEpoch mb then set_m_endOfEpoch true (after_get r)
             else after_get r) in *.
  assert (W : forall Q E', Q tt ev_await r1 ->
            wp record whatever
               (if mb_endOfEpoch mb then modify (set_m_endOfEpoch true)
                else ret tt) Q E' ev_await (after_get r)).
  { intros Q E' HQ. subst r1. destruct (mb_endOfEpoch mb); [apply wp_modify|apply wp_ret]; exact HQ. }
  apply W. clear W.
  destruct (mb_endOfEpoch mb && is_empty (mb_data mb)) eqn:B.
  - apply wp_ret. unfold handed_over. cbn [fst snd]. fold r1. rewrite B.
    apply andb_true_iff in B as [_ B]. rewrite B.
    split; [reflexivity|]. auto.
  - apply wp_bind. destruct (is_empty (mb_data mb)) eqn:Em; cbn [negb].
    + apply wp_ret. apply wp_bind.
      eapply wp_of_eq; [apply launch_prefetch_eq, Ft|apply safely_whatever|].
      rewrite foldl_record. apply wp_ret.
      unfold handed_over. cbn [fst snd]. fold r1. rewrite Em, B.
      split; [reflexivity|].
      exists r1, []. rewrite Fla, Flt.
      split; [apply only_copied_refl|]. split; [constructor|].
      repeat split; reflexivity.
    + eapply wp_mono; [apply wp_copy_loop| |].
      * intros ms' g' r2 (F2 & O & L & evs & -> & Fc). cbn beta.
        destruct (only_copied_names _ _ "" O) as [_ _].
        pose proof O as (_&Olt&_&_&_&_&_&_&_&Ot&Ola&_).
        apply wp_bind.
        eapply wp_of_eq; [apply launch_prefetch_eq; congruence
                         |apply safely_whatever|].
        rewrite foldl_record. apply wp_ret.
        unfold handed_over. cbn [fst snd]. fold r1. rewrite Em, B.
        split; [reflexivity|].
        exists r2, evs. rewrite Ola, Olt, Fla, Flt, <- app_assoc.
        split; [exact O|]. split; [exact Fc|]. split; [split|split; reflexivity].
        -- eapply Forall2_impl; [exact F2|]. intros mx mx'.
           apply copied_same; assumption.
        -- eapply layout_after_same; eassumption.
      * intros g' r' N. split; [reflexivity|]. intros R. apply N.
        eapply requested_ok_same; [| |exact R]; congruence.
Qed.

End HandOver.

(** ** The minibatch at the end of the epoch *)

Section EndOfEpochMinibatch.

Context `{Collaborators}.

(** A call that returned before the end of the epoch received a minibatch
    and handed it over. *)
Lemma GetMinibatch_returned ndebug matrices r b ms' r' ev :
  m_endOfEpoch r = false ->
  GetMinibatch ndebug matrices r = (Returned (b, ms'), r', ev) ->
  exists mb,
    pending_minibatch r = Some mb /\ handed_over r mb matrices b ms' ev r'.
Proof.
  intros E HG. pose proof HG as HG'.
  rewrite GetMinibatch_before_end in HG' by exact E.
  apply bind_returned in HG' as ([] & r1 & ev1 & ev2 & Hc & HG' & _).
  assert (Hne : matrices ≠ []).
  { intros ->. cbn in Hc. discriminate. }
  assert (D : ndebug = true \/ same_device matrices).
  { destruct ndebug; [left; reflexivity|right].
    destruct (same_device_dec matrices) as [S|S]; [exact S|].
    rewrite check_devices_mismatch in Hc by exact S. discriminate. }
  rewrite check_devices_pass in Hc by assumption.
  injection Hc as <- _.
  apply bind_returned in HG' as (v & r2 & ev3 & ev4 & Hv & HG' & _).
  injection Hv as <- <- _.
  apply bind_returned in HG' as ([] & r3 & ev5 & ev6 & Ha & HG' & _).
  assert (r3 = r) as ->.
  { unfold assert in Ha. destruct ndebug; [injection Ha; auto|].
    destruct (valid r); [injection Ha; auto|discriminate]. }
  apply bind_returned in HG' as (mb & r4 & ev7 & ev8 & Hget & _).
  rewrite future_get_eq in Hget.
  destruct (m_prefetchTask r) as [f|] eqn:T; [|discriminate].
  destruct (pending_minibatch r) as [mb'|] eqn:P; [|discriminate].
  injection Hget as <- _ _.
  exists mb'. split; [reflexivity|].
  pose proof (wp_GetMinibatch ndebug matrices r mb' E P Hne D) as W.
  exact (wp_returned _ _ _ _ _ _ _ W HG).
Qed.

(** Under the natural preconditions the call returns. *)
Lemma GetMinibatch_returns ndebug matrices r mb :
  m_endOfEpoch r = false -> pending_minibatch r = Some mb ->
  matrices ≠ [] -> same_device matrices ->
  (is_empty (mb_data mb) = false -> requested_ok r mb matrices) ->
  exists ms' r' ev,
    GetMinibatch ndebug matrices r
    = (Returned (negb (is_empty (mb_data mb)), ms'), r', ev) /\
    handed_over r mb matrices (negb (is_empty (mb_data mb))) ms' ev r'.
Proof.
  intros E P Hne S R.
  pose proof (wp_GetMinibatch ndebug matrices r mb E P Hne (or_intror S)) as W.
  assert (W' : wp record whatever (GetMinibatch ndebug matrices)
                  (fun res ev r' => handed_over r mb matrices res.1 res.2 ev r')
                  (fun _ _ => False) [] r).
  { eapply wp_mono; [exact W|auto|]. intros g' r' [Em N]. apply N, R, Em. }
  apply wp_returns in W' as ([b ms'] & r' & ev & HG & HO). cbn in HO.
  pose proof HO as [-> _]. eauto 6.
Qed.

Lemma handed_over_flag r mb matrices b ms' ev r' :
  m_endOfEpoch r = false ->
  handed_over r mb matrices b ms' ev r' ->
  m_endOfEpoch r' = mb_endOfEpoch mb.
Proof.
  intros E (_ & HO).
  destruct (flagged_fields (mb_endOfEpoch mb) r) as (_&_&_&_&_&_&Fe).
  cbn zeta in Fe. rewrite E, orb_false_r in Fe.
  destruct (mb_endOfEpoch mb && is_empty (mb_data mb)).
  - destruct HO as (_ & _ & ->). exact Fe.
  - destruct HO as (r2 & ev_copy & O & _ & _ & _ & ->).
    destruct O as (_&_&_&_&_&_&_&_&Oe&_). destruct r2; cbn in *. congruence.
Qed.

(** C3: before the end of the epoch, a call of [GetMinibatch] that returns
    has received the minibatch of the prefetch task, and its answer says
    whether that minibatch had data.  If the minibatch carries the
    end-of-epoch flag, the reader's flag is set, so that the next call
    returns false at once; with data, every buffer has the stream it names
    copied into it; without data, the buffers are returned as they were,
    no task is launched and nothing but the await has happened.  And the
    call does return when the buffers are on one device and, if there is
    data, ask for streams that are there. *)
Theorem GetMinibatch_end_of_epoch_minibatch ndebug
    (matrices : StreamMinibatchInputs) (r : Reader) :
  m_endOfEpoch r = false ->
  (forall b ms' r' ev,
     GetMinibatch ndebug matrices r = (Returned (b, ms'), r', ev) ->
     exists mb,
       pending_minibatch r = Some mb /\
       b = negb (is_empty (mb_data mb)) /\
       (mb_endOfEpoch mb = true ->
        m_endOfEpoch r' = true /\
        (forall ms, GetMinibatch ndebug ms r' = (Returned (false, ms), r', [])) /\
        if is_empty (mb_data mb)
        then ms' = matrices /\ m_prefetchTask r' = None /\
             Forall is_await_event ev
        else Forall2 (copied r mb) matrices ms')) /\
  (forall mb,
     pending_minibatch r = Some mb ->
     matrices ≠ [] -> same_device matrices ->
     (is_empty (mb_data mb) = false -> requested_ok r mb matrices) ->
     exists ms' r' ev,
       GetMinibatch ndebug matrices r
       = (Returned (negb (is_empty (mb_data mb)), ms'), r', ev)).
Proof.
  intros E. split.
  - intros b ms' r' ev HG.
    destruct (GetMinibatch_returned _ _ _ _ _ _ _ E HG) as (mb & P & HO).
    exists mb. split; [exact P|]. split; [apply HO|].
    intros Fl. pose proof (handed_over_flag _ _ _ _ _ _ _ E HO) as Fe.
    rewrite Fl in Fe. split; [exact Fe|].
    split; [intros ms; apply GetMinibatch_at_end, Fe|].
    destruct HO as (_ & HO). rewrite Fl in HO. cbn in HO.
    destruct (is_empty (mb_data mb)).
    + destruct HO as (-> & -> & ->).
      repeat split; [|apply await_events_await].
      destruct (flagged_fields true r) as (_&_&_&_&_&Ft&_).
      cbn zeta in Ft. rewrite Ft. eapply after_get_task, P.
    + destruct HO as (r2 & ev_copy & _ & _ & [F _] & _). exact F.
  - intros mb P Hne S R.
    destruct (GetMinibatch_returns ndebug matrices r mb E P Hne S R)
      as (ms' & r' & ev & HG & _).
    eauto.
Qed.

End EndOfEpochMinibatch.

(** ** Dimensions of the copy *)

Section Dimensions.

Context `{Collaborators}.


Lemma publish_stream_eq sd (r : Reader) :
  publish_stream sd r =
  (Returned tt,
   set_m_nameToStreamId
     (map_insert (m_name sd) (m_id sd) (m_nameToStreamId r))
     (set_m_streams (m_streams r ++ [set_m_storageType dense sd]) r),
   []).
Proof. destruct r; reflexivity. Qed.




End Dimensions.

(** ** The prefetch launched with the last minibatch *)

Section PastTheEnd.

Context `{Collaborators}.

Lemma wp_record_extends {A} (c : M A) g r :
  wp record whatever c
     (fun _ g' _ => exists ev, g' = g ++ ev)
     (fun g' _ => exists ev, g' = g ++ ev) g r.
Proof.
  unfold wp. destruct (c r) as [[o r'] ev]. split; [apply safely_whatever|].
  rewrite foldl_record. destruct o; eauto.
Qed.

Lemma future_wait_eq r f :
  m_prefetchTask r = Some f -> equipped r ->
  exists r',
    future_wait r =
    (Returned tt, r',
     match fut_result f with
     | Some _ => [EvJoin (fut_task f)]
     | None => [EvRun (fut_task f); EvJoin (fut_task f)]
     end).
Proof.
  intros T [[p Hp] [z Hz]]. unfold future_wait. rewrite run_bind. cbn [gets].
  rewrite T. unfold complete. destruct (fut_result f) as [mb|].
  - eexists. reflexivity.
  - rewrite !run_bind. unfold prefetch_body. rewrite Hp, Hz.
    destruct (ReadMinibatch p z) as [[mb p'] z']. eexists. reflexivity.
Qed.

(** The next epoch start awaits the task it finds. *)
Lemma StartDistributedMinibatchLoop_joins mb ep rank workers total r f :
  m_prefetchTask r = Some f -> equipped r ->
  exists rest,
    (StartDistributedMinibatchLoop mb ep rank workers total r).2 =
    match fut_result f with
    | Some _ => [EvJoin (fut_task f)]
    | None => [EvRun (fut_task f); EvJoin (fut_task f)]
    end ++ rest.
Proof.
  intros T Eq.
  assert (W : wp record whatever
                (StartDistributedMinibatchLoop mb ep rank workers total)
                (fun _ ev _ => exists rest,
                   ev = match fut_result f with
                        | Some _ => [EvJoin (fut_task f)]
                        | None => [EvRun (fut_task f); EvJoin (fut_task f)]
                        end ++ rest)
                (fun ev _ => exists rest,
                   ev = match fut_result f with
                        | Some _ => [EvJoin (fut_task f)]
                        | None => [EvRun (fut_task f); EvJoin (fut_task f)]
                        end ++ rest)
                [] r).
  { unfold StartDistributedMinibatchLoop.
    apply wp_bind, wp_modify. apply wp_bind, wp_gets.
    assert (V : valid (set_m_endOfEpoch false r) = true).
    { unfold valid. destruct r; cbn in *. rewrite T. reflexivity. }
    rewrite V. apply wp_bind.
    destruct (future_wait_eq (set_m_endOfEpoch false r) f) as (r1 & Hw).
    { destruct r; exact T. }
    { destruct r; exact Eq. }
    eapply wp_of_eq; [exact Hw|apply safely_whatever|].
    rewrite foldl_record. cbn [app].
    eapply wp_mono; [apply wp_record_extends| |]; cbn beta; auto. }
  unfold wp in W.
  destruct (StartDistributedMinibatchLoop _ _ _ _ _ r) as [[o r'] ev].
  destruct W as [_ W]. rewrite foldl_record in W. cbn [snd app].
  destruct o; exact W.
Qed.

(** A turn of the prefetch thread on a pending asynchronous task. *)
Lemma prefetch_thread_runs r id :
  m_prefetchTask r =
    Some {| fut_task := id; fut_policy := async; fut_result := None |} ->
  equipped r ->
  exists r' mb,
    prefetch_thread r = (Returned tt, r', [EvRun id]) /\
    m_prefetchTask r' =
      Some {| fut_task := id; fut_policy := async; fut_result := Some mb |} /\
    equipped r' /\ m_endOfEpoch r' = m_endOfEpoch r.
Proof.
  intros T [[p Hp] [z Hz]]. unfold prefetch_thread. rewrite run_bind.
  cbn [gets]. rewrite T. cbn [fut_result fut_policy fut_task].
  rewrite !run_bind. unfold prefetch_body. rewrite Hp, Hz.
  destruct (ReadMinibatch p z) as [[mb p'] z'].
  eexists _, mb. split; [reflexivity|].
  destruct r; cbn. unfold equipped; cbn. eauto.
Qed.

Lemma no_launch_await ev :
  Forall is_await_event ev -> Forall (fun e => ¬ is_launch_event e) ev.
Proof.
  intros F. eapply Forall_impl; [exact F|]. intros []; cbn; tauto.
Qed.

Lemma no_launch_copy ev :
  Forall is_copy_event ev -> Forall (fun e => ¬ is_launch_event e) ev.
Proof.
  intros F. eapply Forall_impl; [exact F|]. intros []; cbn; tauto.
Qed.

(** C10: when the minibatch received carries the end-of-epoch flag,
    [GetMinibatch] launches one more prefetch task if the minibatch has
    data and none if it has not.  With data, the new task is the only
    launch of the call; it will read on from where the read of the last
    minibatch left packer and randomizer; no further [GetMinibatch] awaits
    it, since each returns false at once; the next
    [StartDistributedMinibatchLoop] runs and awaits it first, or only
    awaits it when the prefetch thread has run it meanwhile.  Without
    data, the call returns false with no launch, and leaves the future
    invalid. *)
Theorem prefetch_past_end_of_epoch ndebug
    (matrices : StreamMinibatchInputs) (r : Reader) (mb : Minibatch) :
  m_endOfEpoch r = false ->
  pending_minibatch r = Some mb ->
  mb_endOfEpoch mb = true ->
  equipped r ->
  matrices ≠ [] -> same_device matrices ->
  (is_empty (mb_data mb) = false -> requested_ok r mb matrices) ->
  exists ms' r' ev,
    GetMinibatch ndebug matrices r
    = (Returned (negb (is_empty (mb_data mb)), ms'), r', ev) /\
    if is_empty (mb_data mb)
    then
      m_prefetchTask r' = None /\ launched r' = launched r /\
      Forall (fun e => ¬ is_launch_event e) ev
    else
      m_prefetchTask r' =
        Some {| fut_task := launched r; fut_policy := m_launchType r;
                fut_result := None |} /\
      (exists before,
         ev = before ++ [EvLaunch (launched r) (m_launchType r)] /\
         Forall (fun e => ¬ is_launch_event e) before) /\
      m_packer r' = m_packer (after_get r) /\
      m_randomizer r' = m_randomizer (after_get r) /\
      (forall ms, GetMinibatch ndebug ms r' = (Returned (false, ms), r', [])) /\
      (forall mbSize epoch rank workers total,
         exists rest,
           (StartDistributedMinibatchLoop mbSize epoch rank workers total r').2
           = EvRun (launched r) :: EvJoin (launched r) :: rest) /\
      (m_launchType r = async ->
       exists r'',
         prefetch_thread r' = (Returned tt, r'', [EvRun (launched r)]) /\
         (forall ms,
            GetMinibatch ndebug ms r'' = (Returned (false, ms), r'', [])) /\
         (forall mbSize epoch rank workers total,
            exists rest,
              (StartDistributedMinibatchLoop
                 mbSize epoch rank workers total r'').2
              = EvJoin (launched r) :: rest)).
Proof.
  intros E P Fl Eq Hne Sd R.
  destruct (GetMinibatch_returns ndebug matrices r mb E P Hne Sd R)
    as (ms' & r' & ev & HG & HO).
  exists ms', r', ev. split; [exact HG|].
  pose proof (handed_over_flag _ _ _ _ _ _ _ E HO) as Fe. rewrite Fl in Fe.
  destruct HO as (_ & HO). rewrite Fl in HO. cbn in HO.
  pose proof (await_events_await r) as Fa.
  destruct (flagged_fields true r) as (_&_&_&_&Fla&Ft&_). cbn zeta in Fla, Ft.
  rewrite (after_get_task r mb P) in Ft.
  destruct (is_empty (mb_data mb)).
  - destruct HO as (-> & -> & ->).
    repeat split; [exact Ft|exact Fla|apply no_launch_await, Fa].
  - destruct HO as (r2 & ev_copy & O & Fc & _ & -> & ->).
    pose proof (after_get_equipped r Eq) as Eq1.
    pose proof O as (_&_&_&_&_&Oz&Op&_).
    assert (Hp : m_packer
                   (set_m_prefetchTask
                      (Some {| fut_task := launched r;
                               fut_policy := m_launchType r;
                               fut_result := None |})
                      (set_launched (S (launched r)) r2))
                 = m_packer (after_get r)).
    { destruct r2; cbn in *. rewrite Op. destruct (after_get r); reflexivity. }
    assert (Hz : m_randomizer
                   (set_m_prefetchTask
                      (Some {| fut_task := launched r;
                               fut_policy := m_launchType r;
                               fut_result := None |})
                      (set_launched (S (launched r)) r2))
                 = m_randomizer (after_get r)).
    { destruct r2; cbn in *. rewrite Oz. destruct (after_get r); reflexivity. }
    set (r' := set_m_prefetchTask _ _) in *.
    assert (T' : m_prefetchTask r' =
                 Some {| fut_task := launched r; fut_policy := m_launchType r;
                         fut_result := None |}).
    { subst r'. destruct r2; reflexivity. }
    assert (Eq' : equipped r').
    { unfold equipped. rewrite Hp, Hz. exact Eq1. }
    split; [exact T'|]. split.
    { exists (await_events r ++ ev_copy). rewrite <- app_assoc.
      split; [reflexivity|].
      apply Forall_app. split; [apply no_launch_await, Fa
                               |apply no_launch_copy, Fc]. }
    split; [exact Hp|]. split; [exact Hz|].
    split; [intros ms; apply GetMinibatch_at_end, Fe|]. split.
    + intros mbSize epoch rank workers total.
      destruct (StartDistributedMinibatchLoop_joins
                  mbSize epoch rank workers total r' _ T' Eq') as (rest & ->).
      exists rest. reflexivity.
    + intros Hasync. rewrite Hasync in T'.
      destruct (prefetch_thread_runs r' _ T' Eq')
        as (r'' & mb2 & Hth & T'' & Eq'' & Fe'').
      exists r''. split; [exact Hth|]. split.
      * intros ms. apply GetMinibatch_at_end. congruence.
      * intros mbSize epoch rank workers total.
        destruct (StartDistributedMinibatchLoop_joins
                    mbSize epoch rank workers total r'' _ T'' Eq'')
          as (rest & ->).
        exists rest. reflexivity.
Qed.

End PastTheEnd.

(** ** One prefetch task at a time *)

Section OneAtATime.

Context `{Collaborators}.

#[local] Abbreviation wpT := (wp track at_most_one).

Lemma all_joined_slot_holds out r : all_joined out r -> slot_holds out r.
Proof.
  intros [-> J]. split; [left; reflexivity|]. intros f T. apply (J f T).
Qed.

Lemma track_join_slot out r f :
  slot_holds out r -> m_prefetchTask r = Some f ->
  track out (EvJoin (fut_task f)) = [].
Proof.
  intros [[->|(f' & T' & ->)] _] T; [reflexivity|].
  assert (f' = f) as -> by congruence.
  cbn. rewrite decide_False by auto. reflexivity.
Qed.

Ltac task_facts :=
  repeat match goal with
    | r : Reader |- _ => destruct r
    end; cbn in *.

Lemma wp_future_wait g r :
  slot_holds g r ->
  wpT future_wait (fun _ => all_joined) slot_holds g r.
Proof.
  intros S. unfold future_wait, complete. wp_run; try exact S.
  all: cbn [track].
  all: try (pose proof S as [[->|(f' & T' & ->)] _]; cbn; unfold at_most_one;
            cbn; repeat case_decide; cbn; lia).
  all: split.
  all: try (eapply track_join_slot; [|eassumption]; exact S).
  all: try (eapply (track_join_slot _ r); [exact S|eassumption]).
  all: destruct S as [_ B]; specialize (B f); task_facts.
  all: intros f' [= <-]; cbn; split; eauto.
Qed.

Lemma wp_future_get g r :
  slot_holds g r ->
  wpT future_get
      (fun _ g' r' => all_joined g' r' /\ m_prefetchTask r' = None)
      slot_holds g r.
Proof.
  intros S. unfold future_get, complete. wp_run; try exact S.
  all: cbn [track].
  all: try (pose proof S as [[->|(f' & T' & ->)] _]; cbn; unfold at_most_one;
            cbn; repeat case_decide; cbn; lia).
  all: split; [split|].
  all: try (eapply track_join_slot; [|eassumption]; exact S).
  all: try (eapply (track_join_slot _ r); [exact S|eassumption]).
  all: task_facts; try reflexivity.
  all: intros f' [=].
Qed.

Lemma wp_launch_prefetch g r :
  all_joined g r -> wpT launch_prefetch (fun _ => slot_holds) slot_holds g r.
Proof.
  intros [-> J]. unfold launch_prefetch, future_release. wp_run.
  all: cbn [track app]; unfold at_most_one; cbn; repeat case_decide;
    cbn; try lia.
  all: try (exfalso;
            match goal with
            | T : m_prefetchTask _ = Some ?f, N : fut_result ?f = None |- _ =>
                destruct (J f) as [_ [x Hx]];
                [task_facts; exact T|congruence]
            end).
  all: try (match goal with
            | T : m_prefetchTask _ = Some ?f |- _ =>
                destruct (J f) as [L _]; [task_facts; exact T|];
                task_facts; lia
            end).
  all: task_facts; split; [right; eexists; split; reflexivity|].
  all: intros f' [= <-]; cbn; lia.
Qed.

Lemma wp_prefetch_thread g r :
  slot_holds g r ->
  wpT prefetch_thread (fun _ => slot_holds) slot_holds g r.
Proof.
  intros S. unfold prefetch_thread. wp_run; try exact S.
  all: cbn [track].
  all: try (pose proof S as [[->|(f' & T' & ->)] _]; cbn; unfold at_most_one;
            cbn; lia).
  destruct S as [O B]. split.
  - destruct O as [->|(f' & T' & ->)]; [left; reflexivity|right].
    assert (f' = f) as -> by congruence.
    eexists. split; [task_facts; reflexivity|reflexivity].
  - specialize (B f). task_facts. intros f' [= <-]. cbn. auto.
Qed.

Lemma wp_StartEpoch cfg g r :
  all_joined g r ->
  wpT (StartEpoch cfg) (fun _ => all_joined) slot_holds g r.
Proof.
  intros J. pose proof J as [-> J']. unfold StartEpoch.
  wp_run; try (apply all_joined_slot_holds); try exact J.
  all: cbn [track]; unfold at_most_one; cbn; try lia.
  all: try (split; [reflexivity|]; task_facts; exact J').
Qed.

Lemma wp_copy_stream_joined ndebug mb mx g r :
  all_joined g r /\ m_prefetchTask r = None ->
  wpT (copy_stream ndebug mb mx)
      (fun _ g' r' => all_joined g' r' /\ m_prefetchTask r' = None)
      slot_holds g r.
Proof.
  intros [J N]. pose proof J as [-> J']. unfold copy_stream, nameToStreamId_at.
  wp_run.
  all: cbn [track]; unfold at_most_one; cbn; try lia.
  all: try (apply all_joined_slot_holds).
  all: try (split; [|task_facts; exact N]).
  all: split; [reflexivity|]; task_facts; rewrite N; intros f' [=].
Qed.

Lemma wp_StartDistributedMinibatchLoop mb ep rank workers total g r :
  slot_holds g r ->
  wpT (StartDistributedMinibatchLoop mb ep rank workers total)
      (fun _ => slot_holds) slot_holds g r.
Proof.
  intros S. unfold StartDistributedMinibatchLoop.
  apply wp_bind, wp_modify. apply wp_bind, wp_gets.
  assert (S' : slot_holds g (set_m_endOfEpoch false r)).
  { destruct r; exact S. }
  apply wp_bind.
  eapply (wp_mono _ _ _ (fun _ => all_joined)).
  - destruct (valid (set_m_endOfEpoch false r)) eqn:V.
    + apply wp_future_wait, S'.
    + apply wp_ret. unfold valid in V.
      destruct (m_prefetchTask (set_m_endOfEpoch false r)) as [f|] eqn:T;
        [discriminate|].
      destruct S' as [[->|(f & T' & _)] _]; [|congruence].
      split; [reflexivity|]. intros f. congruence.
  - intros ? g1 r1 J1. cbn beta. apply wp_bind.
    eapply wp_mono; [apply wp_StartEpoch, J1| |auto].
    intros ? g2 r2 J2. cbn beta. apply wp_launch_prefetch, J2.
  - auto.
Qed.

Lemma wp_GetMinibatch_slot ndebug matrices g r :
  slot_holds g r ->
  wpT (GetMinibatch ndebug matrices) (fun _ => slot_holds) slot_holds g r.
Proof.
  intros S. unfold GetMinibatch.
  apply wp_bind, wp_gets. destruct (m_endOfEpoch r); [apply wp_ret, S|].
  apply wp_bind, wp_check_devices; [|exact S].
  apply wp_bind, wp_gets. apply wp_bind, wp_assert; [intros _|intros _ _; exact S].
  apply wp_bind. eapply wp_mono; [apply wp_future_get, S| |auto].
  intros mb g1 r1 [J1 N1]. cbn beta. apply wp_bind.
  eapply wp_mono
    with (Q := fun _ g' r' => all_joined g' r' /\ m_prefetchTask r' = None)
         (E := slot_holds).
  { destruct (mb_endOfEpoch mb); [apply wp_modify|apply wp_ret].
    - destruct J1 as [-> J1]. split; [split; [reflexivity|]|];
        task_facts; assumption.
    - auto. }
  2: auto.
  intros ? g2 r2 [J2 N2]. cbn beta.
  destruct (_ && _); [apply wp_ret, all_joined_slot_holds, J2|].
  apply wp_bind.
  eapply wp_mono
    with (Q := fun _ g' r' => all_joined g' r' /\ m_prefetchTask r' = None)
         (E := slot_holds).
  { destruct (negb _); [|apply wp_ret; auto].
    apply (wp_for_each _ _ (copy_stream ndebug mb) matrices
             (fun g' r' => all_joined g' r' /\ m_prefetchTask r' = None));
      [|auto].
    intros mx g' r' JN. apply wp_copy_stream_joined, JN. }
  2: auto.
  intros ms g3 r3 [J3 N3]. cbn beta. apply wp_bind.
  eapply wp_mono; [apply wp_launch_prefetch, J3| |auto].
  intros ? g4 r4 S4. apply wp_ret, S4.
Qed.

Lemma step_slot ndebug c g r :
  slot_holds g r ->
  safely track at_most_one g (step ndebug c r).2 /\
  slot_holds (foldl track g (step ndebug c r).2) (step ndebug c r).1.2.
Proof.
  intros S.
  assert (W : forall A (m : M A),
            wpT m (fun _ => slot_holds) slot_holds g r ->
            safely track at_most_one g (m r).2 /\
            slot_holds (foldl track g (m r).2) (m r).1.2).
  { intros A m W. unfold wp in W. destruct (m r) as [[o r'] ev].
    destruct W as [Sf W]. split; [exact Sf|]. destruct o; exact W. }
  destruct c as [mb ep rank workers total|matrices| |]; cbn [step].
  - specialize (W _ _ (wp_StartDistributedMinibatchLoop
                         mb ep rank workers total g r S)).
    destruct (StartDistributedMinibatchLoop _ _ _ _ _ r) as [[o r'] ev].
    exact W.
  - specialize (W _ _ (wp_GetMinibatch_slot ndebug matrices g r S)).
    destruct (GetMinibatch _ _ r) as [[o r'] ev]. exact W.
  - split; [exact I|exact S].
  - specialize (W _ _ (wp_prefetch_thread g r S)).
    destruct (prefetch_thread r) as [[o r'] ev]. exact W.
Qed.

Lemma run_slot ndebug cs g r :
  slot_holds g r -> safely track at_most_one g (run ndebug cs r).2.
Proof.
  revert g r. induction cs as [|c cs IH]; intros g r S; [exact I|].
  cbn [run]. destruct (step_slot ndebug c g r S) as [Sf S1].
  destruct (step ndebug c r) as [[a r1] ev1]. cbn [fst snd] in *.
  destruct (fatal a); [exact Sf|].
  specialize (IH _ _ S1). destruct (run ndebug cs r1) as [[answers r2] ev2].
  cbn [snd] in *. apply safely_app. split; assumption.
Qed.

Lemma Init_quiet cfg r :
  m_prefetchTask r = None ->
  (Init cfg r).2 = [] /\ m_prefetchTask (Init cfg r).1.2 = None.
Proof.
  intros N.
  assert (W : wp record whatever (Init cfg)
                (fun _ g' r' => g' = [] /\ m_prefetchTask r' = None)
                (fun g' r' => g' = [] /\ m_prefetchTask r' = None) [] r).
  { unfold Init. wp_run; try (split; [reflexivity|]; task_facts; exact N).
    all: eapply wp_mono;
      [apply (wp_for_each _ _ publish_stream _
                (fun g' r' => g' = [] /\ m_prefetchTask r' = None)
                (fun g' r' => g' = [] /\ m_prefetchTask r' = None))| |auto].
    all: try (intros sd g' r' [-> N']; unfold publish_stream; wp_run;
              split; [reflexivity|]; task_facts; exact N').
    all: try (split; [reflexivity|]; task_facts; exact N).
    all: intros bs g' r' HI; apply wp_ret, HI. }
  unfold wp in W. destruct (Init cfg r) as [[o r'] ev]. destruct W as [_ W].
  rewrite foldl_record in W. cbn [app fst snd]. destruct o; exact W.
Qed.

Lemma safely_take g ev n :
  at_most_one g -> safely track at_most_one g ev ->
  at_most_one (foldl track g (take n ev)).
Proof.
  revert g ev. induction n as [|n IH]; intros g ev Hg Sf.
  - rewrite take_0. exact Hg.
  - destruct ev as [|e ev]; [exact Hg|]. cbn. destruct Sf as [He Sf].
    apply IH; assumption.
Qed.

Lemma after_wait_fields r mb :
  pending_minibatch r = Some mb ->
  settled (after_wait r) /\
  m_frameMode (after_wait r) = m_frameMode r /\
  m_launchType (after_wait r) = m_launchType r /\
  launched (after_wait r) = launched r.
Proof.
  intros P. destruct (after_get_fields r) as (_&_&Hlt&Hfm&_&_&_&Hla).
  unfold after_wait, settled. rewrite P.
  destruct (m_prefetchTask r) as [f|] eqn:T.
  - destruct (after_get r); cbn in *. repeat split; auto.
    intros f' [= <-]. cbn. eauto.
  - unfold pending_minibatch in P. rewrite T in P. discriminate.
Qed.

(** An epoch start that returns has awaited the task it found, then started
    the randomizer on the epoch and created the packer, then launched one
    task, and done nothing else but let go of the future of the old task. *)
Lemma StartDistributedMinibatchLoop_returned mb ep rank workers total r r' ev :
  StartDistributedMinibatchLoop mb ep rank workers total r
  = (Returned tt, r', ev) ->
  exists ev_release,
    ev = await_events r
         ++ [EvRandomizerStartEpoch
               {| m_numberOfWorkers := workers; m_workerRank := rank;
                  m_minibatchSizeInSamples := mb;
                  m_totalEpochSizeInSamples := total; m_epochIndex := ep |};
             EvNewPacker (m_frameMode r) mb;
             EvLaunch (launched r) (m_launchType r)]
         ++ ev_release /\
    Forall is_release_event ev_release.
Proof.
  unfold StartDistributedMinibatchLoop. intros HS.
  apply bind_returned in HS as ([] & r0 & ev0 & ev0' & H0 & HS & ->).
  injection H0 as <- <-.
  apply bind_returned in HS as (v & r0' & e1 & e1' & Hv & HS & ->).
  injection Hv as <- <- <-.
  apply bind_returned in HS as ([] & r1 & ev1 & ev1' & Hw & HS & ->).
  apply bind_returned in HS as ([] & r2 & ev2 & ev3 & He & Hl & ->).
  set (r0 := set_m_endOfEpoch false r) in *.
  assert (F0 : await_events r0 = await_events r /\
               m_frameMode r0 = m_frameMode r /\
               m_launchType r0 = m_launchType r /\
               launched r0 = launched r).
  { subst r0. unfold await_events. destruct r; repeat split. }
  destruct F0 as (Fa & Ffm & Flt & Fla).
  assert (W : ev1 = await_events r0 /\ settled r1 /\
              m_frameMode r1 = m_frameMode r0 /\
              m_launchType r1 = m_launchType r0 /\
              launched r1 = launched r0).
  { destruct (valid r0) eqn:V.
    - rewrite future_wait_general in Hw. unfold valid in V.
      destruct (m_prefetchTask r0) as [f|] eqn:T; [|discriminate].
      destruct (pending_minibatch r0) as [m|] eqn:P; [|discriminate].
      injection Hw as <- <-.
      destruct (after_wait_fields r0 m P) as (?&?&?&?). auto.
    - injection Hw as <- <-. unfold valid in V. unfold await_events, settled.
      destruct (m_prefetchTask r0) as [f|] eqn:T; [discriminate|].
      repeat split; auto. intros f. discriminate. }
  destruct W as (-> & St1 & Ffm1 & Flt1 & Fla1).
  destruct (Z_le_gt_dec total 0) as [Hle|Hgt].
  { rewrite StartEpoch_nonpositive in He by exact Hle. discriminate. }
  destruct (m_randomizer r1) as [z|] eqn:Hz.
  2: { unfold StartEpoch in He. rewrite run_bind in He.
       rewrite bool_decide_eq_false_2 in He by (cbn; lia). cbn [ret] in He.
       rewrite run_bind in He. cbn [gets] in He. rewrite Hz in He.
       discriminate. }
  rewrite (StartEpoch_positive _ r1 z) in He by (cbn; lia || exact Hz).
  injection He as <- <-.
  rewrite launch_prefetch_settled in Hl.
  2: { intros f T. apply (St1 f). destruct r1; exact T. }
  injection Hl as _ <-.
  eexists. split.
  - cbn [app]. rewrite Fa, Ffm1, Ffm, Fla1, Flt1, Fla, Flt. reflexivity.
  - destruct (m_prefetchTask _); repeat constructor.
Qed.

Lemma await_events_join r f :
  m_prefetchTask r = Some f ->
  last (await_events r) = Some (EvJoin (fut_task f)).
Proof.
  intros T. unfold await_events. rewrite T.
  destruct (fut_result f); reflexivity.
Qed.

(** C1: in every session, whatever the schedule of
    [StartDistributedMinibatchLoop], [GetMinibatch] and [CopyMBLayoutTo]
    calls and of turns of the prefetch thread, at most one prefetch task is
    outstanding after any number of actions: no task is launched before
    the one before it has been awaited.  This is so because an epoch start
    that returns first awaits the task it finds, then reconfigures, then
    launches one task; and a [GetMinibatch] that returns before the end of
    the epoch first awaits the task, then copies, and launches at most one
    task, last. *)
Theorem one_prefetch_outstanding ndebug :
  (forall deserializers launchType frameMode truncated endOfEpoch
          (cfg : ConfigParameters) (cs : list call) (n : nat),
     let r0 := CompositeDataReader_new deserializers launchType
                                       frameMode truncated endOfEpoch in
     at_most_one (outstanding (take n (session ndebug r0 cfg cs).2))) /\
  (forall mb ep rank workers total (r : Reader) r' ev,
     StartDistributedMinibatchLoop mb ep rank workers total r
     = (Returned tt, r', ev) ->
     (forall f, m_prefetchTask r = Some f ->
        last (await_events r) = Some (EvJoin (fut_task f))) /\
     exists ev_release,
       ev = await_events r
            ++ [EvRandomizerStartEpoch
                  {| m_numberOfWorkers := workers; m_workerRank := rank;
                     m_minibatchSizeInSamples := mb;
                     m_totalEpochSizeInSamples := total;
                     m_epochIndex := ep |};
                EvNewPacker (m_frameMode r) mb;
                EvLaunch (launched r) (m_launchType r)]
            ++ ev_release /\
       Forall is_release_event ev_release) /\
  (forall matrices (r : Reader) b ms' r' ev,
     m_endOfEpoch r = false ->
     GetMinibatch ndebug matrices r = (Returned (b, ms'), r', ev) ->
     exists f ev_copy,
       m_prefetchTask r = Some f /\
       last (await_events r) = Some (EvJoin (fut_task f)) /\
       Forall is_copy_event ev_copy /\
       (ev = await_events r \/
        ev = await_events r ++ ev_copy
             ++ [EvLaunch (launched r) (m_launchType r)])).
Proof.
  split; [|split].
  - intros deserializers launchType frameMode truncated endOfEpoch cfg cs n r0.
    unfold outstanding.
    apply safely_take; [unfold at_most_one; cbn; lia|].
    unfold session. destruct (Init_quiet cfg r0 eq_refl) as [Hev HT].
    destruct (Init cfg r0) as [[o r1] ev]. cbn [fst snd] in *. subst ev.
    assert (S1 : slot_holds [] r1).
    { split; [left; reflexivity|]. intros f. congruence. }
    pose proof (run_slot ndebug cs [] r1 S1) as Sf.
    destruct o; try exact I.
    destruct (run ndebug cs r1) as [[answers r2] ev2]. exact Sf.
  - intros mb ep rank workers total r r' ev HS.
    split; [intros f; apply await_events_join|].
    eapply StartDistributedMinibatchLoop_returned, HS.
  - intros matrices r b ms' r' ev E HG.
    destruct (GetMinibatch_returned _ _ _ _ _ _ _ E HG) as (m & P & _ & HO).
    assert (T : exists f, m_prefetchTask r = Some f).
    { unfold pending_minibatch in P.
      destruct (m_prefetchTask r) as [f|]; [eauto|discriminate]. }
    destruct T as (f & T).
    destruct (mb_endOfEpoch m && is_empty (mb_data m)).
    + destruct HO as (_ & -> & _). exists f, [].
      split; [exact T|]. split; [apply await_events_join, T|].
      split; [constructor|left; reflexivity].
    + destruct HO as (r2 & ev_copy & _ & Fc & _ & -> & _).
      exists f, ev_copy.
      split; [exact T|]. split; [apply await_events_join, T|].
      split; [exact Fc|right; reflexivity].
Qed.

End OneAtATime.

(** ** Deferred and asynchronous prefetch *)

Section Relational.

Context `{Collaborators}.

Lemma rwp_ret {A} (a : A) Q E r1 r2 :
  Q a r1 r2 -> rwp (ret a) (ret a) Q E r1 r2.
Proof. intros HQ. split; [reflexivity|exact HQ]. Qed.

Lemma rwp_bind {A B} (c1 c2 : M A) (k1 k2 : A -> M B) Q E r1 r2 :
  rwp c1 c2 (fun a => rwp (k1 a) (k2 a) Q E) E r1 r2 ->
  rwp (c1 ≫= k1) (c2 ≫= k2) Q E r1 r2.
Proof.
  unfold rwp, mbind, M_bind, bind.
  destruct (c1 r1) as [[[a1| | |] r1'] ev1];
    destruct (c2 r2) as [[[a2| | |] r2'] ev2]; try tauto.
  intros [<- W].
  destruct (k1 a1 r1') as [[o1 r1''] ev1'];
    destruct (k2 a1 r2') as [[o2 r2''] ev2'].
  exact W.
Qed.

Lemma rwp_mono {A} (c1 c2 : M A) (Q Q' : A -> Reader -> Reader -> Prop)
    (E E' : Reader -> Reader -> Prop) r1 r2 :
  rwp c1 c2 Q E r1 r2 ->
  (forall a r1' r2', Q a r1' r2' -> Q' a r1' r2') ->
  (forall r1' r2', E r1' r2' -> E' r1' r2') ->
  rwp c1 c2 Q' E' r1 r2.
Proof.
  unfold rwp.
  destruct (c1 r1) as [[[a1| | |] r1'] ev1];
    destruct (c2 r2) as [[[a2| | |] r2'] ev2]; try tauto.
  - intros [-> W] HQ _. auto.
  - intros [-> W] _ HE. auto.
Qed.

Lemma rwp_gets {A} (f : Reader -> A) Q E r1 r2 :
  f r1 = f r2 -> Q (f r1) r1 r2 -> rwp (gets f) (gets f) Q E r1 r2.
Proof. intros Hf HQ. split; assumption. Qed.

Lemma rwp_modify (f1 f2 : Reader -> Reader) Q E r1 r2 :
  Q tt (f1 r1) (f2 r2) -> rwp (modify f1) (modify f2) Q E r1 r2.
Proof. intros HQ. split; [reflexivity|exact HQ]. Qed.

Lemma rwp_emit e1 e2 Q E r1 r2 :
  Q tt r1 r2 -> rwp (emit e1) (emit e2) Q E r1 r2.
Proof. intros HQ. split; [reflexivity|exact HQ]. Qed.

Lemma rwp_throw {A} e (Q : A -> Reader -> Reader -> Prop) (E : Reader -> Reader -> Prop) r1 r2 :
  E r1 r2 -> rwp (throw e) (throw e) Q E r1 r2.
Proof. intros HE. split; [reflexivity|exact HE]. Qed.

Lemma rwp_abort {A} (Q : A -> Reader -> Reader -> Prop) E r1 r2 :
  rwp abort abort Q E r1 r2.
Proof. exact I. Qed.

Lemma rwp_undefined {A} (Q : A -> Reader -> Reader -> Prop) E r1 r2 :
  rwp undefined undefined Q E r1 r2.
Proof. exact I. Qed.

Lemma rwp_assert ndebug c Q E r1 r2 :
  Q tt r1 r2 -> rwp (assert ndebug c) (assert ndebug c) Q E r1 r2.
Proof.
  intros HQ. unfold assert. destruct ndebug; [apply rwp_ret, HQ|].
  destruct c; [apply rwp_ret, HQ|apply rwp_abort].
Qed.

Lemma rwp_at_index {A} (v : list A) i Q E r1 r2 :
  (forall a, v !! i = Some a -> Q a r1 r2) ->
  rwp (at_index v i) (at_index v i) Q E r1 r2.
Proof.
  intros HQ. unfold at_index. destruct (v !! i) as [a|].
  - apply rwp_ret, HQ. reflexivity.
  - apply rwp_undefined.
Qed.

Lemma rwp_for_each {A B} (f1 f2 : A -> M B) (l : list A)
    (I : Reader -> Reader -> Prop) E r1 r2 :
  (forall a r1' r2', I r1' r2' -> rwp (f1 a) (f2 a) (fun _ => I) E r1' r2') ->
  I r1 r2 -> rwp (for_each f1 l) (for_each f2 l) (fun _ => I) E r1 r2.
Proof.
  intros Hf. revert r1 r2.
  induction l as [|a l IH]; intros r1 r2 HI; cbn [for_each].
  - apply rwp_ret, HI.
  - apply rwp_bind. eapply rwp_mono; [apply Hf, HI| |auto].
    intros b r1' r2' HI'. cbn beta. apply rwp_bind.
    eapply rwp_mono; [apply IH, HI'| |auto].
    intros bs r1'' r2'' HI''. apply rwp_ret, HI''.
Qed.

Lemma rwp_check_devices ndebug matrices Q E r1 r2 :
  Q tt r1 r2 ->
  rwp (check_devices ndebug matrices) (check_devices ndebug matrices)
      Q E r1 r2.
Proof.
  intros HQ. unfold rwp.
  destruct (check_devices_pure ndebug matrices) as (o & Ho).
  rewrite !Ho. destruct o as [[]| | |]; auto.
  (* a device check never throws *)
  exfalso. destruct matrices as [|mx l]; [specialize (Ho r1); discriminate|].
  destruct ndebug.
  - specialize (Ho r1). rewrite check_devices_release in Ho; discriminate.
  - destruct (same_device_dec (mx :: l)) as [S|S]; specialize (Ho r1).
    + rewrite check_devices_same in Ho; (discriminate || exact S).
    + rewrite check_devices_mismatch in Ho; (discriminate || exact S).
Qed.

End Relational.

Ltac rwp_step :=
  lazymatch goal with
  | |- rwp (mbind _ _) (mbind _ _) _ _ _ _ => apply rwp_bind
  | |- rwp (ret _) (ret _) _ _ _ _ => apply rwp_ret
  | |- rwp (gets _) (gets _) _ _ _ _ => apply rwp_gets
  | |- rwp (modify _) (modify _) _ _ _ _ => apply rwp_modify
  | |- rwp (emit _) (emit _) _ _ _ _ => apply rwp_emit
  | |- rwp (throw _) (throw _) _ _ _ _ => apply rwp_throw
  | |- rwp abort abort _ _ _ _ => apply rwp_abort
  | |- rwp undefined undefined _ _ _ _ => apply rwp_undefined
  | |- rwp (assert _ _) (assert _ _) _ _ _ _ => apply rwp_assert
  | |- rwp (at_index _ _) (at_index _ _) _ _ _ _ =>
      apply rwp_at_index; intros ? ?
  | |- rwp (if ?b then _ else _) (if ?b then _ else _) _ _ _ _ =>
      destruct b eqn:?
  | |- rwp (match ?x with _ => _ end) (match ?x with _ => _ end) _ _ _ _ =>
      destruct x eqn:?
  end.

Ltac rwp_run := repeat (rwp_step; cbn beta).

Ltac rel_unfold :=
  unfold agree, sim, members, outlook, task_key, settled, wf, equipped,
    valid, pending_minibatch, after_get, after_wait in *.

Ltac rel_solve :=
  repeat match goal with
    | H : agree _ _ /\ _ |- _ => destruct H
    | H : agree _ _ |- _ => destruct H as (?&?&?&?&?&?&?)
    | H : sim _ _ |- _ => destruct H as (?&?&?&?)
    end;
  repeat match goal with r : Reader |- _ => destruct r end;
  rel_unfold; cbn in *; simplify_eq; cbn in *.


Section SideBySide.

Context `{Collaborators}.

Lemma agree_sim r1 r2 : agree r1 r2 -> sim r1 r2.
Proof.
  intros (Hm & Hp & Hz & Hk & St & W1 & W2).
  split; [exact Hm|]. split; [|split; assumption].
  unfold outlook, task_key, settled in *.
  destruct (m_prefetchTask r1) as [f1|] eqn:T1;
    destruct (m_prefetchTask r2) as [f2|] eqn:T2; try discriminate.
  - destruct (St f1 eq_refl) as [mb R1]. injection Hk as Hid Hres.
    rewrite R1 in *. rewrite <- Hres, Hid, Hp, Hz. reflexivity.
  - rewrite Hp, Hz. reflexivity.
Qed.

Lemma sim_valid r1 r2 : sim r1 r2 -> valid r1 = valid r2.
Proof.
  intros (_ & Ho & _). unfold valid, outlook in *.
  destruct (m_prefetchTask r1) as [f1|]; destruct (m_prefetchTask r2) as [f2|];
    try reflexivity; exfalso.
  - destruct (fut_result f1); [discriminate|].
    destruct (m_packer r1); [|discriminate].
    destruct (m_randomizer r1); discriminate.
  - destruct (fut_result f2); [discriminate|].
    destruct (m_packer r2); [|discriminate].
    destruct (m_randomizer r2); discriminate.
Qed.

Lemma sim_members r1 r2 : sim r1 r2 -> members r1 = members r2.
Proof. intros S. apply S. Qed.

Lemma sim_set_endOfEpoch b r1 r2 :
  sim r1 r2 -> sim (set_m_endOfEpoch b r1) (set_m_endOfEpoch b r2).
Proof. intros S. rel_solve. repeat split; auto; tauto. Qed.

(** What [get] returns and leaves, read off the outlook. *)
Lemma outlook_get r :
  outlook r =
  match m_prefetchTask r with
  | None => (None, m_packer r, m_randomizer r)
  | Some f =>
      (Some (fut_task f, pending_minibatch r),
       m_packer (after_get r), m_randomizer (after_get r))
  end.
Proof.
  unfold outlook, pending_minibatch, after_get.
  destruct (m_prefetchTask r) as [f|]; [|reflexivity].
  destruct (fut_result f); [destruct r; reflexivity|].
  destruct (m_packer r) as [p|] eqn:P; [|rewrite P; reflexivity].
  destruct (m_randomizer r) as [z|] eqn:Z; [|rewrite P, Z; reflexivity].
  destruct r; reflexivity.
Qed.

Lemma after_get_members r : members (after_get r) = members r.
Proof.
  destruct (after_get_fields r) as (?&?&?&?&?&?&?&?).
  unfold members. 
  assert (m_truncated (after_get r) = m_truncated r /\
          m_deserializers (after_get r) = m_deserializers r) as [? ?].
  { unfold after_get. destruct (m_prefetchTask r) as [f|]; [|split; reflexivity].
    destruct (fut_result f); [destruct r; split; reflexivity|].
    destruct (m_packer r); [|split; reflexivity].
    destruct (m_randomizer r); [|split; reflexivity].
    destruct r; split; reflexivity. }
  congruence.
Qed.

Lemma wf_equipped r f : wf r -> m_prefetchTask r = Some f -> equipped r.
Proof. intros W T. apply W. rewrite T. eauto. Qed.

Lemma rwp_future_get r1 r2 :
  sim r1 r2 ->
  rwp future_get future_get
      (fun _ r1' r2' =>
         agree r1' r2' /\ m_prefetchTask r1' = None /\
         m_prefetchTask r2' = None /\ equipped r1' /\ equipped r2')
      sim r1 r2.
Proof.
  intros (Hm & Ho & W1 & W2). unfold rwp. rewrite !future_get_eq.
  rewrite !outlook_get in Ho.
  destruct (m_prefetchTask r1) as [f1|] eqn:T1;
    destruct (m_prefetchTask r2) as [f2|] eqn:T2; try discriminate;
    [|exact I].
  injection Ho as Hid Hpm Hp Hz. rewrite <- Hpm.
  destruct (pending_minibatch r1) as [mb|] eqn:P1; [|exact I].
  split; [reflexivity|].
  assert (P2 : pending_minibatch r2 = Some mb) by congruence.
  pose proof (after_get_task _ _ P1) as N1.
  pose proof (after_get_task _ _ P2) as N2.
  pose proof (after_get_equipped _ (wf_equipped _ _ W1 T1)) as E1.
  pose proof (after_get_equipped _ (wf_equipped _ _ W2 T2)) as E2.
  repeat split; try assumption.
  - rewrite !after_get_members. exact Hm.
  - unfold task_key. rewrite N1, N2. reflexivity.
  - intros f. rewrite N1. discriminate.
  - apply E1.
  - apply E1.
  - apply E2.
  - apply E2.
  - apply E1.
  - apply E1.
  - apply E2.
  - apply E2.
Qed.

Lemma agree_settled_r r1 r2 : agree r1 r2 -> settled r2.
Proof.
  intros (_ & _ & _ & Hk & St & _) f T2. unfold task_key, settled in *.
  rewrite T2 in Hk. destruct (m_prefetchTask r1) as [f1|]; [|discriminate].
  injection Hk as _ <-. apply (St f1 eq_refl).
Qed.

Lemma rwp_future_wait r1 r2 :
  sim r1 r2 ->
  rwp future_wait future_wait (fun _ => agree) sim r1 r2.
Proof.
  intros (Hm & Ho & W1 & W2). unfold rwp. rewrite !future_wait_general.
  rewrite !outlook_get in Ho.
  destruct (m_prefetchTask r1) as [f1|] eqn:T1;
    destruct (m_prefetchTask r2) as [f2|] eqn:T2; try discriminate;
    [|exact I].
  injection Ho as Hid Hpm Hp Hz. rewrite <- Hpm.
  destruct (pending_minibatch r1) as [mb|] eqn:P1; [|exact I].
  split; [reflexivity|].
  assert (P2 : pending_minibatch r2 = Some mb) by congruence.
  pose proof (after_get_equipped _ (wf_equipped _ _ W1 T1)) as E1.
  pose proof (after_get_equipped _ (wf_equipped _ _ W2 T2)) as E2.
  pose proof (after_get_members r1) as M1.
  pose proof (after_get_members r2) as M2.
  unfold after_wait. rewrite T1, T2, P1, P2.
  unfold agree, members, task_key, settled, wf, equipped in *.
  destruct (after_get r1), (after_get r2); cbn in *.
  repeat split; try congruence; try tauto.
  intros f [= <-]. cbn. eauto.
Qed.

Lemma rwp_launch_prefetch r1 r2 :
  agree r1 r2 -> equipped r1 -> equipped r2 ->
  rwp launch_prefetch launch_prefetch (fun _ => sim) sim r1 r2.
Proof.
  intros A E1 E2. pose proof (agree_settled_r _ _ A) as St2.
  destruct A as (Hm & Hp & Hz & Hk & St1 & W1 & W2).
  unfold rwp. rewrite !launch_prefetch_settled by assumption.
  split; [reflexivity|].
  destruct E1 as [[p1 P1] [z1 Z1]], E2 as [[p2 P2] [z2 Z2]].
  unfold sim, members, outlook, wf, equipped in *.
  destruct r1, r2; cbn in *. simplify_eq.
  repeat split; eauto.
Qed.

Lemma rwp_StartEpoch cfg r1 r2 :
  agree r1 r2 ->
  rwp (StartEpoch cfg) (StartEpoch cfg)
      (fun _ r1' r2' => agree r1' r2' /\ equipped r1' /\ equipped r2')
      sim r1 r2.
Proof.
  intros A. pose proof (agree_sim _ _ A) as S. unfold StartEpoch.
  rwp_run; try exact S.
  all: try (rel_solve; reflexivity).
  all: rel_solve; repeat split; eauto; try tauto.
Qed.

Lemma rwp_copy_stream ndebug mb mx r1 r2 :
  agree r1 r2 /\ equipped r1 /\ equipped r2 ->
  rwp (copy_stream ndebug mb mx) (copy_stream ndebug mb mx)
      (fun _ r1' r2' => agree r1' r2' /\ equipped r1' /\ equipped r2')
      sim r1 r2.
Proof.
  intros (A & E1 & E2). unfold copy_stream, nameToStreamId_at.
  rwp_run.
  all: try (rel_solve; reflexivity).
  all: rel_solve; repeat split; eauto; try tauto.
Qed.

(** A turn of the prefetch thread changes nothing that the outlook does not
    already account for. *)
Lemma prefetch_thread_sim r1 r2 :
  sim r1 r2 ->
  exists r1' ev,
    prefetch_thread r1 = (Returned tt, r1', ev) /\ sim r1' r2.
Proof.
  intros S. unfold prefetch_thread. rewrite run_bind. cbn [gets].
  destruct (m_prefetchTask r1) as [f|] eqn:T;
    [|eexists _, _; split; [reflexivity|exact S]].
  destruct (fut_result f) as [mb|] eqn:R;
    [eexists _, _; split; [reflexivity|exact S]|].
  destruct (fut_policy f) eqn:Pol;
    [|eexists _, _; split; [reflexivity|exact S]].
  destruct S as (Hm & Ho & W1 & W2).
  destruct (wf_equipped _ _ W1 T) as [[p P] [z Z]].
  rewrite !run_bind. unfold prefetch_body. rewrite P, Z.
  destruct (ReadMinibatch p z) as [[mb p'] z'] eqn:RM.
  eexists _, _. split; [reflexivity|].
  unfold sim, members, outlook, wf, equipped in *.
  destruct r1; cbn in *. subst. rewrite R, RM in Ho. cbn in *.
  repeat split; eauto; tauto.
Qed.

End SideBySide.

Section Equivalence.

Context `{Collaborators}.

Lemma sim_no_task_agree r1 r2 : sim r1 r2 -> valid r1 = false -> agree r1 r2.
Proof.
  intros S V. pose proof (sim_valid _ _ S) as V2. rewrite V in V2.
  destruct S as (Hm & Ho & W1 & W2). unfold valid, outlook in *.
  destruct (m_prefetchTask r1) as [f1|] eqn:T1; [discriminate|].
  destruct (m_prefetchTask r2) as [f2|] eqn:T2; [discriminate|].
  injection Ho as Hp Hz.
  unfold agree, task_key, settled. rewrite T1, T2.
  repeat split; try assumption; try discriminate.
  all: first [apply W1; assumption | apply W2; assumption].
Qed.

Lemma rwp_StartDistributedMinibatchLoop mb ep rank workers total r1 r2 :
  sim r1 r2 ->
  rwp (StartDistributedMinibatchLoop mb ep rank workers total)
      (StartDistributedMinibatchLoop mb ep rank workers total)
      (fun _ => sim) sim r1 r2.
Proof.
  intros S. unfold StartDistributedMinibatchLoop.
  pose proof (sim_set_endOfEpoch false _ _ S) as S'.
  apply rwp_bind, rwp_modify. apply rwp_bind, rwp_gets;
    [apply sim_valid, S'|].
  apply rwp_bind.
  eapply rwp_mono with (Q := fun _ => agree) (E := sim).
  - destruct (valid (set_m_endOfEpoch false r1)) eqn:V.
    + apply rwp_future_wait, S'.
    + apply rwp_ret, sim_no_task_agree; assumption.
  - intros u r1' r2' A. cbn beta. apply rwp_bind.
    eapply rwp_mono; [apply rwp_StartEpoch, A| |auto].
    intros u' r1'' r2'' (A' & E1 & E2). cbn beta.
    apply rwp_launch_prefetch; assumption.
  - auto.
Qed.

Lemma agree_set_endOfEpoch b r1 r2 :
  agree r1 r2 -> agree (set_m_endOfEpoch b r1) (set_m_endOfEpoch b r2).
Proof.
  intros A. destruct A as (?&?&?&?&?&?&?).
  destruct r1, r2. unfold agree, members, task_key, settled, wf, equipped in *.
  cbn in *. simplify_eq. repeat split; auto; tauto.
Qed.

Lemma equipped_set_endOfEpoch b r :
  equipped r -> equipped (set_m_endOfEpoch b r).
Proof. destruct r. exact id. Qed.

Lemma rwp_GetMinibatch ndebug matrices r1 r2 :
  sim r1 r2 ->
  rwp (GetMinibatch ndebug matrices) (GetMinibatch ndebug matrices)
      (fun _ => sim) sim r1 r2.
Proof.
  intros S. unfold GetMinibatch.
  assert (Ee : m_endOfEpoch r1 = m_endOfEpoch r2).
  { pose proof (sim_members _ _ S) as Hm. unfold members in Hm. congruence. }
  apply rwp_bind, rwp_gets; [exact Ee|].
  destruct (m_endOfEpoch r1); [apply rwp_ret, S|].
  apply rwp_bind, rwp_check_devices.
  apply rwp_bind, rwp_gets; [apply sim_valid, S|].
  apply rwp_bind, rwp_assert.
  apply rwp_bind. eapply rwp_mono; [apply rwp_future_get, S| |auto].
  intros mb r1' r2' (A & N1 & N2 & E1 & E2). cbn beta.
  apply rwp_bind.
  eapply rwp_mono
    with (Q := fun _ r1'' r2'' =>
                 agree r1'' r2'' /\ equipped r1'' /\ equipped r2'')
         (E := sim).
  { destruct (mb_endOfEpoch mb); [apply rwp_modify|apply rwp_ret]; auto.
    split; [apply agree_set_endOfEpoch, A|].
    split; apply equipped_set_endOfEpoch; assumption. }
  2: auto.
  intros u r1'' r2'' (A' & E1' & E2'). cbn beta.
  destruct (_ && _); [apply rwp_ret, agree_sim, A'|].
  apply rwp_bind.
  eapply rwp_mono
    with (Q := fun _ r1'' r2'' =>
                 agree r1'' r2'' /\ equipped r1'' /\ equipped r2'')
         (E := sim).
  { destruct (negb _); [|apply rwp_ret; auto].
    apply (rwp_for_each (copy_stream ndebug mb) (copy_stream ndebug mb)
             matrices
             (fun r1'' r2'' =>
                agree r1'' r2'' /\ equipped r1'' /\ equipped r2''));
      [|auto].
    intros mx r1x r2x AE. apply rwp_copy_stream, AE. }
  2: auto.
  intros ms r1x r2x (Ax & E1x & E2x). cbn beta. apply rwp_bind.
  eapply rwp_mono; [apply rwp_launch_prefetch; assumption| |auto].
  intros u' r1y r2y Sy. apply rwp_ret, Sy.
Qed.

(** A call of the training loop on two such readers: the same answer, and
    two such readers again unless the process has ended. *)
Lemma step_sim ndebug c r1 r2 :
  sim r1 r2 -> is_thread_call c = false ->
  (step ndebug c r1).1.1 = (step ndebug c r2).1.1 /\
  (fatal (step ndebug c r1).1.1 = false ->
   sim (step ndebug c r1).1.2 (step ndebug c r2).1.2).
Proof.
  intros S NT.
  assert (W : forall A (m : M A) (wrap : outcome A -> answer),
            (forall o, fatal (wrap o) = fatal_outcome o) ->
            rwp m m (fun _ => sim) sim r1 r2 ->
            wrap (m r1).1.1 = wrap (m r2).1.1 /\
            (fatal (wrap (m r1).1.1) = false -> sim (m r1).1.2 (m r2).1.2)).
  { intros A m wrap Hw W. unfold rwp in W.
    destruct (m r1) as [[[a1| | |] r1'] ev1];
      destruct (m r2) as [[[a2| | |] r2'] ev2]; try contradiction;
      cbn [fst snd]; rewrite ?Hw; cbn.
    - destruct W as [-> W]. auto.
    - destruct W as [-> W]. auto.
    - split; [reflexivity|discriminate].
    - split; [reflexivity|discriminate]. }
  destruct c as [mb ep rank workers total|matrices| |]; cbn [step];
    try discriminate.
  - specialize (W _ (StartDistributedMinibatchLoop mb ep rank workers total)
                  AnsStart (fun _ => eq_refl)
                  (rwp_StartDistributedMinibatchLoop _ _ _ _ _ _ _ S)).
    destruct (StartDistributedMinibatchLoop _ _ _ _ _ r1) as [[o1 r1'] ev1];
      destruct (StartDistributedMinibatchLoop _ _ _ _ _ r2) as [[o2 r2'] ev2].
    exact W.
  - specialize (W _ (GetMinibatch ndebug matrices) AnsGetMinibatch
                  (fun _ => eq_refl) (rwp_GetMinibatch _ _ _ _ S)).
    destruct (GetMinibatch _ _ r1) as [[o1 r1'] ev1];
      destruct (GetMinibatch _ _ r2) as [[o2 r2'] ev2].
    exact W.
  - cbn. pose proof (sim_members _ _ S) as Hm. unfold members in Hm.
    split; [congruence|intros _; exact S].
Qed.

Lemma loop_calls_cons c cs :
  loop_calls (c :: cs) =
  if is_thread_call c then loop_calls cs else c :: loop_calls cs.
Proof.
  unfold loop_calls. destruct (is_thread_call c) eqn:TC.
  - apply filter_cons_False. rewrite TC. discriminate.
  - apply filter_cons_True. exact TC.
Qed.

Lemma loop_view_cons a answers :
  loop_view (a :: answers) =
  if is_thread a then loop_view answers else a :: loop_view answers.
Proof.
  unfold loop_view. destruct (is_thread a) eqn:TA.
  - apply filter_cons_False. rewrite TA. discriminate.
  - apply filter_cons_True. exact TA.
Qed.

Lemma run_sim ndebug cs r1 r2 :
  sim r1 r2 ->
  loop_view (run ndebug cs r1).1.1
  = loop_view (run ndebug (loop_calls cs) r2).1.1.
Proof.
  revert r1 r2. induction cs as [|c cs IH]; intros r1 r2 S; [reflexivity|].
  rewrite loop_calls_cons. destruct (is_thread_call c) eqn:TC.
  - destruct c; try discriminate. cbn [run step].
    destruct (prefetch_thread_sim _ _ S) as (r1' & ev & -> & S').
    cbn [fatal fatal_outcome]. specialize (IH _ _ S').
    destruct (run ndebug cs r1') as [[answers r1''] ev'']. cbn [fst] in *.
    rewrite loop_view_cons. exact IH.
  - cbn [run].
    destruct (step_sim ndebug c r1 r2 S TC) as [Ha Hs].
    destruct (step ndebug c r1) as [[a1 r1'] ev1];
      destruct (step ndebug c r2) as [[a2 r2'] ev2]. cbn [fst snd] in *.
    subst a2. destruct (fatal a1) eqn:F; [reflexivity|].
    specialize (IH _ _ (Hs eq_refl)).
    destruct (run ndebug cs r1') as [[answers1 r1''] ev1''];
      destruct (run ndebug (loop_calls cs) r2') as [[answers2 r2''] ev2''].
    cbn [fst] in *. rewrite !loop_view_cons, IH. reflexivity.
Qed.

Lemma sim_refl r : wf r -> sim r r.
Proof.
  intros W. split; [reflexivity|]. split; [reflexivity|]. split; exact W.
Qed.

Lemma run_two_schedules ndebug sa sd r1 r2 :
  sim r1 r2 -> wf r2 -> loop_calls sa = loop_calls sd ->
  loop_view (run ndebug sa r1).1.1 = loop_view (run ndebug sd r2).1.1.
Proof.
  intros S W L.
  rewrite (run_sim ndebug sa r1 r2 S), (run_sim ndebug sd r2 r2 (sim_refl _ W)).
  rewrite L. reflexivity.
Qed.

Lemma rwp_publish_stream sd r1 r2 :
  agree r1 r2 ->
  rwp (publish_stream sd) (publish_stream sd) (fun _ => agree) agree r1 r2.
Proof.
  intros A. unfold publish_stream. rwp_run.
  rel_solve. repeat split; auto; tauto.
Qed.

(** [Init] with and without [prefetch], for a bundler that does not read
    the key. *)
Lemma rwp_Init cfg r1 r2 :
  (forall d ds c,
     Bundler_new (with_prefetch true cfg) d ds c
     = Bundler_new (with_prefetch false cfg) d ds c) ->
  agree r1 r2 ->
  rwp (Init (with_prefetch true cfg)) (Init (with_prefetch false cfg))
      (fun _ => agree) agree r1 r2.
Proof.
  intros Hb A. unfold Init. cbn [with_prefetch cfg_nbruttsineachrecurrentiter
    cfg_prefetch cfg_frameMode cfg_truncated cfg_checkData cfg_verbosity
    cfg_randomize cfg_randomizationWindow].
  apply rwp_bind, rwp_modify. apply rwp_bind, rwp_modify.
  apply rwp_bind, rwp_at_index. intros n0 Hn0.
  apply rwp_bind, rwp_modify. apply rwp_bind, rwp_modify.
  apply rwp_bind, rwp_modify. apply rwp_bind, rwp_gets.
  { rel_solve. reflexivity. }
  apply rwp_bind, rwp_at_index. intros d0 Hd0. rewrite !Hb.
  assert (D : m_deserializers
                (set_m_truncated (config (cfg_truncated cfg) false)
                   (set_m_frameMode (config (cfg_frameMode cfg) true)
                      (set_m_layout
                         (MBLayout_Init n0 0
                            (m_layout
                               (set_m_launchType (if config (Some true) true then async else deferred)
                                  (set_m_provider (Some HeapMemoryProvider) r1))))
                         (set_m_launchType (if config (Some true) true then async else deferred)
                            (set_m_provider (Some HeapMemoryProvider) r1)))))
              = m_deserializers r1) by (destruct r1; reflexivity).
  rewrite D. clear D.
  apply rwp_bind.
  eapply rwp_mono with (Q := fun _ => agree) (E := agree).
  - destruct (config (cfg_randomize cfg) false); apply rwp_modify;
      rel_solve; repeat split; auto; tauto.
  - intros u r1' r2' A'. cbn beta. apply rwp_bind.
    eapply rwp_mono with (E := agree);
      [apply rwp_for_each with (I := agree); [|exact A']| |auto].
    + intros sd r1x r2x Ax. apply rwp_publish_stream, Ax.
    + intros bs r1x r2x Ax. apply rwp_ret, Ax.
  - auto.
Qed.

(** C5: what the training loop gets from the reader does not depend on the
    launch policy, nor on when the prefetch thread takes its turns.  Take
    two schedules with the same calls of the training loop
    ([StartDistributedMinibatchLoop], [GetMinibatch], [CopyMBLayoutTo]) and
    any turns of the prefetch thread in between.  Run from a reader without
    a task, one with the asynchronous and one with the deferred policy,
    they give the same answers: the same results of the epoch starts, the
    same minibatches in the caller's buffers with the same return values,
    and the same layouts.  The same holds of two sessions whose
    configurations differ in the [prefetch] key only, provided the bundler
    does not read that key. *)
Theorem prefetch_policy_unobservable ndebug :
  (forall (r : Reader) (sa sd : list call),
     m_prefetchTask r = None ->
     loop_calls sa = loop_calls sd ->
     loop_view (run ndebug sa (set_m_launchType async r)).1.1
     = loop_view (run ndebug sd (set_m_launchType deferred r)).1.1) /\
  (forall deserializers launchType frameMode truncated endOfEpoch
          (cfg : ConfigParameters) (sa sd : list call),
     (forall d ds c,
        Bundler_new (with_prefetch true cfg) d ds c
        = Bundler_new (with_prefetch false cfg) d ds c) ->
     loop_calls sa = loop_calls sd ->
     let r0 := CompositeDataReader_new deserializers launchType
                                       frameMode truncated endOfEpoch in
     loop_view (session ndebug r0 (with_prefetch true cfg) sa).1.1
     = loop_view (session ndebug r0 (with_prefetch false cfg) sd).1.1).
Proof.
  split.
  - intros r sa sd N L. apply run_two_schedules; [| |exact L].
    + destruct r; cbn in N; subst.
      unfold sim, members, outlook, wf; cbn.
      repeat split;
        match goal with H : is_Some None |- _ => destruct H; discriminate end.
    + destruct r; cbn in N; subst. intros [x Hx]. discriminate.
  - intros deserializers launchType frameMode truncated endOfEpoch cfg sa sd
           Hb L r0.
    assert (A0 : agree r0 r0).
    { unfold agree, settled, wf. subst r0. cbn.
      repeat split; try discriminate;
        match goal with H : is_Some None |- _ => destruct H; discriminate end. }
    pose proof (rwp_Init cfg r0 r0 Hb A0) as W. unfold rwp in W.
    unfold session.
    destruct (Init (with_prefetch true cfg) r0) as [[[u1| | |] r1] ev1];
      destruct (Init (with_prefetch false cfg) r0) as [[[u2| | |] r2] ev2];
      try contradiction; try reflexivity.
    destruct W as [_ A].
    pose proof (run_two_schedules ndebug sa sd r1 r2 (agree_sim _ _ A)
                  (proj2 (proj2 (proj2 (agree_sim _ _ A)))) L) as R.
    destruct (run ndebug sa r1) as [[answers1 r1'] ev1'];
      destruct (run ndebug sd r2) as [[answers2 r2'] ev2']. exact R.
Qed.

End Equivalence.
(** * Further properties *)

(** ** What [Init] sets up *)

Section Initialisation.

Context `{Collaborators}.

Lemma publish_loop_eq (l : list StreamDescription) (r : Reader) :
  for_each publish_stream l r =
  (Returned (map (fun _ => tt) l),
   set_m_nameToStreamId (published_names l (m_nameToStreamId r))
     (set_m_streams (m_streams r ++ map (set_m_storageType dense) l) r),
   []).
Proof.
  revert r. induction l as [|sd l IH]; intros r.
  - cbn. rewrite app_nil_r. destruct r; reflexivity.
  - cbn [for_each]. rewrite run_bind, publish_stream_eq, run_bind, IH. cbn.
    destruct r; cbn. rewrite <- app_assoc. reflexivity.
Qed.

(** [Init], step by step. *)
Lemma Init_eq cfg (r : Reader) :
  Init cfg r =
  let r1 :=
    set_m_launchType (if config (cfg_prefetch cfg) true then async
                      else deferred)
      (set_m_provider (Some HeapMemoryProvider) r) in
  match config (cfg_nbruttsineachrecurrentiter cfg) [1] !! 0%nat with
  | None => (Undefined, r1, [])
  | Some n0 =>
      let r2 :=
        set_m_truncated (config (cfg_truncated cfg) false)
          (set_m_frameMode (config (cfg_frameMode cfg) true)
             (set_m_layout (MBLayout_Init n0 0 (m_layout r)) r1)) in
      match m_deserializers r !! 0%nat with
      | None => (Undefined, r2, [])
      | Some d0 =>
          let bundler :=
            Bundler_new cfg d0 (m_deserializers r)
                        (config (cfg_checkData cfg) false) in
          let z :=
            if config (cfg_randomize cfg) false
            then BlockRandomizer_new
                   (config (cfg_verbosity cfg) 2)
                   (config (cfg_randomizationWindow cfg) requestDataSize)
                   bundler chunk true
            else NoRandomizer_new bundler in
          (Returned tt,
           set_m_nameToStreamId
             (published_names (GetStreamDescriptions bundler)
                              (m_nameToStreamId r))
             (set_m_streams
                (m_streams r ++
                 map (set_m_storageType dense) (GetStreamDescriptions bundler))
                (set_m_randomizer (Some z) r2)),
           [])
      end
  end.
Proof.
  cbv zeta. unfold Init, at_index.
  destruct (config (cfg_nbruttsineachrecurrentiter cfg) [1] !! 0%nat)
    as [n0|] eqn:N.
  2: { repeat (rewrite run_bind; cbv beta iota delta [ret modify gets]).
       destruct r; reflexivity. }
  repeat (rewrite run_bind; cbv beta iota delta [ret modify gets]).
  destruct r as [la pr lt fm tr ds z p ss ns eoe task n]. cbn in *.
  destruct (ds !! 0%nat) as [d0|] eqn:D; [|reflexivity].
  cbv beta iota delta [ret].
  repeat (rewrite run_bind; cbv beta iota delta [ret modify gets]).
  destruct (config (cfg_randomize cfg) false);
    repeat (rewrite run_bind; cbv beta iota delta [ret modify gets]);
    rewrite publish_loop_eq; reflexivity.
Qed.

Lemma published_names_lookup (l : list StreamDescription)
    (m : gmap string nat) name :
  published_names l m !! name =
  match m !! name with
  | Some id => Some id
  | None => m_id <$> first_named name l
  end.
Proof.
  unfold published_names. revert m. induction l as [|s l IH]; intros m.
  - cbn. destruct (m !! name); reflexivity.
  - cbn [foldl]. rewrite IH. unfold map_insert, first_named. cbn [List.find].
    destruct (m !! m_name s) as [old|] eqn:Old.
    + destruct (m !! name) as [id|] eqn:L; [reflexivity|].
      rewrite bool_decide_eq_false_2 by congruence. reflexivity.
    + destruct (decide (m_name s = name)) as [<-|Hne].
      * rewrite lookup_insert_eq, Old, bool_decide_eq_true_2 by reflexivity.
        reflexivity.
      * rewrite lookup_insert_ne by exact Hne.
        rewrite bool_decide_eq_false_2 by exact Hne. reflexivity.
Qed.

(** The fields of the reader after a returning [Init]. *)
Lemma Init_returned cfg (r : Reader) u r' ev :
  Init cfg r = (Returned u, r', ev) ->
  exists n0 d0,
    config (cfg_nbruttsineachrecurrentiter cfg) [1] !! 0%nat = Some n0 /\
    m_deserializers r !! 0%nat = Some d0 /\
    let bundler :=
      Bundler_new cfg d0 (m_deserializers r)
                  (config (cfg_checkData cfg) false) in
    m_layout r' = MBLayout_Init n0 0 (m_layout r) /\
    m_provider r' = Some HeapMemoryProvider /\
    m_launchType r' =
      (if config (cfg_prefetch cfg) true then async else deferred) /\
    m_frameMode r' = config (cfg_frameMode cfg) true /\
    m_truncated r' = config (cfg_truncated cfg) false /\
    m_deserializers r' = m_deserializers r /\
    m_randomizer r' =
      Some (if config (cfg_randomize cfg) false
            then BlockRandomizer_new
                   (config (cfg_verbosity cfg) 2)
                   (config (cfg_randomizationWindow cfg) requestDataSize)
                   bundler chunk true
            else NoRandomizer_new bundler) /\
    m_packer r' = m_packer r /\
    m_streams r' =
      m_streams r ++
      map (set_m_storageType dense) (GetStreamDescriptions bundler) /\
    m_nameToStreamId r' =
      published_names (GetStreamDescriptions bundler) (m_nameToStreamId r) /\
    m_endOfEpoch r' = m_endOfEpoch r /\
    m_prefetchTask r' = m_prefetchTask r /\
    launched r' = launched r.
Proof.
  rewrite Init_eq. cbv zeta.
  destruct (config (cfg_nbruttsineachrecurrentiter cfg) [1] !! 0%nat)
    as [n0|]; [|discriminate].
  destruct (m_deserializers r !! 0%nat) as [d0|]; [|discriminate].
  intros [= _ <- _]. exists n0, d0. destruct r; cbn. split_and!; reflexivity.
Qed.

(** X1: [Init] on a reader without deserializers.  [Init] hands
    [m_deserializers[0]] to the bundler; on an empty [m_deserializers]
    it does not return, and it has not got as far as choosing a
    randomizer or publishing a stream: the randomizer, the published
    streams and the name table are as they were. *)
Theorem Init_without_deserializers cfg (r : Reader) :
  m_deserializers r = [] ->
  (forall u, (Init cfg r).1.1 ≠ Returned u) /\
  m_randomizer (Init cfg r).1.2 = m_randomizer r /\
  m_streams (Init cfg r).1.2 = m_streams r /\
  m_nameToStreamId (Init cfg r).1.2 = m_nameToStreamId r.
Proof.
  intros Hd. rewrite Init_eq. cbv zeta. rewrite Hd.
  destruct (config (cfg_nbruttsineachrecurrentiter cfg) [1] !! 0%nat);
    cbn [lookup]; (split; [discriminate|]); destruct r; repeat split.
Qed.

(** X2: what a returning [Init] leaves in the reader.  The launch policy
    is the asynchronous one unless the [prefetch] key is false; frame mode
    is on unless the [frameMode] key is false; [truncated] is off unless
    the key is true; the memory provider is the heap provider; the layout
    has been initialised with the first element of
    [nbruttsineachrecurrentiter] (1 when the key is absent) and 0.  The
    packer, the end-of-epoch flag, the prefetch task and the deserializers
    are as they were. *)
Theorem Init_modes cfg (r : Reader) u r' ev :
  Init cfg r = (Returned u, r', ev) ->
  m_launchType r' =
    match cfg_prefetch cfg with Some false => deferred | _ => async end /\
  m_frameMode r' =
    match cfg_frameMode cfg with Some b => b | None => true end /\
  m_truncated r' =
    match cfg_truncated cfg with Some b => b | None => false end /\
  m_provider r' = Some HeapMemoryProvider /\
  (exists n0,
     head (match cfg_nbruttsineachrecurrentiter cfg with
           | Some l => l
           | None => [1]
           end) = Some n0 /\
     m_layout r' = MBLayout_Init n0 0 (m_layout r)) /\
  m_packer r' = m_packer r /\
  m_endOfEpoch r' = m_endOfEpoch r /\
  m_prefetchTask r' = m_prefetchTask r /\
  m_deserializers r' = m_deserializers r.
Proof.
  intros HI.
  destruct (Init_returned _ _ _ _ _ HI)
    as (n0 & d0 & N & D & La & Pr & Lt & Fm & Tr & Ds & _ & Pk & _ & _
        & Eo & Tk & _).
  unfold config in *.
  split; [rewrite Lt; destruct (cfg_prefetch cfg) as [[|]|]; reflexivity|].
  split; [rewrite Fm; destruct (cfg_frameMode cfg); reflexivity|].
  split; [rewrite Tr; destruct (cfg_truncated cfg); reflexivity|].
  split; [exact Pr|]. split; [|auto].
  exists n0. split; [|exact La].
  destruct (cfg_nbruttsineachrecurrentiter cfg) as [[|n l]|]; cbn in *;
    congruence.
Qed.

(** X3: the randomizer that a returning [Init] installs reads from the
    bundler whose streams are published.  It is the passthrough
    randomizer unless the [randomize] key is true; then it is the block
    randomizer, in chunk decimation mode, with the [verbosity] key (2 when
    absent) and the [randomizationWindow] key (the whole data set when
    absent). *)
Theorem Init_randomizer cfg (r : Reader) u r' ev :
  Init cfg r = (Returned u, r', ev) ->
  exists d0,
    m_deserializers r !! 0%nat = Some d0 /\
    let bundler :=
      Bundler_new cfg d0 (m_deserializers r)
                  (match cfg_checkData cfg with Some b => b | None => false end)
    in
    m_streams r' =
      m_streams r ++
      map (set_m_storageType dense) (GetStreamDescriptions bundler) /\
    m_randomizer r' =
      Some (match cfg_randomize cfg with
            | Some true =>
                BlockRandomizer_new
                  (match cfg_verbosity cfg with Some v => v | None => 2 end)
                  (match cfg_randomizationWindow cfg with
                   | Some w => w
                   | None => requestDataSize
                   end)
                  bundler chunk true
            | _ => NoRandomizer_new bundler
            end).
Proof.
  intros HI.
  destruct (Init_returned _ _ _ _ _ HI)
    as (n0 & d0 & _ & D & _ & _ & _ & _ & _ & _ & Rz & _ & St & _).
  exists d0. split; [exact D|]. unfold config in *. cbv zeta.
  destruct (cfg_checkData cfg); cbn in *; (split; [exact St|]); rewrite Rz;
    destruct (cfg_randomize cfg) as [[|]|], (cfg_verbosity cfg),
      (cfg_randomizationWindow cfg); reflexivity.
Qed.

(** X4: the name table after a returning [Init].  [std::map::insert] does
    not overwrite: a name that was registered keeps its id, and a new name
    is registered under the id of the first stream of the bundler that
    carries it; a name that no stream carries stays absent. *)
Theorem Init_name_table cfg (r : Reader) u r' ev :
  Init cfg r = (Returned u, r', ev) ->
  exists d0,
    m_deserializers r !! 0%nat = Some d0 /\
    forall name,
      m_nameToStreamId r' !! name =
      match m_nameToStreamId r !! name with
      | Some id => Some id
      | None =>
          m_id <$>
          first_named name
            (GetStreamDescriptions
               (Bundler_new cfg d0 (m_deserializers r)
                            (config (cfg_checkData cfg) false)))
      end.
Proof.
  intros HI.
  destruct (Init_returned _ _ _ _ _ HI)
    as (n0 & d0 & _ & D & _ & _ & _ & _ & _ & _ & _ & _ & _ & Nm & _).
  exists d0. split; [exact D|].
  intros name. rewrite Nm. apply published_names_lookup.
Qed.

(** X5: [Init] adds to what is there.  A second [Init] with the same
    configuration appends a second copy of the published streams, while
    the name table stays as the first one left it. *)
Theorem Init_again cfg (r : Reader) u1 r1 ev1 u2 r2 ev2 :
  Init cfg r = (Returned u1, r1, ev1) ->
  Init cfg r1 = (Returned u2, r2, ev2) ->
  exists d0,
    m_deserializers r !! 0%nat = Some d0 /\
    let published :=
      map (set_m_storageType dense)
          (GetStreamDescriptions
             (Bundler_new cfg d0 (m_deserializers r)
                          (config (cfg_checkData cfg) false))) in
    m_streams r1 = m_streams r ++ published /\
    m_streams r2 = m_streams r ++ published ++ published /\
    m_nameToStreamId r2 = m_nameToStreamId r1.
Proof.
  intros H1 H2.
  destruct (Init_returned _ _ _ _ _ H1)
    as (n0 & d0 & _ & D & _ & _ & _ & _ & _ & Ds & _ & _ & S1 & N1 & _).
  destruct (Init_returned _ _ _ _ _ H2)
    as (n1 & d1 & _ & D1 & _ & _ & _ & _ & _ & _ & _ & _ & S2 & N2 & _).
  cbv zeta in *. rewrite Ds in *.
  assert (d1 = d0) as -> by congruence.
  exists d0. split; [exact D|].
  split; [exact S1|]. split.
  - rewrite S2, S1, <- app_assoc. reflexivity.
  - apply map_eq. intros name. rewrite N2, published_names_lookup.
    destruct (m_nameToStreamId r1 !! name) as [id|] eqn:L; [reflexivity|].
    rewrite N1, published_names_lookup in L.
    destruct (m_nameToStreamId r !! name); [discriminate|]. exact L.
Qed.

End Initialisation.
(** ** What [GetMinibatch] needs of its buffers *)

Section Requests.

Context `{Collaborators}.

(** The body of the copy loop, case by case. *)
Lemma copy_stream_eq ndebug mb (mx : string * Matrix) (r : Reader) :
  copy_stream ndebug mb mx r =
  let body := fun (streamId : nat) (r0 : Reader) =>
    match mb_data mb !! streamId with
    | None => (Undefined, r0, [])
    | Some stream =>
        match m_streams r0 !! streamId with
        | None => (Undefined, set_m_layout (sm_layout stream) r0,
                   [EvCopyLayout (sm_layout stream)])
        | Some description =>
            (Returned
               (mx.1,
                SetValue (GetNumElements (m_sampleLayout description))
                         (GetNumCols (sm_layout stream))
                         (GetDeviceId mx.2) (sm_data stream)),
             set_m_layout (sm_layout stream) r0,
             [EvCopyLayout (sm_layout stream);
              EvSetValue mx.1 (GetNumElements (m_sampleLayout description))
                         (GetNumCols (sm_layout stream))
                         (GetDeviceId mx.2) (sm_data stream)])
        end
    end in
  match m_nameToStreamId r !! mx.1 with
  | Some id => body id r
  | None =>
      if ndebug
      then body 0%nat
             (set_m_nameToStreamId (<[mx.1:=0%nat]> (m_nameToStreamId r)) r)
      else (Aborted, r, [])
  end.
Proof.
  cbv zeta. unfold copy_stream, nameToStreamId_at, at_index, assert.
  destruct r as [la pr lt fm tr ds z p ss ns eoe task n].
  repeat (rewrite run_bind; cbv beta iota delta [ret modify gets emit]).
  cbn [m_nameToStreamId m_streams].
  destruct (ns !! mx.1) as [id|] eqn:L.
  - rewrite bool_decide_eq_true_2 by eauto.
    destruct ndebug; cbv beta iota delta [ret].
    all: repeat (rewrite run_bind; cbv beta iota delta [ret modify gets emit]).
    all: cbn [m_nameToStreamId]; rewrite L; cbv beta iota delta [ret].
    all: destruct (mb_data mb !! id) as [stream|]; [|reflexivity].
    all: cbv beta iota delta [ret].
    all: repeat (rewrite run_bind; cbv beta iota delta [ret modify gets emit]).
    all: cbn; destruct (ss !! id); reflexivity.
  - rewrite bool_decide_eq_false_2 by (intros [x Hx]; discriminate).
    destruct ndebug; [|reflexivity].
    cbv beta iota delta [ret].
    repeat (rewrite run_bind; cbv beta iota delta [ret modify gets emit]).
    cbn [m_nameToStreamId]. rewrite L.
    repeat (rewrite run_bind; cbv beta iota delta [ret modify gets emit]).
    destruct (mb_data mb !! 0%nat) as [stream|]; [|reflexivity].
    cbv beta iota delta [ret].
    repeat (rewrite run_bind; cbv beta iota delta [ret modify gets emit]).
    cbn. destruct (ss !! 0%nat); reflexivity.
Qed.

Lemma same_tables_refl ndebug (r : Reader) : same_tables ndebug r r.
Proof. unfold same_tables. repeat split; auto. Qed.

Lemma same_tables_trans ndebug (r1 r2 r3 : Reader) :
  same_tables ndebug r1 r2 -> same_tables ndebug r2 r3 ->
  same_tables ndebug r1 r3.
Proof.
  intros (A1&A2&A3&A4&A5&A6&A7) (B1&B2&B3&B4&B5&B6&B7).
  unfold same_tables. split_and!; try congruence.
  intros D. rewrite B7, A7 by exact D. reflexivity.
Qed.

Lemma same_tables_layout ndebug la (r : Reader) :
  same_tables ndebug r (set_m_layout la r).
Proof. destruct r. unfold same_tables. repeat split; auto. Qed.

Lemma same_tables_insert k (r : Reader) :
  m_nameToStreamId r !! k = None ->
  same_tables true r
    (set_m_nameToStreamId (<[k:=0%nat]> (m_nameToStreamId r)) r).
Proof.
  intros N. destruct r. unfold same_tables, streamId_of. cbn in *.
  repeat split; auto; try discriminate.
  intros name. apply default_insert_missing, N.
Qed.

Lemma copy_loop_spec_cons ndebug mb (a : string * Matrix) l (r r1 : Reader)
    {A} (o : outcome A) r' :
  same_tables ndebug r r1 ->
  is_Some (mb_data mb !! streamId_of r a.1) ->
  is_Some (m_streams r !! streamId_of r a.1) ->
  (ndebug = false -> is_Some (m_nameToStreamId r !! a.1)) ->
  (forall name,
     m_nameToStreamId r1 !! name =
     match m_nameToStreamId r !! name with
     | Some id => Some id
     | None => if ndebug && bool_decide (name = a.1) then Some 0%nat else None
     end) ->
  copy_loop_spec ndebug mb l r1 o r' ->
  copy_loop_spec ndebug mb (a :: l) r o r'.
Proof.
  intros T S1 S2 Rg Nm [T' P]. pose proof T as (Ts&_&_&_&_&Ti&Tn).
  split; [eapply same_tables_trans; eassumption|].
  destruct o as [x|e| |].
  - destruct P as (IR & RG & NM). split; [|split].
    + intros mx [->|Hin]%elem_of_cons; [auto|].
      destruct (IR mx Hin) as [I1 I2]. rewrite Ti, Ts in *. auto.
    + intros D mx [->|Hin]%elem_of_cons; [auto|].
      rewrite <- (Tn D). apply RG; assumption.
    + intros name. rewrite NM, Nm.
      destruct (m_nameToStreamId r !! name) as [id|]; [reflexivity|].
      destruct ndebug; [|reflexivity]. cbn [andb fmap list_fmap].
      destruct (decide (name = a.1)) as [->|Hne].
      * rewrite !bool_decide_eq_true_2; [reflexivity|left|reflexivity].
      * rewrite (bool_decide_eq_false_2 (name = a.1)) by exact Hne.
        rewrite (bool_decide_ext (name ∈ a.1 :: l.*1) (name ∈ l.*1));
          [reflexivity|].
        rewrite elem_of_cons. tauto.
  - exact P.
  - destruct P as (D & NR). split; [exact D|]. intros R. apply NR.
    intros mx Hin. rewrite (Tn D). apply R. right. exact Hin.
  - destruct P as (NI & RO). split.
    + intros IR. apply NI. intros mx Hin.
      destruct (IR mx) as [I1 I2]; [right; exact Hin|].
      rewrite Ti, Ts. auto.
    + intros D. destruct (RO D) as (mx & id & Hin & L & N).
      exists mx, id. rewrite (Tn D), Ts in *.
      split; [right; exact Hin|]. auto.
Qed.

(** The copy loop, by the way it ends. *)
Lemma copy_loop_cases ndebug mb (l : StreamMinibatchInputs) (r : Reader) :
  copy_loop_spec ndebug mb l r
    (for_each (copy_stream ndebug mb) l r).1.1
    (for_each (copy_stream ndebug mb) l r).1.2.
Proof.
  revert r. induction l as [|a l IH]; intros r.
  - cbn. split; [apply same_tables_refl|].
    split; [intros mx Hin; apply elem_of_nil in Hin; contradiction|].
    split; [intros _ mx Hin; apply elem_of_nil in Hin; contradiction|].
    intros name. rewrite andb_false_r.
    destruct (m_nameToStreamId r !! name); reflexivity.
  - cbn [for_each]. rewrite run_bind, copy_stream_eq. cbv zeta.
    destruct (m_nameToStreamId r !! a.1) as [id|] eqn:L.
    + destruct (mb_data mb !! id) as [stream|] eqn:S1.
      2: { cbn. split; [apply same_tables_refl|]. split.
           - intros IR. destruct (IR a) as [[x I1] _]; [left|].
             unfold streamId_of in I1. rewrite L in I1. cbn in I1. congruence.
           - intros _. exists a, id. split; [left|]. split; [exact L|].
             intros [[x I1] _]. congruence. }
      destruct (m_streams r !! id) as [description|] eqn:S2.
      2: { cbn. split; [apply same_tables_layout|]. split.
           - intros IR. destruct (IR a) as [_ [x I2]]; [left|].
             unfold streamId_of in I2. rewrite L in I2. cbn in I2. congruence.
           - intros _. exists a, id. split; [left|]. split; [exact L|].
             intros [_ [x I2]]. congruence. }
      rewrite run_bind. specialize (IH (set_m_layout (sm_layout stream) r)).
      destruct (for_each _ l _) as [[o r'] ev'].
      cbn [fst snd] in IH.
      assert (X : copy_loop_spec ndebug mb (a :: l) r o r').
      { eapply copy_loop_spec_cons; [apply same_tables_layout| | | |
                                     |exact IH].
        - unfold streamId_of. rewrite L. cbn. eauto.
        - unfold streamId_of. rewrite L. cbn. eauto.
        - eauto.
        - intros name. destruct r; cbn.
          destruct (_ !! name) eqn:?; [reflexivity|].
          cbn in L. destruct ndebug; [|reflexivity]. cbn.
          rewrite bool_decide_eq_false_2; [reflexivity|]. congruence. }
      destruct o; exact X.
    + destruct ndebug.
      2: { cbn. split; [apply same_tables_refl|]. split; [reflexivity|].
           intros R. destruct (R a) as [x Hx]; [left|]. congruence. }
      set (r0 := set_m_nameToStreamId _ r).
      assert (T0 : same_tables true r r0) by (apply same_tables_insert, L).
      assert (S0 : m_streams r0 = m_streams r) by apply T0.
      rewrite S0.
      destruct (mb_data mb !! 0%nat) as [stream|] eqn:S1.
      2: { cbn. split; [exact T0|]. split; [|discriminate].
           intros IR. destruct (IR a) as [[x I1] _]; [left|].
           unfold streamId_of in I1. rewrite L in I1. cbn in I1. congruence. }
      destruct (m_streams r !! 0%nat) as [description|] eqn:S2.
      2: { cbn. split.
           - eapply same_tables_trans; [exact T0|apply same_tables_layout].
           - split; [|discriminate].
             intros IR. destruct (IR a) as [_ [x I2]]; [left|].
             unfold streamId_of in I2. rewrite L in I2. cbn in I2. congruence. }
      rewrite run_bind. specialize (IH (set_m_layout (sm_layout stream) r0)).
      destruct (for_each _ l _) as [[o r'] ev'].
      cbn [fst snd] in IH.
      assert (X : copy_loop_spec true mb (a :: l) r o r').
      { eapply copy_loop_spec_cons;
          [eapply same_tables_trans; [exact T0|apply same_tables_layout]
          | | | | |exact IH].
        - unfold streamId_of. rewrite L. cbn. eauto.
        - unfold streamId_of. rewrite L. cbn. eauto.
        - discriminate.
        - intros name. subst r0. destruct r; cbn in *.
          destruct (decide (name = a.1)) as [->|Hne].
          + rewrite lookup_insert_eq, L, bool_decide_eq_true_2 by reflexivity.
            reflexivity.
          + rewrite lookup_insert_ne by congruence.
            rewrite bool_decide_eq_false_2 by exact Hne.
            destruct (_ !! name); reflexivity. }
      destruct o; exact X.
Qed.

(** [GetMinibatch] up to the copy loop, when a minibatch is pending. *)
Lemma GetMinibatch_pending ndebug matrices (r : Reader) mb :
  m_endOfEpoch r = false -> pending_minibatch r = Some mb ->
  matrices ≠ [] -> ndebug = true \/ same_device matrices ->
  GetMinibatch ndebug matrices r =
  let r1 := if mb_endOfEpoch mb then set_m_endOfEpoch true (after_get r)
            else after_get r in
  match (if mb_endOfEpoch mb && is_empty (mb_data mb)
         then ret (false, matrices)
         else
           matrices' ← (if negb (is_empty (mb_data mb))
                        then for_each (copy_stream ndebug mb) matrices
                        else ret matrices);
           launch_prefetch;;
           ret (negb (is_empty (mb_data mb)), matrices')) r1 with
  | (o, r', ev) => (o, r', await_events r ++ ev)
  end.
Proof.
  intros E P Hne D. rewrite GetMinibatch_before_end by exact E.
  rewrite run_bind, check_devices_pass by assumption.
  rewrite run_bind. cbv beta iota delta [gets].
  rewrite (pending_valid r mb P). rewrite run_bind.
  assert (A : assert ndebug true r = (Returned tt, r, []))
    by (unfold assert; destruct ndebug; reflexivity).
  rewrite A, run_bind, (future_get_pending r mb P), run_bind.
  cbv zeta. cbn [app].
  set (rest := if mb_endOfEpoch mb && is_empty (mb_data mb) then _ else _).
  destruct (mb_endOfEpoch mb); cbv beta iota delta [modify ret].
  - destruct (rest (set_m_endOfEpoch true (after_get r))) as [[o r'] ev].
    rewrite ?app_nil_r. reflexivity.
  - destruct (rest (after_get r)) as [[o r'] ev].
    rewrite ?app_nil_r. reflexivity.
Qed.

(** [GetMinibatch] by the way the copy loop ends, when the pending
    minibatch has data. *)
Lemma GetMinibatch_data ndebug matrices (r : Reader) mb :
  m_endOfEpoch r = false -> pending_minibatch r = Some mb ->
  is_empty (mb_data mb) = false ->
  matrices ≠ [] -> ndebug = true \/ same_device matrices ->
  exists r1,
    m_streams r1 = m_streams r /\
    m_nameToStreamId r1 = m_nameToStreamId r /\
    m_layout r1 = m_layout r /\
    GetMinibatch ndebug matrices r =
    match for_each (copy_stream ndebug mb) matrices r1 with
    | (Returned ms', r2, evc) =>
        (Returned (true, ms'),
         set_m_prefetchTask
           (Some {| fut_task := launched r; fut_policy := m_launchType r;
                    fut_result := None |})
           (set_launched (S (launched r)) r2),
         await_events r ++ evc ++ [EvLaunch (launched r) (m_launchType r)])
    | (Thrown e, r2, evc) => (Thrown e, r2, await_events r ++ evc)
    | (Aborted, r2, evc) => (Aborted, r2, await_events r ++ evc)
    | (Undefined, r2, evc) => (Undefined, r2, await_events r ++ evc)
    end /\
    copy_loop_spec ndebug mb matrices r1
      (for_each (copy_stream ndebug mb) matrices r1).1.1
      (for_each (copy_stream ndebug mb) matrices r1).1.2.
Proof.
  intros E P Em Hne D.
  rewrite (GetMinibatch_pending ndebug matrices r mb E P Hne D). cbv zeta.
  destruct (flagged_fields (mb_endOfEpoch mb) r)
    as (Fl & Fs & Fn & Flt & Fla & Ft & Fe). cbv zeta in *.
  rewrite (after_get_task r mb P) in Ft.
  set (r1 := if mb_endOfEpoch mb then _ else _) in *.
  exists r1. split; [exact Fs|]. split; [exact Fn|]. split; [exact Fl|].
  rewrite Em, andb_false_r. cbn [negb].
  pose proof (copy_loop_cases ndebug mb matrices r1) as C.
  rewrite run_bind.
  destruct (for_each (copy_stream ndebug mb) matrices r1) as [[o r2] evc].
  cbn [fst snd] in C. split.
  - destruct o as [ms'|e| |]; try reflexivity.
    destruct C as [(_&Tt&Tl&Tlt&_) _].
    rewrite run_bind, launch_prefetch_eq by congruence.
    cbn. rewrite Tl, Tlt, Fla, Flt. reflexivity.
  - exact C.
Qed.

Lemma in_range_same (r1 r2 : Reader) mb matrices :
  m_nameToStreamId r1 = m_nameToStreamId r2 -> m_streams r1 = m_streams r2 ->
  in_range r1 mb matrices -> in_range r2 mb matrices.
Proof. unfold in_range, streamId_of. intros -> ->. auto. Qed.

Lemma registered_same (r1 r2 : Reader) matrices :
  m_nameToStreamId r1 = m_nameToStreamId r2 ->
  registered r1 matrices -> registered r2 matrices.
Proof. unfold registered. intros ->. auto. Qed.

Lemma registered_out_of_range_same (r1 r2 : Reader) mb matrices :
  m_nameToStreamId r1 = m_nameToStreamId r2 -> m_streams r1 = m_streams r2 ->
  registered_out_of_range r1 mb matrices ->
  registered_out_of_range r2 mb matrices.
Proof. unfold registered_out_of_range. intros -> ->. auto. Qed.

(** X6: [GetMinibatch] before any epoch was started, that is with no
    valid prefetch task.  Before the end of the epoch and with at least
    one buffer, a build with assertions dies (at the device check or at
    [assert(m_prefetchTask.valid())]), and a build without calls [get] on
    an invalid future, which is undefined.  Either way nothing has
    happened and no minibatch is delivered.  [Init] does not launch a
    task, so this is what a call right after [Init] does. *)
Theorem GetMinibatch_without_task ndebug matrices :
  matrices ≠ [] ->
  (forall r : Reader,
     m_endOfEpoch r = false -> m_prefetchTask r = None ->
     GetMinibatch ndebug matrices r =
     (if ndebug then Undefined else Aborted, r, [])) /\
  (forall cfg (r0 : Reader) u r ev,
     m_endOfEpoch r0 = false -> m_prefetchTask r0 = None ->
     Init cfg r0 = (Returned u, r, ev) ->
     GetMinibatch ndebug matrices r =
     (if ndebug then Undefined else Aborted, r, [])).
Proof.
  intros Hne.
  assert (G : forall r : Reader,
            m_endOfEpoch r = false -> m_prefetchTask r = None ->
            GetMinibatch ndebug matrices r =
            (if ndebug then Undefined else Aborted, r, [])).
  { intros r E T.
    rewrite GetMinibatch_before_end by exact E. rewrite run_bind.
    destruct ndebug.
    - rewrite check_devices_release by exact Hne.
      rewrite run_bind. cbv beta iota delta [gets]. unfold valid. rewrite T.
      rewrite run_bind. cbn. rewrite run_bind, future_get_eq, T. reflexivity.
    - destruct (same_device_dec matrices) as [S|S].
      + rewrite check_devices_same by assumption.
        rewrite run_bind. cbv beta iota delta [gets]. unfold valid. rewrite T.
        reflexivity.
      + rewrite check_devices_mismatch by exact S. reflexivity. }
  split; [exact G|].
  intros cfg r0 u r ev E T HI.
  destruct (Init_returned _ _ _ _ _ HI)
    as (n0 & d0 & _ & _ & _ & _ & _ & _ & _ & _ & _ & _ & _ & _ & He & Ht & _).
  apply G; congruence.
Qed.

(** X7: when a minibatch with data is pending, [GetMinibatch] delivers it
    exactly when every buffer names a stream that the minibatch carries
    and that was published and, in a build with assertions, every buffer
    name is registered (without assertions an unregistered name counts as
    stream 0). *)
Theorem GetMinibatch_delivers_iff ndebug matrices (r : Reader) mb :
  m_endOfEpoch r = false -> pending_minibatch r = Some mb ->
  is_empty (mb_data mb) = false ->
  matrices ≠ [] -> same_device matrices ->
  (exists ms' r' ev,
     GetMinibatch ndebug matrices r = (Returned (true, ms'), r', ev)) <->
  in_range r mb matrices /\ (ndebug = false -> registered r matrices).
Proof.
  intros E P Em Hne S.
  destruct (GetMinibatch_data ndebug matrices r mb E P Em Hne (or_intror S))
    as (r1 & Fs & Fn & _ & -> & C).
  destruct (for_each (copy_stream ndebug mb) matrices r1) as [[o r2] evc].
  destruct C as [_ C]. cbn [fst snd] in C. split.
  - intros (ms' & r' & ev & HG).
    destruct o; try discriminate. destruct C as (IR & RG & _).
    split; [eapply in_range_same; eassumption|].
    intros D. eapply registered_same; [exact Fn|auto].
  - intros [IR RG]. destruct o as [ms'|e| |].
    + eauto.
    + contradiction.
    + destruct C as [D NR]. exfalso. apply NR.
      eapply registered_same; [symmetry; exact Fn|auto].
    + destruct C as [NI _]. exfalso. apply NI.
      eapply in_range_same; [symmetry; exact Fn|symmetry; exact Fs|exact IR].
Qed.

(** X8: in a build with assertions, a buffer whose name is not in the name
    table makes [GetMinibatch] fail the assertion in the copy loop when a
    minibatch with data is pending (and the registered names that are
    requested lead to streams that are there). *)
Theorem GetMinibatch_unregistered_name matrices (r : Reader) mb :
  m_endOfEpoch r = false -> pending_minibatch r = Some mb ->
  is_empty (mb_data mb) = false ->
  matrices ≠ [] -> same_device matrices ->
  ¬ registered_out_of_range r mb matrices ->
  ¬ registered r matrices ->
  (GetMinibatch false matrices r).1.1 = Aborted.
Proof.
  intros E P Em Hne S NO NR.
  destruct (GetMinibatch_data false matrices r mb E P Em Hne (or_intror S))
    as (r1 & Fs & Fn & _ & -> & C).
  destruct (for_each (copy_stream false mb) matrices r1) as [[o r2] evc].
  destruct C as [_ C]. cbn [fst snd] in C.
  destruct o as [ms'|e| |]; cbn.
  - destruct C as (_ & RG & _). exfalso. apply NR.
    eapply registered_same; [exact Fn|auto].
  - contradiction.
  - reflexivity.
  - destruct C as [_ RO]. exfalso. apply NO.
    eapply registered_out_of_range_same; [exact Fn|exact Fs|auto].
Qed.

(** X9: the copy loop indexes the minibatch and the published streams
    with the stream id without a bounds check.  When a minibatch with data
    is pending and some buffer names a stream id that the minibatch does
    not carry or that was not published, [GetMinibatch] is undefined (in a
    build with assertions, provided the names are registered, so that no
    assertion fails first). *)
Theorem GetMinibatch_stream_out_of_range ndebug matrices (r : Reader) mb :
  m_endOfEpoch r = false -> pending_minibatch r = Some mb ->
  is_empty (mb_data mb) = false ->
  matrices ≠ [] -> same_device matrices ->
  (ndebug = false -> registered r matrices) ->
  ¬ in_range r mb matrices ->
  (GetMinibatch ndebug matrices r).1.1 = Undefined.
Proof.
  intros E P Em Hne S RG NI.
  destruct (GetMinibatch_data ndebug matrices r mb E P Em Hne (or_intror S))
    as (r1 & Fs & Fn & _ & -> & C).
  destruct (for_each (copy_stream ndebug mb) matrices r1) as [[o r2] evc].
  destruct C as [_ C]. cbn [fst snd] in C.
  destruct o as [ms'|e| |]; cbn.
  - destruct C as (IR & _). exfalso. apply NI.
    eapply in_range_same; eassumption.
  - contradiction.
  - destruct C as [D NR]. exfalso. apply NR.
    eapply registered_same; [symmetry; exact Fn|auto].
  - reflexivity.
Qed.

(** A call that returned before the end of the epoch passed the device
    check. *)
Lemma GetMinibatch_returned_checks ndebug matrices (r : Reader) b ms' r' ev :
  m_endOfEpoch r = false ->
  GetMinibatch ndebug matrices r = (Returned (b, ms'), r', ev) ->
  matrices ≠ [] /\ (ndebug = true \/ same_device matrices).
Proof.
  intros E HG. rewrite GetMinibatch_before_end in HG by exact E.
  apply bind_returned in HG as ([] & r1 & ev1 & ev2 & Hc & _).
  split.
  - intros ->. cbn in Hc. discriminate.
  - destruct ndebug; [left; reflexivity|right].
    destruct (same_device_dec matrices) as [S|S]; [exact S|].
    rewrite check_devices_mismatch in Hc by exact S. discriminate.
Qed.

Lemma copied_kept (r : Reader) mb (l l' : StreamMinibatchInputs) :
  Forall2 (copied r mb) l l' ->
  l'.*1 = l.*1 /\
  map (fun mx => GetDeviceId mx.2) l' = map (fun mx => GetDeviceId mx.2) l.
Proof.
  induction 1 as [|mx mx' l l' C F [IH1 IH2]]; [split; reflexivity|].
  destruct C as (stream & description & _ & _ & ->). cbn.
  rewrite IH1, IH2. split; reflexivity.
Qed.

Lemma same_device_devices (l l' : StreamMinibatchInputs) :
  map (fun mx => GetDeviceId mx.2) l' = map (fun mx => GetDeviceId mx.2) l ->
  same_device l -> same_device l'.
Proof.
  intros M S a b Ha Hb.
  assert (X : forall c, c ∈ l' ->
            exists c0, c0 ∈ l /\ GetDeviceId c0.2 = GetDeviceId c.2).
  { intros c Hc.
    assert (Hd : GetDeviceId c.2 ∈ map (fun mx => GetDeviceId mx.2) l').
    { apply list_elem_of_fmap. eauto. }
    rewrite M in Hd. apply list_elem_of_fmap in Hd as (c0 & Hd & Hin). eauto. }
  destruct (X a Ha) as (a0 & Ha0 & <-). destruct (X b Hb) as (b0 & Hb0 & <-).
  apply S; assumption.
Qed.

(** X10: the buffers that [GetMinibatch] hands back are the buffers it was
    given: as many, under the same names in the same order, each on the
    device it was on; so buffers that passed the device check pass it
    again on the next call.  When the call returns false the buffers are
    untouched. *)
Theorem GetMinibatch_buffers_kept ndebug matrices (r : Reader) b ms' r' ev :
  GetMinibatch ndebug matrices r = (Returned (b, ms'), r', ev) ->
  ms'.*1 = matrices.*1 /\
  map (fun mx => GetDeviceId mx.2) ms'
  = map (fun mx => GetDeviceId mx.2) matrices /\
  (b = false -> ms' = matrices) /\
  (same_device matrices -> same_device ms').
Proof.
  intros HG.
  assert (X : ms'.*1 = matrices.*1 /\
              map (fun mx => GetDeviceId mx.2) ms'
              = map (fun mx => GetDeviceId mx.2) matrices /\
              (b = false -> ms' = matrices)).
  { destruct (m_endOfEpoch r) eqn:E.
    - rewrite GetMinibatch_at_end in HG by exact E.
      injection HG as <- <- _ _. auto.
    - destruct (GetMinibatch_returned _ _ _ _ _ _ _ E HG)
        as (mb & P & -> & HO).
      destruct (mb_endOfEpoch mb && is_empty (mb_data mb)).
      + destruct HO as (-> & _). auto.
      + destruct HO as (r2 & evc & _ & _ & HO & _).
        destruct (is_empty (mb_data mb)).
        * destruct HO as (-> & _). auto.
        * destruct HO as [F _]. destruct (copied_kept _ _ _ _ F).
          split; [assumption|]. split; [assumption|discriminate]. }
  destruct X as (X1 & X2 & X3). split_and!; auto.
  apply same_device_devices. exact X2.
Qed.

(** X11: [m_nameToStreamId[name]] inserts a missing name with id 0.  In a
    build with assertions the assertion before it makes sure the name is
    there, and a call of [GetMinibatch] that returns leaves the name table
    as it was.  Without assertions, a call that delivers data leaves every
    buffer name that was not registered registered under id 0; registered
    names keep their ids. *)
Theorem GetMinibatch_name_table ndebug matrices (r : Reader) b ms' r' ev :
  GetMinibatch ndebug matrices r = (Returned (b, ms'), r', ev) ->
  (forall name,
     m_nameToStreamId r' !! name =
     match m_nameToStreamId r !! name with
     | Some id => Some id
     | None =>
         if ndebug && b && bool_decide (name ∈ matrices.*1)
         then Some 0%nat else None
     end) /\
  (ndebug = false -> m_nameToStreamId r' = m_nameToStreamId r).
Proof.
  intros HG.
  assert (X : forall name,
     m_nameToStreamId r' !! name =
     match m_nameToStreamId r !! name with
     | Some id => Some id
     | None =>
         if ndebug && b && bool_decide (name ∈ matrices.*1)
         then Some 0%nat else None
     end).
  { assert (Same : m_nameToStreamId r' = m_nameToStreamId r -> b = false ->
              forall name,
                m_nameToStreamId r' !! name =
                match m_nameToStreamId r !! name with
                | Some id => Some id
                | None =>
                    if ndebug && b && bool_decide (name ∈ matrices.*1)
                    then Some 0%nat else None
                end).
    { intros -> -> name. rewrite andb_false_r. cbn.
      destruct (m_nameToStreamId r !! name); reflexivity. }
    destruct (m_endOfEpoch r) eqn:E.
    { rewrite GetMinibatch_at_end in HG by exact E.
      injection HG as <- _ <- _. auto. }
    destruct (GetMinibatch_returned_checks _ _ _ _ _ _ _ E HG) as [Hne D].
    destruct (GetMinibatch_returned _ _ _ _ _ _ _ E HG) as (mb & P & _).
    destruct (flagged_fields (mb_endOfEpoch mb) r)
      as (_ & _ & Fn & _ & _ & Ft & _). cbv zeta in Fn, Ft.
    rewrite (after_get_task r mb P) in Ft.
    destruct (is_empty (mb_data mb)) eqn:Em.
    - rewrite (GetMinibatch_pending ndebug matrices r mb E P Hne D) in HG.
      cbv zeta in HG. rewrite Em, andb_true_r in HG. cbn [negb] in HG.
      destruct (mb_endOfEpoch mb).
      + injection HG as <- _ <- _. apply Same; [exact Fn|reflexivity].
      + rewrite run_bind in HG. cbv beta iota delta [ret] in HG.
        rewrite run_bind, launch_prefetch_eq in HG by exact Ft.
        injection HG as <- _ <- _.
        apply Same; [|reflexivity]. rewrite <- Fn.
        destruct (after_get r); reflexivity.
    - destruct (GetMinibatch_data ndebug matrices r mb E P Em Hne D)
        as (r1 & _ & Fn1 & _ & HG' & C).
      rewrite HG' in HG.
      destruct (for_each (copy_stream ndebug mb) matrices r1)
        as [[o r2] evc].
      destruct o; try discriminate. injection HG as <- _ <- _.
      destruct C as (_ & _ & _ & NM). cbn [fst snd] in NM.
      intros name. rewrite andb_true_r, <- Fn1, <- NM.
      destruct r2; reflexivity. }
  split; [exact X|].
  intros ->. apply map_eq. intros name. rewrite X. cbn.
  destruct (m_nameToStreamId r !! name); reflexivity.
Qed.

(** X21: a minibatch without data and without the end-of-epoch flag.
    [GetMinibatch] returns false and leaves the buffers untouched, but it
    does not set the reader's end-of-epoch flag, and it launches the next
    prefetch task: the next call awaits that task instead of returning
    false at once.  A false answer alone does not mean that the epoch is
    over. *)
Theorem GetMinibatch_empty_without_flag ndebug matrices (r : Reader) mb :
  m_endOfEpoch r = false -> pending_minibatch r = Some mb ->
  mb_endOfEpoch mb = false -> mb_data mb = [] ->
  matrices ≠ [] -> same_device matrices ->
  exists r',
    GetMinibatch ndebug matrices r =
    (Returned (false, matrices), r',
     await_events r ++ [EvLaunch (launched r) (m_launchType r)]) /\
    m_endOfEpoch r' = false /\
    m_prefetchTask r' =
      Some {| fut_task := launched r; fut_policy := m_launchType r;
              fut_result := None |}.
Proof.
  intros E P Fl Em Hne S.
  rewrite (GetMinibatch_pending ndebug matrices r mb E P Hne (or_intror S)).
  cbv zeta. rewrite Fl, Em. cbn [andb is_empty negb].
  rewrite run_bind. cbv beta iota delta [ret].
  destruct (after_get_fields r) as (_&_&Glt&_&_&_&Ge&Gla).
  rewrite run_bind, launch_prefetch_eq by (eapply after_get_task; exact P).
  rewrite Gla, Glt. eexists. split; [reflexivity|].
  destruct (after_get r); cbn in *. split; [congruence|reflexivity].
Qed.

End Requests.
(** ** Starting an epoch *)

Section Starts.

Context `{Collaborators}.

Lemma wf_pending (r : Reader) f :
  wf r -> m_prefetchTask r = Some f -> is_Some (pending_minibatch r).
Proof.
  intros W T. destruct (W (ex_intro _ f T)) as [[p Hp] [z Hz]].
  unfold pending_minibatch. rewrite T, Hp, Hz.
  destruct (fut_result f); eauto.
Qed.

Lemma StartEpoch_no_randomizer cfg (r : Reader) :
  0 < m_totalEpochSizeInSamples cfg -> m_randomizer r = None ->
  StartEpoch cfg r = (Undefined, r, []).
Proof.
  intros Hpos Hz. unfold StartEpoch. rewrite run_bind.
  rewrite bool_decide_eq_false_2 by lia. cbn [ret].
  rewrite run_bind. cbn [gets]. rewrite Hz. reflexivity.
Qed.

(** [StartDistributedMinibatchLoop], case by case. *)
Lemma StartDistributedMinibatchLoop_eq mb ep rank workers total (r : Reader) :
  wf r ->
  let cfg :=
    {| m_numberOfWorkers := workers; m_workerRank := rank;
       m_minibatchSizeInSamples := mb;
       m_totalEpochSizeInSamples := total; m_epochIndex := ep |} in
  let r1 := after_wait (set_m_endOfEpoch false r) in
  StartDistributedMinibatchLoop mb ep rank workers total r =
  if bool_decide (total <= 0)
  then (Thrown (RuntimeError "Unsupported minibatch size '%d'."
                             (to_int total)),
        r1, await_events r)
  else
    match m_randomizer r1 with
    | None => (Undefined, r1, await_events r)
    | Some z =>
        (Returned tt,
         set_m_prefetchTask
           (Some {| fut_task := launched r; fut_policy := m_launchType r;
                    fut_result := None |})
           (set_launched (S (launched r))
              (set_m_packer
                 (Some ((if m_frameMode r then SampleModePacker_new
                         else SequencePacker_new)
                          (m_provider r) mb (m_streams r)))
                 (set_m_randomizer (Some (Randomizer_StartEpoch cfg z)) r1))),
         await_events r
         ++ [EvRandomizerStartEpoch cfg; EvNewPacker (m_frameMode r) mb;
             EvLaunch (launched r) (m_launchType r)]
         ++ match m_prefetchTask r with
            | Some f => [EvRelease (fut_task f)]
            | None => []
            end)
    end.
Proof.
  intros W cfg r1. unfold StartDistributedMinibatchLoop. fold cfg.
  rewrite run_bind. cbv beta iota delta [modify].
  set (r0 := set_m_endOfEpoch false r) in *.
  assert (F0 : m_prefetchTask r0 = m_prefetchTask r /\
               await_events r0 = await_events r /\
               pending_minibatch r0 = pending_minibatch r /\
               wf r0).
  { subst r0. unfold await_events, pending_minibatch, wf, equipped in *.
    destruct r; cbn in *. auto. }
  destruct F0 as (T0 & A0 & P0 & W0).
  rewrite run_bind. cbv beta iota delta [gets]. rewrite run_bind.
  assert (Hw : (if valid r0 then future_wait else ret tt) r0
               = (Returned tt, r1, await_events r) /\
               settled r1 /\
               m_frameMode r1 = m_frameMode r /\
               m_provider r1 = m_provider r /\
               m_streams r1 = m_streams r /\
               m_launchType r1 = m_launchType r /\
               launched r1 = launched r /\
               match m_prefetchTask r1, m_prefetchTask r with
               | Some f1, Some f => fut_task f1 = fut_task f
               | None, None => True
               | _, _ => False
               end).
  { subst r1. unfold valid, after_wait.
    destruct (after_get_fields r0) as (_&Gp&Glt&Gfm&Gs&_&_&Gla).
    destruct (m_prefetchTask r0) as [f|] eqn:T.
    - destruct (wf_pending r0 f W0 T) as [m P].
      rewrite future_wait_general, T, P, A0. unfold after_wait. rewrite T, P.
      rewrite <- T0.
      split; [reflexivity|]. unfold settled.
      destruct (after_get r0); cbn in *. subst r0. destruct r; cbn in *.
      split_and!; auto. intros f' [= <-]. cbn. eauto.
    - rewrite <- T0, <- A0. unfold await_events. rewrite T.
      split; [reflexivity|]. unfold settled. rewrite T.
      subst r0. destruct r; cbn in *. split_and!; auto. discriminate. }
  destruct Hw as (-> & St & Ffm & Fpr & Fs & Flt & Fla & Ftk).
  rewrite run_bind.
  destruct (bool_decide (total <= 0)) eqn:B.
  - apply bool_decide_eq_true in B.
    rewrite StartEpoch_nonpositive by exact B. cbn. rewrite app_nil_r.
    reflexivity.
  - apply bool_decide_eq_false in B.
    destruct (m_randomizer r1) as [z|] eqn:Hz.
    + rewrite (StartEpoch_positive cfg r1 z) by (cbn; lia || exact Hz).
      rewrite launch_prefetch_settled.
      2: { intros f T. apply (St f). destruct r1; exact T. }
      cbn [m_minibatchSizeInSamples cfg].
      rewrite Ffm, Fpr, Fs.
      replace (launched (set_m_packer _ _)) with (launched r)
        by (destruct r1; cbn in *; congruence).
      replace (m_launchType (set_m_packer _ _)) with (m_launchType r)
        by (destruct r1; cbn in *; congruence).
      replace (m_prefetchTask (set_m_packer _ _)) with (m_prefetchTask r1)
        by (destruct r1; reflexivity).
      cbn [app]. f_equal. f_equal.
      destruct (m_prefetchTask r1) as [f1|], (m_prefetchTask r) as [f|];
        try contradiction; cbn; congruence.
    + rewrite (StartEpoch_no_randomizer cfg r1) by (cbn; lia || exact Hz).
      cbn. rewrite ?app_nil_r. reflexivity.
Qed.

(** The reader after the flag has been cleared and the task awaited. *)
Lemma after_wait_cleared (r : Reader) :
  wf r ->
  let r1 := after_wait (set_m_endOfEpoch false r) in
  m_endOfEpoch r1 = false /\
  pending_minibatch r1 = pending_minibatch r /\
  m_streams r1 = m_streams r /\
  m_nameToStreamId r1 = m_nameToStreamId r /\
  m_randomizer r1 = m_randomizer (after_get r) /\
  m_packer r1 = m_packer (after_get r) /\
  m_layout r1 = m_layout r.
Proof.
  intros W. cbv zeta. unfold after_wait, after_get, pending_minibatch.
  destruct r as [la pr lt fm tr ds z p ss ns eoe task n]. cbn.
  destruct task as [f|]; [|cbn; split_and!; reflexivity].
  destruct (W (ex_intro _ f eq_refl)) as [[p0 Hp] [z0 Hz]]. cbn in Hp, Hz.
  subst. cbn.
  destruct (fut_result f); cbn; split_and!; reflexivity.
Qed.

(** X12: an epoch start that is rejected for its size has already cleared
    the end-of-epoch flag and awaited the prefetch task, and leaves the
    task in place.  So the minibatch that was pending stays pending, and
    the next [GetMinibatch] hands it over, also when the reader was at the
    end of its epoch and the pending minibatch is the one that was read
    past the end. *)
Theorem rejected_start_keeps_task ndebug mb ep rank workers total
    (r : Reader) :
  wf r -> total <= 0 ->
  exists r',
    StartDistributedMinibatchLoop mb ep rank workers total r =
    (Thrown (RuntimeError "Unsupported minibatch size '%d'." (to_int total)),
     r', await_events r) /\
    m_endOfEpoch r' = false /\
    pending_minibatch r' = pending_minibatch r /\
    forall pending matrices,
      pending_minibatch r = Some pending ->
      matrices ≠ [] -> same_device matrices ->
      (is_empty (mb_data pending) = false ->
       requested_ok r pending matrices) ->
      exists ms' r'' ev',
        GetMinibatch ndebug matrices r' =
        (Returned (negb (is_empty (mb_data pending)), ms'), r'', ev').
Proof.
  intros W Hle.
  rewrite (StartDistributedMinibatchLoop_eq mb ep rank workers total r W).
  cbv zeta. rewrite bool_decide_eq_true_2 by exact Hle.
  destruct (after_wait_cleared r W) as (E & P & Fs & Fn & _). cbv zeta in *.
  eexists. split; [reflexivity|]. split; [exact E|]. split; [exact P|].
  intros pending matrices Pm Hne S R.
  destruct (GetMinibatch_returns ndebug matrices _ pending E) as
    (ms' & r'' & ev' & HG & _); try assumption.
  - rewrite P. exact Pm.
  - intros Em. eapply requested_ok_same; [| |exact (R Em)]; congruence.
  - eauto.
Qed.

(** X13: an epoch start with a positive size on a reader that has a
    randomizer returns.  It leaves the end-of-epoch flag cleared, a new
    packer (the sample-mode one in frame mode, else the sequence one) over
    the published streams, the randomizer started on the epoch, and a new
    prefetch task that has not run.  A minibatch that was pending is
    dropped: the minibatch that is pending now is the first read of the
    new packer. *)
Theorem StartDistributedMinibatchLoop_fresh_epoch mb ep rank workers total
    (r : Reader) :
  wf r -> 0 < total -> is_Some (m_randomizer r) ->
  let cfg :=
    {| m_numberOfWorkers := workers; m_workerRank := rank;
       m_minibatchSizeInSamples := mb;
       m_totalEpochSizeInSamples := total; m_epochIndex := ep |} in
  let packer :=
    (if m_frameMode r then SampleModePacker_new else SequencePacker_new)
      (m_provider r) mb (m_streams r) in
  exists r' ev z1,
    StartDistributedMinibatchLoop mb ep rank workers total r
    = (Returned tt, r', ev) /\
    m_randomizer (after_get r) = Some z1 /\
    m_endOfEpoch r' = false /\
    m_packer r' = Some packer /\
    m_randomizer r' = Some (Randomizer_StartEpoch cfg z1) /\
    m_prefetchTask r' =
      Some {| fut_task := launched r; fut_policy := m_launchType r;
              fut_result := None |} /\
    pending_minibatch r' =
      Some (ReadMinibatch packer (Randomizer_StartEpoch cfg z1)).1.1.
Proof.
  intros W Hpos [z0 Hz0] cfg packer.
  rewrite (StartDistributedMinibatchLoop_eq mb ep rank workers total r W).
  cbv zeta. rewrite bool_decide_eq_false_2 by lia.
  destruct (after_wait_cleared r W) as (E & _ & _ & _ & Fz & _).
  cbv zeta in *.
  assert (Z1 : is_Some (m_randomizer (after_get r))).
  { unfold after_get. destruct (m_prefetchTask r) as [f|]; [|eauto].
    destruct (fut_result f); [destruct r; cbn in *; eauto|].
    rewrite Hz0. destruct (m_packer r); [|eauto]. destruct r; cbn; eauto. }
  destruct Z1 as [z1 Hz1]. rewrite Fz, Hz1.
  eexists _, _, z1. split; [reflexivity|]. split; [reflexivity|].
  destruct (after_wait _) as [la pr lt fm tr ds z p ss ns eoe task n].
  cbn in *. subst. unfold pending_minibatch. cbn. split_and!; reflexivity.
Qed.

(** X14: [StartEpoch] calls [m_randomizer->StartEpoch] on whatever
    [m_randomizer] holds.  On a reader without a randomizer, which is what
    the constructor leaves, an epoch start with a positive size is
    undefined; it has cleared the end-of-epoch flag and done nothing
    else. *)
Theorem StartDistributedMinibatchLoop_without_randomizer
    mb ep rank workers total :
  0 < total ->
  (forall r : Reader,
     m_randomizer r = None -> m_prefetchTask r = None ->
     StartDistributedMinibatchLoop mb ep rank workers total r
     = (Undefined, set_m_endOfEpoch false r, [])) /\
  (forall deserializers launchType frameMode truncated endOfEpoch,
     (StartDistributedMinibatchLoop mb ep rank workers total
        (CompositeDataReader_new deserializers launchType
                                 frameMode truncated endOfEpoch)).1.1
     = Undefined).
Proof.
  intros Hpos.
  assert (G : forall r : Reader,
     m_randomizer r = None -> m_prefetchTask r = None ->
     StartDistributedMinibatchLoop mb ep rank workers total r
     = (Undefined, set_m_endOfEpoch false r, [])).
  { intros r Hz T.
    assert (W : wf r) by (intros [f Hf]; congruence).
    rewrite (StartDistributedMinibatchLoop_eq mb ep rank workers total r W).
    cbv zeta. rewrite bool_decide_eq_false_2 by lia.
    unfold after_wait, await_events.
    replace (m_prefetchTask (set_m_endOfEpoch false r)) with (@None Future)
      by (destruct r; cbn in *; congruence).
    replace (m_randomizer (set_m_endOfEpoch false r)) with (@None Randomizer)
      by (destruct r; cbn in *; congruence).
    rewrite T. reflexivity. }
  split; [exact G|]. intros. rewrite G; reflexivity.
Qed.

(** X15: the first epoch after [Init].  On a reader that [Init] has just
    set up from one without a prefetch task, an epoch start with a
    positive size returns; it starts the randomizer that [Init] chose on
    the epoch, creates the packer that the [frameMode] key selects (the
    sample-mode packer when the key is absent) over the heap memory
    provider and the published streams, and launches the first prefetch
    task with the policy that the [prefetch] key selects. *)
Theorem first_epoch_after_Init cfg (r0 : Reader) u r ev
    mb ep rank workers total :
  Init cfg r0 = (Returned u, r, ev) ->
  m_prefetchTask r0 = None -> 0 < total ->
  let ecfg :=
    {| m_numberOfWorkers := workers; m_workerRank := rank;
       m_minibatchSizeInSamples := mb;
       m_totalEpochSizeInSamples := total; m_epochIndex := ep |} in
  let policy := if config (cfg_prefetch cfg) true then async else deferred in
  exists z r',
    m_randomizer r = Some z /\
    StartDistributedMinibatchLoop mb ep rank workers total r
    = (Returned tt, r',
       [EvRandomizerStartEpoch ecfg;
        EvNewPacker (config (cfg_frameMode cfg) true) mb;
        EvLaunch (launched r0) policy]) /\
    m_randomizer r' = Some (Randomizer_StartEpoch ecfg z) /\
    m_packer r' =
      Some ((if config (cfg_frameMode cfg) true then SampleModePacker_new
             else SequencePacker_new)
              (Some HeapMemoryProvider) mb (m_streams r)) /\
    m_prefetchTask r' =
      Some {| fut_task := launched r0; fut_policy := policy;
              fut_result := None |}.
Proof.
  intros HI T Hpos ecfg policy.
  destruct (Init_returned _ _ _ _ _ HI)
    as (n0 & d0 & _ & _ & _ & Pr & Lt & Fm & _ & _ & Rz & _ & _ & _ & _
        & Tk & La).
  cbv zeta in Rz. rewrite T in Tk.
  assert (W : wf r) by (intros [f Hf]; congruence).
  rewrite (StartDistributedMinibatchLoop_eq mb ep rank workers total r W).
  cbv zeta. rewrite bool_decide_eq_false_2 by lia.
  unfold after_wait, await_events.
  replace (m_prefetchTask (set_m_endOfEpoch false r)) with (@None Future)
    by (destruct r; cbn in *; congruence).
  replace (m_randomizer (set_m_endOfEpoch false r)) with (m_randomizer r)
    by (destruct r; reflexivity).
  rewrite Rz, Tk, Fm, Pr, Lt, La. cbn [app].
  eexists _, _. split; [reflexivity|]. split; [reflexivity|].
  destruct r; cbn. split_and!; reflexivity.
Qed.

End Starts.
(** ** Deferred prefetch *)

Ltac deferred :=
  intros ? [? ?]; wp_run; try exact I; unfold all_deferred in *;
  repeat match goal with r : Reader |- _ => destruct r end;
  cbn in *; subst;
  (split; [reflexivity || assumption|]); try assumption;
  try (intros ? [= <-]; cbn; eauto; fail);
  try (intros ? [=]; fail).

Section Deferred.

Context `{Collaborators}.

Lemma future_wait_deferred : keeps future_wait all_deferred.
Proof. unfold future_wait, complete. deferred. Qed.

Lemma future_get_deferred : keeps future_get all_deferred.
Proof. unfold future_get, complete. deferred. Qed.

Lemma launch_prefetch_deferred : keeps launch_prefetch all_deferred.
Proof. unfold launch_prefetch, future_release. deferred. Qed.

Lemma StartEpoch_deferred cfg : keeps (StartEpoch cfg) all_deferred.
Proof. unfold StartEpoch. deferred. Qed.

Lemma copy_stream_deferred ndebug mb mx :
  keeps (copy_stream ndebug mb mx) all_deferred.
Proof. unfold copy_stream, nameToStreamId_at. deferred. Qed.

Lemma StartDistributedMinibatchLoop_deferred mb ep rank workers total :
  keeps (StartDistributedMinibatchLoop mb ep rank workers total) all_deferred.
Proof.
  unfold StartDistributedMinibatchLoop.
  apply keeps_bind; [deferred|intros _].
  apply keeps_bind; [deferred|intros v].
  apply keeps_bind; [destruct v; [apply future_wait_deferred|deferred]
                    |intros _].
  apply keeps_bind; [apply StartEpoch_deferred|intros _].
  apply launch_prefetch_deferred.
Qed.

Lemma GetMinibatch_deferred ndebug matrices :
  keeps (GetMinibatch ndebug matrices) all_deferred.
Proof.
  unfold GetMinibatch.
  apply keeps_bind; [deferred|intros e].
  destruct e; [deferred|].
  apply keeps_bind; [apply check_devices_keeps|intros _].
  apply keeps_bind; [deferred|intros v].
  apply keeps_bind; [unfold assert; deferred|intros _].
  apply keeps_bind; [apply future_get_deferred|intros mb].
  apply keeps_bind; [destruct (mb_endOfEpoch mb); deferred|intros _].
  destruct (_ && _); [deferred|].
  apply keeps_bind.
  - destruct (negb _); [|deferred].
    apply keeps_for_each. intros mx. apply copy_stream_deferred.
  - intros ms. apply keeps_bind; [apply launch_prefetch_deferred|intros _].
    deferred.
Qed.

Lemma prefetch_thread_idle (r : Reader) :
  all_deferred r -> prefetch_thread r = (Returned tt, r, []).
Proof.
  intros [_ T]. unfold prefetch_thread. rewrite run_bind.
  cbv beta iota delta [gets].
  destruct (m_prefetchTask r) as [f|] eqn:Tk; [|reflexivity].
  rewrite (T f eq_refl). destruct (fut_result f); reflexivity.
Qed.

Lemma step_deferred ndebug c (r : Reader) :
  all_deferred r -> all_deferred (step ndebug c r).1.2.
Proof.
  intros AD. destruct c as [mb ep rank workers total|matrices| |]; cbn [step].
  - pose proof (keeps_state _ _ r
      (StartDistributedMinibatchLoop_deferred mb ep rank workers total) AD)
      as K.
    destruct (StartDistributedMinibatchLoop _ _ _ _ _ r) as [[o r'] ev].
    exact K.
  - pose proof (keeps_state _ _ r (GetMinibatch_deferred ndebug matrices) AD)
      as K.
    destruct (GetMinibatch _ _ r) as [[o r'] ev]. exact K.
  - exact AD.
  - rewrite (prefetch_thread_idle r AD). exact AD.
Qed.

Lemma step_not_thread ndebug c (r : Reader) :
  is_thread_call c = false -> is_thread (step ndebug c r).1.1 = false.
Proof.
  destruct c as [mb ep rank workers total|matrices| |]; cbn [step];
    [| | |discriminate]; intros _.
  - destruct (StartDistributedMinibatchLoop _ _ _ _ _ r) as [[o r'] ev].
    reflexivity.
  - destruct (GetMinibatch _ _ r) as [[o r'] ev]. reflexivity.
  - reflexivity.
Qed.

Lemma run_without_thread ndebug cs (r : Reader) :
  all_deferred r ->
  (run ndebug cs r).1.2 = (run ndebug (loop_calls cs) r).1.2 /\
  (run ndebug cs r).2 = (run ndebug (loop_calls cs) r).2 /\
  loop_view (run ndebug cs r).1.1 = (run ndebug (loop_calls cs) r).1.1.
Proof.
  revert r. induction cs as [|c cs IH]; intros r AD; [auto|].
  rewrite loop_calls_cons. destruct (is_thread_call c) eqn:TC.
  - destruct c; try discriminate. cbn [run step].
    rewrite (prefetch_thread_idle r AD). cbn [fatal fatal_outcome].
    destruct (IH r AD) as (I1 & I2 & I3).
    destruct (run ndebug cs r) as [[answers r2] ev2]. cbn [fst snd app] in *.
    rewrite loop_view_cons. cbn [is_thread]. auto.
  - cbn [run].
    pose proof (step_deferred ndebug c r AD) as AD1.
    pose proof (step_not_thread ndebug c r TC) as TA.
    destruct (step ndebug c r) as [[a r1] ev1]. cbn [fst snd] in AD1, TA.
    destruct (fatal a);
      [cbn [fst snd]; rewrite loop_view_cons, TA; auto|].
    destruct (IH r1 AD1) as (I1 & I2 & I3).
    destruct (run ndebug cs r1) as [[answers r2] ev2].
    destruct (run ndebug (loop_calls cs) r1) as [[answers' r2'] ev2'].
    cbn [fst snd] in *. subst.
    rewrite loop_view_cons, TA. auto.
Qed.

(** X16: with the deferred launch policy the prefetch thread has nothing
    to do: every read runs inside the call of the training loop that
    awaits it.  When the reader's policy and that of its task are the
    deferred one, a turn of the prefetch thread changes nothing, and a
    schedule with such turns leaves the same reader, performs the same
    actions and gives the training loop the same answers as the schedule
    without them.  [Init] with the [prefetch] key set to false puts a
    reader without a task into this state. *)
Theorem deferred_prefetch_thread_idle ndebug :
  (forall r : Reader,
     all_deferred r -> prefetch_thread r = (Returned tt, r, [])) /\
  (forall cs (r : Reader),
     all_deferred r ->
     (run ndebug cs r).1.2 = (run ndebug (loop_calls cs) r).1.2 /\
     (run ndebug cs r).2 = (run ndebug (loop_calls cs) r).2 /\
     loop_view (run ndebug cs r).1.1 = (run ndebug (loop_calls cs) r).1.1) /\
  (forall cfg (r0 : Reader) u r ev,
     cfg_prefetch cfg = Some false -> m_prefetchTask r0 = None ->
     Init cfg r0 = (Returned u, r, ev) -> all_deferred r).
Proof.
  split; [exact prefetch_thread_idle|]. split; [apply run_without_thread|].
  intros cfg r0 u r ev Hp T HI.
  destruct (Init_returned _ _ _ _ _ HI)
    as (n0 & d0 & _ & _ & _ & _ & Lt & _ & _ & _ & _ & _ & _ & _ & _ & Tk & _).
  rewrite Hp in Lt. split; [exact Lt|]. intros f Hf. congruence.
Qed.

End Deferred.
(** ** The layout that the reader reports *)

Section Queries.

Context `{Collaborators}.

Lemma StartDistributedMinibatchLoop_layout mb ep rank workers total la :
  keeps (StartDistributedMinibatchLoop mb ep rank workers total)
        (fun r => m_layout r = la).
Proof.
  unfold StartDistributedMinibatchLoop.
  apply keeps_bind; [frame|intros _].
  apply keeps_bind; [frame|intros v].
  apply keeps_bind; [destruct v; [unfold future_wait, complete|]; frame
                    |intros _].
  apply keeps_bind; [unfold StartEpoch; frame|intros _].
  unfold launch_prefetch, future_release. frame.
Qed.

(** X17: which layout [CopyMBLayoutTo] and [GetNumParallelSequences]
    report.  Only [Init] and the copy loop write [m_layout]: an epoch
    start and a turn of the prefetch thread leave it alone, and so does a
    [GetMinibatch] that returns false.  After a [GetMinibatch] that
    delivered data, the layout reported is the one packed with the stream
    that the last buffer names, until the next delivery, across the end
    of the epoch and the next epoch start.  The queries themselves,
    [DataEnd] included, change nothing; [DataEnd] answers false also at
    the end of the epoch. *)
Theorem layout_reported ndebug :
  (forall mb ep rank workers total (r : Reader),
     m_layout (StartDistributedMinibatchLoop mb ep rank workers total r).1.2
     = m_layout r) /\
  (forall r : Reader, m_layout (prefetch_thread r).1.2 = m_layout r) /\
  (forall matrices (r : Reader) ms' r' ev,
     GetMinibatch ndebug matrices r = (Returned (false, ms'), r', ev) ->
     CopyMBLayoutTo r' = (Returned (m_layout r), r', [])) /\
  (forall matrices (r : Reader) ms' r' ev,
     GetMinibatch ndebug matrices r = (Returned (true, ms'), r', ev) ->
     exists mx pending stream,
       last matrices = Some mx /\
       pending_minibatch r = Some pending /\
       mb_data pending !! streamId_of r mx.1 = Some stream /\
       CopyMBLayoutTo r' = (Returned (sm_layout stream), r', []) /\
       GetNumParallelSequences r' =
         (Returned (GetNumParallelSequences_ (sm_layout stream)), r', [])) /\
  (forall r : Reader, DataEnd r = (Returned false, r, [])).
Proof.
  split_and!.
  - intros mb ep rank workers total r.
    exact (keeps_state _ _ r
             (StartDistributedMinibatchLoop_layout mb ep rank workers total _)
             eq_refl).
  - intros r.
    assert (K : keeps prefetch_thread (fun r' => m_layout r' = m_layout r))
      by (unfold prefetch_thread; frame).
    exact (keeps_state _ _ r K eq_refl).
  - intros matrices r ms' r' ev HG. unfold CopyMBLayoutTo, gets.
    enough (m_layout r' = m_layout r) as -> by reflexivity.
    destruct (m_endOfEpoch r) eqn:E.
    { rewrite GetMinibatch_at_end in HG by exact E. injection HG as _ <- _.
      reflexivity. }
    destruct (GetMinibatch_returned _ _ _ _ _ _ _ E HG) as (mb & P & Hb & HO).
    destruct (flagged_fields (mb_endOfEpoch mb) r) as (Fl & _). cbv zeta in Fl.
    destruct (is_empty (mb_data mb)); [|discriminate].
    rewrite andb_true_r in HO. destruct (mb_endOfEpoch mb).
    + destruct HO as (_ & _ & ->). exact Fl.
    + destruct HO as (r2 & evc & _ & _ & (_ & -> & _) & _ & ->).
      rewrite <- Fl. destruct (after_get r); reflexivity.
  - intros matrices r ms' r' ev HG.
    assert (E : m_endOfEpoch r = false).
    { destruct (m_endOfEpoch r) eqn:E; [|reflexivity].
      rewrite GetMinibatch_at_end in HG by exact E. discriminate. }
    destruct (GetMinibatch_returned_checks _ _ _ _ _ _ _ E HG) as [Hne _].
    destruct (GetMinibatch_returned _ _ _ _ _ _ _ E HG) as (mb & P & Hb & HO).
    destruct (is_empty (mb_data mb)); [discriminate|].
    rewrite andb_false_r in HO.
    destruct HO as (r2 & evc & _ & _ & [_ L] & _ & ->).
    unfold layout_after in L.
    destruct (last matrices) as [mx|] eqn:La.
    2: { apply last_None in La. contradiction. }
    destruct L as (stream & Hs & Hl).
    exists mx, mb, stream. split; [reflexivity|]. split; [exact P|].
    split; [exact Hs|].
    unfold CopyMBLayoutTo, GetNumParallelSequences, gets.
    replace (m_layout (set_m_prefetchTask _ _)) with (m_layout r2)
      by (destruct r2; reflexivity).
    rewrite Hl. split; reflexivity.
  - reflexivity.
Qed.

End Queries.

(** ** Creating the deserializers *)

Section NullDeserializers.

Context `{Collaborators} {ConfigValue : Type}.
Variable nullptr : Deserializer.

Lemma push_loop_eq (l : list ConfigValue) (r : Reader) :
  for_each (push_deserializer nullptr) l r =
  (Returned (map (fun _ => tt) l),
   set_m_deserializers
     (m_deserializers r ++ replicate (length l) nullptr) r,
   []).
Proof.
  revert r. induction l as [|c l IH]; intros r.
  - cbn. rewrite app_nil_r. destruct r; reflexivity.
  - cbn [for_each]. rewrite run_bind. unfold push_deserializer at 1.
    rewrite run_bind. unfold CreateDeserializer.
    cbv beta iota delta [ret modify]. rewrite run_bind, IH.
    destruct r; cbn. rewrite <- app_assoc. reflexivity.
Qed.

Lemma CreateDeserializers_eq ndebug (deserializers : option (list ConfigValue))
    (r : Reader) :
  CreateDeserializers ndebug nullptr deserializers r =
  if negb ndebug && negb (is_empty (m_deserializers r))
  then (Aborted, r, [])
  else (Returned tt,
        set_m_deserializers
          (m_deserializers r ++
           replicate (length (config deserializers [])) nullptr) r,
        []).
Proof.
  unfold CreateDeserializers, assert. rewrite run_bind.
  cbv beta iota delta [gets]. rewrite run_bind.
  destruct ndebug, (is_empty (m_deserializers r)); cbn [negb andb];
    cbv beta iota delta [ret abort]; try reflexivity.
  all: rewrite run_bind, push_loop_eq; reflexivity.
Qed.

(** X18: [CreateDeserializer] ignores its configuration and returns the
    null pointer, so [CreateDeserializers] fills [m_deserializers] with
    one null pointer per element of the [deserializers] array, none when
    the key is absent.  On a reader that already has deserializers the
    assertion fails; with assertions compiled out the null pointers are
    appended. *)
Theorem CreateDeserializers_null ndebug
    (deserializers : option (list ConfigValue)) (r : Reader) :
  let n := length (match deserializers with Some l => l | None => [] end) in
  (m_deserializers r = [] ->
   CreateDeserializers ndebug nullptr deserializers r =
   (Returned tt, set_m_deserializers (replicate n nullptr) r, [])) /\
  (m_deserializers r ≠ [] ->
   CreateDeserializers ndebug nullptr deserializers r =
   if ndebug
   then (Returned tt,
         set_m_deserializers (m_deserializers r ++ replicate n nullptr) r,
         [])
   else (Aborted, r, [])).
Proof.
  cbv zeta. rewrite CreateDeserializers_eq. unfold config.
  destruct deserializers as [l|]; cbn [default].
  all: split; [intros ->; rewrite andb_false_r; reflexivity|].
  all: intros Hne; destruct (m_deserializers r); [congruence|];
    destruct ndebug; reflexivity.
Qed.

(** X19: [Init] after [CreateDeserializers] on a reader that had no
    deserializers.  Whenever the two return, the [deserializers] key held
    at least one element, [m_deserializers] holds one null pointer for
    each, and the bundler whose streams [Init] has published was handed
    the null pointer as its first deserializer and nothing but null
    pointers as the others. *)
Theorem CreateDeserializers_then_Init ndebug
    (deserializers : option (list ConfigValue)) cfg (r : Reader) u r' ev :
  m_deserializers r = [] ->
  (CreateDeserializers ndebug nullptr deserializers ≫= fun _ => Init cfg) r
  = (Returned u, r', ev) ->
  let n := length (match deserializers with Some l => l | None => [] end) in
  n ≠ 0%nat /\
  m_deserializers r' = replicate n nullptr /\
  m_streams r' =
    m_streams r ++
    map (set_m_storageType dense)
        (GetStreamDescriptions
           (Bundler_new cfg nullptr (replicate n nullptr)
                        (config (cfg_checkData cfg) false))).
Proof.
  intros Hd HB. cbv zeta.
  rewrite run_bind, CreateDeserializers_eq, Hd, andb_false_r in HB.
  cbn [app] in HB.
  replace (config deserializers [])
    with (match deserializers with Some l => l | None => [] end) in HB
    by (destruct deserializers; reflexivity).
  set (n := length _) in *.
  destruct (Init cfg _) as [[o r2] ev2] eqn:HI.
  assert (o = Returned u /\ r2 = r') as [-> ->]
    by (destruct o; inversion HB; auto).
  destruct (Init_returned _ _ _ _ _ HI)
    as (n0 & d0 & _ & D & _ & _ & _ & _ & _ & Ds & _ & _ & St & _).
  cbv zeta in St.
  assert (Dr : m_deserializers (set_m_deserializers (replicate n nullptr) r)
               = replicate n nullptr) by (destruct r; reflexivity).
  assert (Sr : m_streams (set_m_deserializers (replicate n nullptr) r)
               = m_streams r) by (destruct r; reflexivity).
  rewrite Dr in *. rewrite Sr in St.
  destruct n as [|n']; [discriminate|]. cbn in D. injection D as <-.
  split; [discriminate|]. split; [exact Ds|exact St].
Qed.

End NullDeserializers.
(** ** The [truncated] mode *)

Section Truncated.

Context `{Collaborators}.

Lemma it_ret {A} (a : A) : ignores_truncated (ret a).
Proof. intros b r. reflexivity. Qed.

Lemma it_bind {A B} (c : M A) (k : A -> M B) :
  ignores_truncated c -> (forall a, ignores_truncated (k a)) ->
  ignores_truncated (c ≫= k).
Proof.
  intros Hc Hk b r. rewrite !run_bind, Hc.
  destruct (c r) as [[[a| | |] r1] ev1]; try reflexivity.
  rewrite Hk. destruct (k a r1) as [[o r2] ev2]. reflexivity.
Qed.

Lemma it_gets {A} (f : Reader -> A) :
  (forall b r, f (set_m_truncated b r) = f r) -> ignores_truncated (gets f).
Proof. intros Hf b r. unfold gets. rewrite Hf. reflexivity. Qed.

Lemma it_modify (g : Reader -> Reader) :
  (forall b r, g (set_m_truncated b r) = set_m_truncated b (g r)) ->
  ignores_truncated (modify g).
Proof. intros Hg b r. unfold modify. rewrite Hg. reflexivity. Qed.

Lemma it_emit e : ignores_truncated (emit e).
Proof. intros b r. reflexivity. Qed.

Lemma it_throw {A} e : ignores_truncated (throw e : M A).
Proof. intros b r. reflexivity. Qed.

Lemma it_abort {A} : ignores_truncated (abort : M A).
Proof. intros b r. reflexivity. Qed.

Lemma it_undefined {A} : ignores_truncated (undefined : M A).
Proof. intros b r. reflexivity. Qed.

Lemma it_assert ndebug c : ignores_truncated (assert ndebug c).
Proof. intros b r. unfold assert. destruct ndebug, c; reflexivity. Qed.

Lemma it_at_index {A} (v : list A) i : ignores_truncated (at_index v i).
Proof. intros b r. unfold at_index. destruct (v !! i); reflexivity. Qed.

Lemma it_for_each {A B} (f : A -> M B) l :
  (forall a, ignores_truncated (f a)) -> ignores_truncated (for_each f l).
Proof.
  intros Hf. induction l as [|a l IH]; [apply it_ret|].
  cbn [for_each]. apply it_bind; [apply Hf|intros x].
  apply it_bind; [exact IH|intros bs]. apply it_ret.
Qed.

Lemma it_prefetch_body : ignores_truncated prefetch_body.
Proof.
  intros b r. unfold prefetch_body.
  destruct r as [la pr lt fm tr ds z p ss ns eoe task n]. cbn.
  destruct p as [p|]; [|reflexivity].
  destruct z as [z|]; [|reflexivity].
  destruct (ReadMinibatch p z) as [[mb p'] z']. reflexivity.
Qed.

End Truncated.

Ltac truncated_step :=
  lazymatch goal with
  | |- ignores_truncated (mbind _ _) => apply it_bind; [|intros ?]
  | |- ignores_truncated (ret _) => apply it_ret
  | |- ignores_truncated (gets _) =>
      apply it_gets; intros ? []; reflexivity
  | |- ignores_truncated (modify _) =>
      apply it_modify; intros ? []; reflexivity
  | |- ignores_truncated (emit _) => apply it_emit
  | |- ignores_truncated (throw _) => apply it_throw
  | |- ignores_truncated abort => apply it_abort
  | |- ignores_truncated undefined => apply it_undefined
  | |- ignores_truncated (assert _ _) => apply it_assert
  | |- ignores_truncated (at_index _ _) => apply it_at_index
  | |- ignores_truncated prefetch_body => apply it_prefetch_body
  | |- ignores_truncated (for_each _ _) => apply it_for_each; intros ?
  | |- ignores_truncated (if ?b then _ else _) => destruct b
  | |- ignores_truncated (match ?x with _ => _ end) => destruct x
  end.

Ltac truncated := repeat truncated_step.

Section TruncatedUnused.

Context `{Collaborators}.

Lemma it_StartDistributedMinibatchLoop mb ep rank workers total :
  ignores_truncated (StartDistributedMinibatchLoop mb ep rank workers total).
Proof.
  unfold StartDistributedMinibatchLoop, future_wait, complete, StartEpoch,
    launch_prefetch, future_release.
  truncated.
Qed.

Lemma it_GetMinibatch ndebug matrices :
  ignores_truncated (GetMinibatch ndebug matrices).
Proof.
  unfold GetMinibatch, check_devices, device_probe, future_get, complete,
    copy_stream, nameToStreamId_at, launch_prefetch, future_release.
  truncated.
Qed.

Lemma it_prefetch_thread : ignores_truncated prefetch_thread.
Proof. unfold prefetch_thread. truncated. Qed.

Lemma step_truncated ndebug c b (r : Reader) :
  step ndebug c (set_m_truncated b r) =
  match step ndebug c r with
  | (a, r', ev) => (a, set_m_truncated b r', ev)
  end.
Proof.
  destruct c as [mb ep rank workers total|matrices| |]; cbn [step].
  - rewrite it_StartDistributedMinibatchLoop.
    destruct (StartDistributedMinibatchLoop _ _ _ _ _ r) as [[o r'] ev].
    reflexivity.
  - rewrite it_GetMinibatch.
    destruct (GetMinibatch _ _ r) as [[o r'] ev]. reflexivity.
  - destruct r; reflexivity.
  - rewrite it_prefetch_thread.
    destruct (prefetch_thread r) as [[o r'] ev]. reflexivity.
Qed.

(** X20: [Init] stores the [truncated] key in [m_truncated], and nothing
    reads it.  Whatever the member holds, every call and every turn of
    the prefetch thread ends the same way, with the same answer, the same
    actions and the same reader but for the member itself, and so does
    every schedule of them. *)
Theorem truncated_unused ndebug (b : bool) :
  (forall c (r : Reader),
     step ndebug c (set_m_truncated b r) =
     match step ndebug c r with
     | (a, r', ev) => (a, set_m_truncated b r', ev)
     end) /\
  (forall cs (r : Reader),
     run ndebug cs (set_m_truncated b r) =
     match run ndebug cs r with
     | (answers, r', ev) => (answers, set_m_truncated b r', ev)
     end).
Proof.
  split; [intros c r; apply step_truncated|].
  intros cs. induction cs as [|c cs IH]; intros r; [reflexivity|].
  cbn [run]. rewrite step_truncated.
  destruct (step ndebug c r) as [[a r1] ev1].
  destruct (fatal a); [reflexivity|].
  rewrite IH. destruct (run ndebug cs r1) as [[answers r2] ev2]. reflexivity.
Qed.

End TruncatedUnused.

(** * The small reader at work *)

Section Checks.

Context `{Collaborators}.

Lemma requested_ok_Forall (r : Reader) mb matrices :
  Forall (fun mx : string * Matrix =>
            is_Some (m_nameToStreamId r !! mx.1) /\
            is_Some (mb_data mb !! streamId_of r mx.1) /\
            is_Some (m_streams r !! streamId_of r mx.1)) matrices ->
  requested_ok r mb matrices.
Proof. intros F mx Hin. exact (proj1 (Forall_forall _ _) F mx Hin). Qed.

Lemma not_same_device (a b : string * Matrix) matrices :
  a ∈ matrices -> b ∈ matrices -> GetDeviceId a.2 ≠ GetDeviceId b.2 ->
  ¬ same_device matrices.
Proof. intros Ha Hb N S. exact (N (S a b Ha Hb)). Qed.

End Checks.

Import Fixture.

(** The scenario of an epoch of 10 samples in minibatches of 4: three
    minibatches of 4, 4 and 2 columns, then false; the same with and without
    turns of the prefetch thread. *)
Example ten_samples_by_four :
  map (fun a => match a with
                | AnsGetMinibatch (Returned (b, ms)) =>
                    Some (b, map (fun m => mx_numCols m.2) ms)
                | _ => None
                end)
      (session false fresh no_config
         [start10; get; PrefetchThread; get; get; get]).1.1
  = [None; Some (true, [4; 4]); None; Some (true, [4; 4]);
     Some (true, [2; 2]); Some (false, [0; 0])].
Proof. vm_compute. reflexivity. Qed.

Lemma buffers_same_device : same_device buffers.
Proof. apply same_device_head. repeat constructor. Qed.

Lemma mixed_not_same_device : ¬ same_device mixed.
Proof.
  apply (not_same_device ("features", blank 0) ("labels", blank 1)).
  - apply elem_of_cons. left. reflexivity.
  - apply elem_of_cons. right. apply elem_of_cons. left. reflexivity.
  - discriminate.
Qed.

Lemma at_last_requested : requested_ok at_last last_minibatch buffers.
Proof.
  apply requested_ok_Forall. repeat constructor; vm_compute; eauto.
Qed.

Lemma one_prefetch_outstanding_witness :
  at_most_one
    (outstanding
       (take 12 (session false fresh no_config
                         [start10; get; PrefetchThread; get]).2)) /\
  exists r' ev ev_release,
    StartDistributedMinibatchLoop 4 1 0 1 8 at_end = (Returned tt, r', ev) /\
    ev = await_events at_end
         ++ [EvRandomizerStartEpoch
               {| m_numberOfWorkers := 1; m_workerRank := 0;
                  m_minibatchSizeInSamples := 4;
                  m_totalEpochSizeInSamples := 8; m_epochIndex := 1 |};
             EvNewPacker (m_frameMode at_end) 4;
             EvLaunch (launched at_end) (m_launchType at_end)]
         ++ ev_release.
Proof.
  destruct (one_prefetch_outstanding (H:=collaborators) false) as (A & B & _).
  split.
  - apply (A [tt] deferred false false false no_config).
  - assert (G : exists r' ev,
              StartDistributedMinibatchLoop 4 1 0 1 8 at_end
              = (Returned tt, r', ev))
      by (eexists _, _; vm_compute; reflexivity).
    destruct G as (r' & ev & G).
    destruct (B 4 1 0 1 8 at_end r' ev G) as (_ & ev_release & Hev & _).
    exists r', ev, ev_release. split; [exact G|exact Hev].
Defined.

Lemma GetMinibatch_after_end_of_epoch_witness :
  m_endOfEpoch at_end = true /\
  GetMinibatch false buffers at_end = (Returned (false, buffers), at_end, []) /\
  m_endOfEpoch
    (StartDistributedMinibatchLoop 4 1 0 1 8 at_end).1.2 = false.
Proof.
  assert (E : m_endOfEpoch at_end = true) by (vm_compute; reflexivity).
  split; [exact E|].
  destruct (GetMinibatch_after_end_of_epoch false at_end E)
    as (G & _ & S & _).
  split; [apply G|apply S].
Defined.

Lemma StartEpoch_epoch_size_witness :
  m_totalEpochSizeInSamples epoch_of_zero <= 0 /\
  StartEpoch epoch_of_zero at_start =
  (Thrown (RuntimeError "Unsupported minibatch size '%d'." 0), at_start, []).
Proof.
  split; [vm_compute; discriminate|].
  apply (proj1 (StartEpoch_epoch_size epoch_of_zero at_start)).
  vm_compute. discriminate.
Defined.

Lemma GetMinibatch_device_mismatch_witness :
  ¬ same_device mixed /\ GetMinibatch false mixed at_start = (Aborted, at_start, []).
Proof.
  split; [exact mixed_not_same_device|].
  apply (GetMinibatch_device_mismatch mixed at_start mixed_not_same_device).
Defined.

(** With assertions compiled out the device check is gone: before the end
    of the epoch, buffers on two devices are filled, each on its own device,
    and the call returns true. *)
Lemma device_mismatch_passes_without_assertions :
  ¬ same_device mixed /\ m_endOfEpoch at_start = false /\
  (GetMinibatch true mixed at_start).1.1 =
  Returned
    (true,
     [("features",
       {| GetDeviceId := 0; mx_numRows := 3; mx_numCols := 4;
          mx_values := [0; 1; 2; 3; 0; 1; 2; 3; 0; 1; 2; 3] |});
      ("labels",
       {| GetDeviceId := 1; mx_numRows := 1; mx_numCols := 4;
          mx_values := [0; 1; 2; 3] |})]).
Proof.
  split; [exact mixed_not_same_device|]. split; vm_compute; reflexivity.
Qed.

Lemma GetMinibatch_no_buffers_witness :
  m_endOfEpoch at_start = false /\
  GetMinibatch false [] at_start = (Undefined, at_start, []).
Proof.
  split; [vm_compute; reflexivity|].
  apply (proj1 (proj2 (GetMinibatch_no_buffers false at_start))).
  vm_compute. reflexivity.
Defined.

Lemma published_streams_dense_witness :
  (Init no_config fresh).1.1 = Returned tt /\
  m_streams (Init no_config fresh).1.2
  = [set_m_storageType dense features; set_m_storageType dense labels] /\
  Forall is_dense (m_streams at_end).
Proof.
  split; [vm_compute; reflexivity|].
  destruct (published_streams_dense (H:=collaborators) false [tt] deferred false false false
              no_config) as (D & P & R & _).
  split.
  - destruct (P tt (Init no_config fresh).1.2 (Init no_config fresh).2)
      as (d0 & _ & ->); [vm_compute; reflexivity|reflexivity].
  - assert (Hr : at_end
                 = (run false [start10; get; get; get]
                        (Init no_config fresh).1.2).1.2)
      by (vm_compute; reflexivity).
    rewrite Hr. unfold fresh. rewrite (R [start10; get; get; get]). exact D.
Defined.

Lemma at_last_pending : pending_minibatch at_last = Some last_minibatch.
Proof. vm_compute. reflexivity. Qed.

Lemma at_boundary_pending : pending_minibatch at_boundary = Some empty_minibatch.
Proof. vm_compute. reflexivity. Qed.

Lemma at_last_returns :
  exists ms' r' ev,
    GetMinibatch false buffers at_last = (Returned (true, ms'), r', ev).
Proof. eexists _, _, _. vm_compute. reflexivity. Defined.

Lemma at_start_returns :
  exists ms' r' ev,
    GetMinibatch false buffers at_start = (Returned (true, ms'), r', ev).
Proof. eexists _, _, _. vm_compute. reflexivity. Defined.

Lemma GetMinibatch_end_of_epoch_minibatch_witness :
  m_endOfEpoch at_last = false /\
  (exists ms' r' ev,
     GetMinibatch false buffers at_last = (Returned (true, ms'), r', ev) /\
     exists mb,
       pending_minibatch at_last = Some mb /\
       true = negb (is_empty (mb_data mb)) /\
       (mb_endOfEpoch mb = true -> m_endOfEpoch r' = true)) /\
  (exists ms' r' ev,
     GetMinibatch false buffers at_last
     = (Returned (negb (is_empty (mb_data last_minibatch)), ms'), r', ev)).
Proof.
  assert (E : m_endOfEpoch at_last = false) by (vm_compute; reflexivity).
  split; [exact E|].
  destruct (GetMinibatch_end_of_epoch_minibatch false buffers at_last E)
    as [A B].
  split.
  - destruct at_last_returns as (ms' & r' & ev & G).
    exists ms', r', ev. split; [exact G|].
    destruct (A true ms' r' ev G) as (mb & P & Hb & F).
    exists mb. split; [exact P|]. split; [exact Hb|].
    intros Fl. apply (F Fl).
  - apply (B last_minibatch at_last_pending).
    + discriminate.
    + exact buffers_same_device.
    + intros _. exact at_last_requested.
Defined.



Lemma prefetch_past_end_of_epoch_witness :
  (m_endOfEpoch at_last = false /\
   pending_minibatch at_last = Some last_minibatch /\
   mb_endOfEpoch last_minibatch = true /\ equipped at_last /\
   same_device buffers /\ requested_ok at_last last_minibatch buffers) /\
  (exists ms' r' ev,
     GetMinibatch false buffers at_last = (Returned (true, ms'), r', ev) /\
     m_prefetchTask r' =
       Some {| fut_task := 3; fut_policy := async; fut_result := None |} /\
     (forall ms, GetMinibatch false ms r' = (Returned (false, ms), r', [])) /\
     exists rest,
       (StartDistributedMinibatchLoop 4 1 0 1 8 r').2
       = EvRun 3 :: EvJoin 3 :: rest) /\
  (exists ms' r' ev,
     GetMinibatch false buffers at_boundary = (Returned (false, ms'), r', ev) /\
     m_prefetchTask r' = None).
Proof.
  assert (E1 : m_endOfEpoch at_last = false) by (vm_compute; reflexivity).
  assert (Q1 : equipped at_last) by (split; vm_compute; eauto).
  assert (E2 : m_endOfEpoch at_boundary = false) by (vm_compute; reflexivity).
  assert (Q2 : equipped at_boundary) by (split; vm_compute; eauto).
  split; [|split].
  - split; [exact E1|]. split; [exact at_last_pending|].
    split; [reflexivity|]. split; [exact Q1|].
    split; [exact buffers_same_device|exact at_last_requested].
  - destruct (prefetch_past_end_of_epoch false buffers at_last last_minibatch
                E1 at_last_pending eq_refl Q1)
      as (ms' & r' & ev & G & T & _ & _ & _ & N & S & _).
    + discriminate.
    + exact buffers_same_device.
    + intros _. exact at_last_requested.
    + exists ms', r', ev. split; [exact G|]. split; [exact T|].
      split; [exact N|]. apply (S 4 1 0 1 8).
  - destruct (prefetch_past_end_of_epoch false buffers at_boundary
                empty_minibatch E2 at_boundary_pending eq_refl Q2)
      as (ms' & r' & ev & G & T & _).
    + discriminate.
    + exact buffers_same_device.
    + discriminate.
    + exists ms', r', ev. split; [exact G|exact T].
Defined.

Lemma prefetch_policy_unobservable_witness :
  let r := (Init no_config fresh).1.2 in
  let sa := [start10; PrefetchThread; get; get; PrefetchThread; get; get;
             start8; PrefetchThread; get; CallCopyMBLayoutTo] in
  let sd := [start10; get; get; get; get; start8; get; CallCopyMBLayoutTo] in
  m_prefetchTask r = None /\ loop_calls sa = loop_calls sd /\
  loop_view (run false sa (set_m_launchType async r)).1.1
  = loop_view (run false sd (set_m_launchType deferred r)).1.1.
Proof.
  intros r sa sd.
  assert (N : m_prefetchTask r = None) by (vm_compute; reflexivity).
  assert (L : loop_calls sa = loop_calls sd) by (vm_compute; reflexivity).
  split; [exact N|]. split; [exact L|].
  apply (proj1 (prefetch_policy_unobservable false) r sa sd N L).
Defined.
(** * The further properties on the small reader *)

Lemma fresh_initialised :
  Init no_config fresh = (Returned tt, (Init no_config fresh).1.2, []).
Proof. vm_compute. reflexivity. Qed.

Lemma Init_without_deserializers_witness :
  m_deserializers bare = [] /\
  (Init no_config bare).1.1 ≠ Returned tt /\
  m_streams (Init no_config bare).1.2 = [].
Proof.
  split; [reflexivity|].
  destruct (Init_without_deserializers no_config bare eq_refl)
    as (N & _ & S & _).
  split; [apply N|exact S].
Defined.

Lemma at_start_pending : pending_minibatch at_start = Some first_minibatch.
Proof. vm_compute. reflexivity. Qed.

Lemma unlisted_same_device : same_device unlisted.
Proof. apply same_device_head. repeat constructor. Qed.

Lemma Init_modes_witness :
  exists r,
    Init no_config fresh = (Returned tt, r, []) /\
    m_launchType r = async /\ m_frameMode r = true /\ m_truncated r = false.
Proof.
  exists (Init no_config fresh).1.2. split; [exact fresh_initialised|].
  destruct (Init_modes no_config fresh tt _ [] fresh_initialised)
    as (A & B & C & _).
  split; [exact A|]. split; [exact B|exact C].
Defined.

Lemma Init_randomizer_witness :
  exists r,
    Init no_config fresh = (Returned tt, r, []) /\
    m_randomizer r = Some (NoRandomizer_new [features; labels]).
Proof.
  exists (Init no_config fresh).1.2. split; [exact fresh_initialised|].
  destruct (Init_randomizer no_config fresh tt _ [] fresh_initialised)
    as (d0 & _ & _ & R).
  exact R.
Defined.

Lemma Init_name_table_witness :
  exists r,
    Init no_config fresh = (Returned tt, r, []) /\
    m_nameToStreamId r !! "labels" = Some 1%nat /\
    m_nameToStreamId r !! "weights" = None.
Proof.
  exists (Init no_config fresh).1.2. split; [exact fresh_initialised|].
  destruct (Init_name_table no_config fresh tt _ [] fresh_initialised)
    as (d0 & _ & N).
  rewrite !N. split; reflexivity.
Defined.

Lemma Init_again_witness :
  exists r1 r2,
    Init no_config fresh = (Returned tt, r1, []) /\
    Init no_config r1 = (Returned tt, r2, []) /\
    length (m_streams r1) = 2%nat /\ length (m_streams r2) = 4%nat /\
    m_nameToStreamId r2 = m_nameToStreamId r1.
Proof.
  assert (I2 : Init no_config (Init no_config fresh).1.2
               = (Returned tt,
                  (Init no_config (Init no_config fresh).1.2).1.2, []))
    by (vm_compute; reflexivity).
  eexists _, _. split; [exact fresh_initialised|]. split; [exact I2|].
  destruct (Init_again no_config fresh tt _ [] tt _ [] fresh_initialised I2)
    as (d0 & _ & S1 & S2 & N).
  rewrite S1, S2. split; [reflexivity|]. split; [reflexivity|exact N].
Defined.

Lemma GetMinibatch_without_task_witness :
  buffers ≠ [] /\
  GetMinibatch false buffers (Init no_config fresh).1.2
  = (Aborted, (Init no_config fresh).1.2, []).
Proof.
  assert (Hne : buffers ≠ []) by discriminate.
  split; [exact Hne|].
  apply (proj2 (GetMinibatch_without_task false buffers Hne)
           no_config fresh tt _ []); [reflexivity|reflexivity|].
  exact fresh_initialised.
Defined.

Lemma at_start_not_ended : m_endOfEpoch at_start = false.
Proof. vm_compute. reflexivity. Qed.

Lemma buffers_registered : registered at_start buffers.
Proof.
  intros mx Hin.
  repeat (apply elem_of_cons in Hin as [->|Hin]); [vm_compute; eauto..|].
  apply elem_of_nil in Hin. contradiction.
Qed.

Lemma unlisted_not_registered : ¬ registered at_start unlisted.
Proof.
  intros R. destruct (R ("weights", blank 0)) as [x Hx].
  - right. left.
  - vm_compute in Hx. discriminate.
Qed.

Lemma GetMinibatch_delivers_iff_witness :
  (exists ms' r' ev,
     GetMinibatch false buffers at_start = (Returned (true, ms'), r', ev)) /\
  ¬ (exists ms' r' ev,
       GetMinibatch false unlisted at_start = (Returned (true, ms'), r', ev)).
Proof.
  split.
  - apply (GetMinibatch_delivers_iff false buffers at_start first_minibatch
             at_start_not_ended at_start_pending eq_refl);
      [discriminate|exact buffers_same_device|].
    split; [|intros _; exact buffers_registered].
    intros mx Hin.
    repeat (apply elem_of_cons in Hin as [->|Hin]);
      [vm_compute; eauto..|].
    apply elem_of_nil in Hin. contradiction.
  - intros D.
    apply (GetMinibatch_delivers_iff false unlisted at_start first_minibatch
             at_start_not_ended at_start_pending eq_refl) in D as [_ R];
      [|discriminate|exact unlisted_same_device].
    exact (unlisted_not_registered (R eq_refl)).
Defined.

Lemma GetMinibatch_unregistered_name_witness :
  ¬ registered at_start unlisted /\
  (GetMinibatch false unlisted at_start).1.1 = Aborted.
Proof.
  split; [exact unlisted_not_registered|].
  apply (GetMinibatch_unregistered_name unlisted at_start first_minibatch
           at_start_not_ended at_start_pending eq_refl);
    [discriminate|exact unlisted_same_device| |exact unlisted_not_registered].
  intros (mx & id & Hin & L & N).
  repeat (apply elem_of_cons in Hin as [->|Hin]).
  - vm_compute in L. injection L as <-. apply N. vm_compute. eauto.
  - vm_compute in L. discriminate.
  - apply elem_of_nil in Hin. contradiction.
Defined.

Lemma GetMinibatch_stream_out_of_range_witness :
  ¬ in_range one_stream first_minibatch buffers /\
  (GetMinibatch false buffers one_stream).1.1 = Undefined.
Proof.
  assert (NI : ¬ in_range one_stream first_minibatch buffers).
  { intros IR. destruct (IR ("labels", blank 0)) as [_ [x Hx]].
    - right. left.
    - vm_compute in Hx. discriminate. }
  split; [exact NI|].
  apply (GetMinibatch_stream_out_of_range false buffers one_stream
           first_minibatch);
    [reflexivity|reflexivity|reflexivity|discriminate
    |exact buffers_same_device| |exact NI].
  intros _ mx Hin.
  repeat (apply elem_of_cons in Hin as [->|Hin]); [vm_compute; eauto..|].
  apply elem_of_nil in Hin. contradiction.
Defined.

Lemma GetMinibatch_buffers_kept_witness :
  exists ms' r' ev,
    GetMinibatch false buffers at_start = (Returned (true, ms'), r', ev) /\
    ms'.*1 = ["features"; "labels"] /\ same_device ms'.
Proof.
  destruct at_start_returns as (ms' & r' & ev & G).
  exists ms', r', ev. split; [exact G|].
  destruct (GetMinibatch_buffers_kept false buffers at_start true ms' r' ev G)
    as (N & _ & _ & S).
  split; [exact N|exact (S buffers_same_device)].
Defined.

Lemma GetMinibatch_name_table_witness :
  m_nameToStreamId at_start !! "weights" = None /\
  exists ms' r' ev,
    GetMinibatch true unlisted at_start = (Returned (true, ms'), r', ev) /\
    m_nameToStreamId r' !! "weights" = Some 0%nat /\
    m_nameToStreamId r' !! "labels" = Some 1%nat.
Proof.
  split; [vm_compute; reflexivity|].
  assert (G : exists ms' r' ev,
            GetMinibatch true unlisted at_start
            = (Returned (true, ms'), r', ev))
    by (eexists _, _, _; vm_compute; reflexivity).
  destruct G as (ms' & r' & ev & G). exists ms', r', ev.
  split; [exact G|].
  destruct (GetMinibatch_name_table true unlisted at_start true ms' r' ev G)
    as [N _].
  rewrite !N. split; vm_compute; reflexivity.
Defined.

Lemma at_end_wf : wf at_end.
Proof. intros _. split; vm_compute; eauto. Qed.

Lemma at_last_wf : wf at_last.
Proof. intros _. split; vm_compute; eauto. Qed.

Lemma rejected_start_keeps_task_witness :
  m_endOfEpoch at_end = true /\
  pending_minibatch at_end = Some empty_minibatch /\
  exists r',
    StartDistributedMinibatchLoop 4 1 0 1 0 at_end =
    (Thrown (RuntimeError "Unsupported minibatch size '%d'." 0),
     r', await_events at_end) /\
    m_endOfEpoch r' = false /\
    pending_minibatch r' = Some empty_minibatch /\
    exists ms' r'' ev',
      GetMinibatch false buffers r' = (Returned (false, ms'), r'', ev').
Proof.
  assert (P : pending_minibatch at_end = Some empty_minibatch)
    by (vm_compute; reflexivity).
  split; [vm_compute; reflexivity|]. split; [exact P|].
  destruct (rejected_start_keeps_task false 4 1 0 1 0 at_end at_end_wf)
    as (r' & HS & E & P' & G); [reflexivity|].
  exists r'. split; [exact HS|]. split; [exact E|].
  split; [rewrite P'; exact P|].
  apply (G empty_minibatch buffers P);
    [discriminate|exact buffers_same_device|discriminate].
Defined.

Lemma StartDistributedMinibatchLoop_fresh_epoch_witness :
  pending_minibatch at_last = Some last_minibatch /\
  exists r' ev,
    StartDistributedMinibatchLoop 4 1 0 1 8 at_last = (Returned tt, r', ev) /\
    m_endOfEpoch r' = false /\
    pending_minibatch r' = Some first_minibatch.
Proof.
  split; [exact at_last_pending|].
  destruct (StartDistributedMinibatchLoop_fresh_epoch 4 1 0 1 8 at_last
              at_last_wf)
    as (r' & ev & z1 & HS & Z1 & E & _ & _ & _ & P);
    [reflexivity|vm_compute; eauto|].
  exists r', ev. split; [exact HS|]. split; [exact E|].
  rewrite P. vm_compute in Z1. injection Z1 as <-. vm_compute. reflexivity.
Defined.

Lemma StartDistributedMinibatchLoop_without_randomizer_witness :
  0 < 10 /\ (StartDistributedMinibatchLoop 4 0 0 1 10 fresh).1.1 = Undefined.
Proof.
  assert (Hpos : 0 < 10) by reflexivity.
  split; [exact Hpos|].
  apply (proj2 (StartDistributedMinibatchLoop_without_randomizer
                  (H:=collaborators) 4 0 0 1 10 Hpos)
           [tt] deferred false false false).
Defined.

Lemma first_epoch_after_Init_witness :
  exists r r',
    Init no_config fresh = (Returned tt, r, []) /\
    StartDistributedMinibatchLoop 4 0 0 1 10 r =
    (Returned tt, r',
     [EvRandomizerStartEpoch
        {| m_numberOfWorkers := 1; m_workerRank := 0;
           m_minibatchSizeInSamples := 4;
           m_totalEpochSizeInSamples := 10; m_epochIndex := 0 |};
      EvNewPacker true 4; EvLaunch 0 async]) /\
    m_packer r' = Some 4.
Proof.
  destruct (first_epoch_after_Init no_config fresh tt _ [] 4 0 0 1 10
              fresh_initialised)
    as (z & r' & _ & HS & _ & P & _); [reflexivity|reflexivity|].
  exists (Init no_config fresh).1.2, r'.
  split; [exact fresh_initialised|]. split; [exact HS|exact P].
Defined.

Lemma deferred_prefetch_thread_idle_witness :
  all_deferred (Init no_prefetch fresh).1.2 /\
  (run false [start10; PrefetchThread; get; PrefetchThread]
       (Init no_prefetch fresh).1.2).2
  = (run false (loop_calls [start10; PrefetchThread; get; PrefetchThread])
         (Init no_prefetch fresh).1.2).2.
Proof.
  destruct (deferred_prefetch_thread_idle (H:=collaborators) false)
    as (_ & R & I).
  assert (AD : all_deferred (Init no_prefetch fresh).1.2).
  { apply (I no_prefetch fresh tt _ []); [reflexivity|reflexivity|].
    vm_compute. reflexivity. }
  split; [exact AD|].
  apply (R [start10; PrefetchThread; get; PrefetchThread] _ AD).
Defined.

Lemma layout_reported_witness :
  exists ms' r' ev,
    GetMinibatch false buffers at_start = (Returned (true, ms'), r', ev) /\
    CopyMBLayoutTo r' =
      (Returned {| GetNumParallelSequences_ := 4; GetNumCols := 4 |}, r', []).
Proof.
  destruct at_start_returns as (ms' & r' & ev & G).
  exists ms', r', ev. split; [exact G|].
  destruct (proj1 (proj2 (proj2 (proj2 (layout_reported false))))
              buffers at_start ms' r' ev G)
    as (mx & pending & stream & La & P & Hs & C & _).
  rewrite C. rewrite at_start_pending in P. injection P as <-.
  vm_compute in La. injection La as <-.
  vm_compute in Hs. injection Hs as <-. reflexivity.
Defined.

Lemma CreateDeserializers_null_witness :
  m_deserializers bare = [] /\
  CreateDeserializers (H:=collaborators) false tt (Some ["a"; "b"]) bare
  = (Returned tt, set_m_deserializers [tt; tt] bare, []) /\
  m_deserializers fresh ≠ [] /\
  CreateDeserializers (H:=collaborators) false tt (Some ["a"; "b"]) fresh = (Aborted, fresh, []).
Proof.
  split; [reflexivity|].
  split.
  - apply (proj1 (CreateDeserializers_null (H:=collaborators) tt false (Some ["a"; "b"]) bare)).
    reflexivity.
  - split; [discriminate|].
    apply (proj2 (CreateDeserializers_null (H:=collaborators) tt false (Some ["a"; "b"]) fresh)).
    discriminate.
Defined.

Lemma CreateDeserializers_then_Init_witness :
  m_deserializers bare = [] /\
  exists r',
    (CreateDeserializers (H:=collaborators) false tt (Some ["a"; "b"]) ≫=
     fun _ => Init no_config) bare = (Returned tt, r', []) /\
    m_deserializers r' = [tt; tt] /\
    m_streams r'
    = [set_m_storageType dense features; set_m_storageType dense labels].
Proof.
  split; [reflexivity|].
  assert (B : exists r',
            (CreateDeserializers (H:=collaborators) false tt
               (Some ["a"; "b"]) ≫= fun _ => Init no_config) bare
            = (Returned tt, r', []))
    by (eexists; vm_compute; reflexivity).
  destruct B as (r' & B). exists r'. split; [exact B|].
  destruct (CreateDeserializers_then_Init (H:=collaborators) tt false
              (Some ["a"; "b"]) no_config bare tt r' [] eq_refl B)
    as (_ & D & S).
  split; [exact D|exact S].
Defined.

Lemma GetMinibatch_empty_without_flag_witness :
  pending_minibatch (after [CallStartDistributedMinibatchLoop 0 0 0 1 10])
  = Some {| mb_endOfEpoch := false; mb_data := [] |} /\
  exists r',
    (GetMinibatch false buffers
       (after [CallStartDistributedMinibatchLoop 0 0 0 1 10])).1
    = (Returned (false, buffers), r') /\
    m_endOfEpoch r' = false /\ valid r' = true.
Proof.
  assert (P : pending_minibatch
                (after [CallStartDistributedMinibatchLoop 0 0 0 1 10])
              = Some {| mb_endOfEpoch := false; mb_data := [] |})
    by (vm_compute; reflexivity).
  split; [exact P|].
  destruct (GetMinibatch_empty_without_flag false buffers
              (after [CallStartDistributedMinibatchLoop 0 0 0 1 10])
              {| mb_endOfEpoch := false; mb_data := [] |})
    as (r' & HG & E & T);
    [vm_compute; reflexivity|exact P|reflexivity|reflexivity|discriminate
    |exact buffers_same_device|].
  exists r'. rewrite HG. split; [reflexivity|]. split; [exact E|].
  unfold valid. rewrite T. reflexivity.
Defined.
